(** * TicketMonarch telemetry collector: page-context capture engine and
      coordinator, embedded from [chrome-extension/content.js] and
      [chrome-extension/background.js].

    Conventions of the embedding.
    - Clock readings ([performance.now()], [Date.now()]) are integers in
      milliseconds; a handler that runs to completion observes one reading
      of each clock, supplied by the environment record of that invocation.
    - A JavaScript property that is [undefined] or [null] is [None]; the
      truthiness tests of the source are written out ([truthy_string],
      [nonzero_time]).
    - Module-level [let] variables of a script are the fields of its state
      record; a handler is a function from state to state and the list of
      messages it sends. *)

From stdpp Require Import base numbers list strings gmap sorting.
From Stdlib Require Import ZArith Lia Ascii.

Local Open Scope Z_scope.

(** ** Values shared by both scripts: the wire format of event records *)

Record MouseSample := {
  ms_x : Z; ms_y : Z; ms_pageX : Z; ms_pageY : Z; ms_t : Z }.

Record TargetInfo := {
  ti_tag : option string; ti_id : option string; ti_classes : option string;
  ti_name : option string; ti_type : option string; ti_text : string }.

Record ClickRecord := {
  cr_t : Z; cr_x : Z; cr_y : Z; cr_button : string;
  cr_target : option TargetInfo; cr_dt_since_last : option Z }.

Inductive KeyType := down | up.

(** [kr_dt_since_last] is [None] when the property is absent (key-up
    records), [Some None] when it is [null], [Some (Some d)] otherwise. *)
Record KeyRecord := {
  kr_field : string; kr_type : KeyType; kr_t : Z;
  kr_dt_since_last : option (option Z); kr_key : option string }.

Record ScrollRecord := {
  sr_t : Z; sr_scrollX : Z; sr_scrollY : Z; sr_dx : Z; sr_dy : Z;
  sr_dt_since_last : option Z }.

(** The [telemetry] message built by [flushBuffers]. *)
Record Payload := {
  p_sessionId : option string; p_segmentId : Z; p_tabId : option Z;
  p_url : string; p_hostname : string; p_timestamp : Z;
  p_isSegmentEnd : bool;
  p_mouse : list MouseSample; p_clicks : list ClickRecord;
  p_keystrokes : list KeyRecord; p_scroll : list ScrollRecord }.

(** Client hints and network metadata are snapshots of host attributes that
    the scripts only forward; they are carried as opaque key/value text. *)
Definition Snapshot := list (string * string).

Record PageMetaMsg := {
  pm_sessionId : option string; pm_url : string; pm_hostname : string;
  pm_clientHints : option Snapshot; pm_network : option Snapshot;
  pm_timestamp : Z }.

Definition truthy_string (o : option string) : bool :=
  match o with
  | Some s => negb (String.eqb s "")
  | None => false
  end.

(** [a || b] on possibly-undefined strings. *)
Definition or_string (a b : option string) : option string :=
  if truthy_string a then a else b.

(** [a || null]. *)
Definition or_null (a : option string) : option string := or_string a None.

(** * content.js *)
Module Content.

(** ** Configuration *)
Definition MOUSE_SAMPLE_INTERVAL_MS : Z := 15.
Definition FLUSH_INTERVAL_MS : Z := 5000.
Definition IDLE_THRESHOLD_MS : Z := 3000.
Definition SCROLL_THROTTLE_MS : Z := 50.

Definition LOGGABLE_KEYS : gset string :=
  list_to_set
    [ "Backspace"; "Delete"; "Tab"; "Enter"; "Escape";
      "ArrowUp"; "ArrowDown"; "ArrowLeft"; "ArrowRight";
      "Home"; "End"; "PageUp"; "PageDown";
      "Insert"; "CapsLock"; "NumLock"; "ScrollLock";
      "ContextMenu"; "PrintScreen"; "Pause";
      "F1"; "F2"; "F3"; "F4"; "F5"; "F6";
      "F7"; "F8"; "F9"; "F10"; "F11"; "F12" ]%string.

(** ** Host objects *)

(** The last raw pointer position kept by [handleMouseMove]. *)
Record MousePos := { mp_x : Z; mp_y : Z; mp_pageX : Z; mp_pageY : Z }.

(** The properties of an event target that the handlers read. *)
Record Element := {
  tagName : option string; el_id : option string;
  className : option string; el_name : option string;
  el_type : option string; innerText : option string;
  isContentEditable : bool }.

Record MouseEvent := {
  me_clientX : Z; me_clientY : Z; me_pageX : Z; me_pageY : Z }.

Record ClickEvent := {
  ce_clientX : Z; ce_clientY : Z; ce_button : Z;
  ce_target : option Element }.

Record KeyboardEvent := { ke_key : string; ke_target : option Element }.

(** What [chrome.runtime] does when a handler tries to send: it delivers,
    it has lost its [id] (nothing is sent, nothing is thrown), or the access
    throws because the extension context was invalidated. *)
Inductive RuntimeStatus := RuntimeAlive | RuntimeNoId | RuntimeThrows.

(** What one handler invocation reads from the host. *)
Record Env := {
  performance_now : Z; Date_now : Z;
  window_scrollX : Z; window_scrollY : Z;
  document_hidden : bool;
  location_href : string; location_hostname : string;
  runtime : RuntimeStatus;
  collectClientHints : Snapshot; collectNetworkMeta : Snapshot }.

Inductive TimerKind := SampleTimer | FlushTimer | IdleTimer.

Inductive OutMsg :=
| Telemetry (p : Payload)
| PageMeta (m : PageMetaMsg)
| ContentStatus (rec idle : bool) (seg : Z) (mouse clicks keys scroll : nat)
| ContentReady.

(** ** State: the script's module-level variables, followed by the part of
    the host they drive (registered listeners and live interval timers). *)
Record State := {
  recording : bool; sessionId : option string; segmentId : Z;
  segmentStartTime : option Z;
  mouseBuffer : list MouseSample; clickBuffer : list ClickRecord;
  keystrokeBuffer : list KeyRecord; scrollBuffer : list ScrollRecord;
  lastMouseEvent : option MousePos; lastInteractionTime : Z;
  lastClickTimestamp : option Z;
  lastKeyTimestampByField : gmap string Z;
  lastScrollTimestamp : option Z; lastScrollX : Z; lastScrollY : Z;
  mouseIntervalId : option nat; flushIntervalId : option nat;
  idleCheckIntervalId : option nat; isIdle : bool; pageVisible : bool;
  lastFlushTime : Z;
  listeners : bool; timers : list (nat * TimerKind); nextTimerId : nat }.

Definition set_recording (v : bool) (s : State) : State :=
  {| recording := v; sessionId := sessionId s; segmentId := segmentId s;
     segmentStartTime := segmentStartTime s; mouseBuffer := mouseBuffer s;
     clickBuffer := clickBuffer s; keystrokeBuffer := keystrokeBuffer s;
     scrollBuffer := scrollBuffer s; lastMouseEvent := lastMouseEvent s;
     lastInteractionTime := lastInteractionTime s;
     lastClickTimestamp := lastClickTimestamp s;
     lastKeyTimestampByField := lastKeyTimestampByField s;
     lastScrollTimestamp := lastScrollTimestamp s;
     lastScrollX := lastScrollX s; lastScrollY := lastScrollY s;
     mouseIntervalId := mouseIntervalId s;
     flushIntervalId := flushIntervalId s;
     idleCheckIntervalId := idleCheckIntervalId s; isIdle := isIdle s;
     pageVisible := pageVisible s; lastFlushTime := lastFlushTime s;
     listeners := listeners s; timers := timers s;
     nextTimerId := nextTimerId s |}.
Definition set_sessionId (v : option string) (s : State) : State :=
  {| recording := recording s; sessionId := v; segmentId := segmentId s;
     segmentStartTime := segmentStartTime s; mouseBuffer := mouseBuffer s;
     clickBuffer := clickBuffer s; keystrokeBuffer := keystrokeBuffer s;
     scrollBuffer := scrollBuffer s; lastMouseEvent := lastMouseEvent s;
     lastInteractionTime := lastInteractionTime s;
     lastClickTimestamp := lastClickTimestamp s;
     lastKeyTimestampByField := lastKeyTimestampByField s;
     lastScrollTimestamp := lastScrollTimestamp s;
     lastScrollX := lastScrollX s; lastScrollY := lastScrollY s;
     mouseIntervalId := mouseIntervalId s;
     flushIntervalId := flushIntervalId s;
     idleCheckIntervalId := idleCheckIntervalId s; isIdle := isIdle s;
     pageVisible := pageVisible s; lastFlushTime := lastFlushTime s;
     listeners := listeners s; timers := timers s;
     nextTimerId := nextTimerId s |}.
Definition set_segmentId (v : Z) (s : State) : State :=
  {| recording := recording s; sessionId := sessionId s; segmentId := v;
     segmentStartTime := segmentStartTime s; mouseBuffer := mouseBuffer s;
     clickBuffer := clickBuffer s; keystrokeBuffer := keystrokeBuffer s;
     scrollBuffer := scrollBuffer s; lastMouseEvent := lastMouseEvent s;
     lastInteractionTime := lastInteractionTime s;
     lastClickTimestamp := lastClickTimestamp s;
     lastKeyTimestampByField := lastKeyTimestampByField s;
     lastScrollTimestamp := lastScrollTimestamp s;
     lastScrollX := lastScrollX s; lastScrollY := lastScrollY s;
     mouseIntervalId := mouseIntervalId s;
     flushIntervalId := flushIntervalId s;
     idleCheckIntervalId := idleCheckIntervalId s; isIdle := isIdle s;
     pageVisible := pageVisible s; lastFlushTime := lastFlushTime s;
     listeners := listeners s; timers := timers s;
     nextTimerId := nextTimerId s |}.
Definition set_segmentStartTime (v : option Z) (s : State) : State :=
  {| recording := recording s; sessionId := sessionId s;
     segmentId := segmentId s; segmentStartTime := v;
     mouseBuffer := mouseBuffer s; clickBuffer := clickBuffer s;
     keystrokeBuffer := keystrokeBuffer s; scrollBuffer := scrollBuffer s;
     lastMouseEvent := lastMouseEvent s;
     lastInteractionTime := lastInteractionTime s;
     lastClickTimestamp := lastClickTimestamp s;
     lastKeyTimestampByField := lastKeyTimestampByField s;
     lastScrollTimestamp := lastScrollTimestamp s;
     lastScrollX := lastScrollX s; lastScrollY := lastScrollY s;
     mouseIntervalId := mouseIntervalId s;
     flushIntervalId := flushIntervalId s;
     idleCheckIntervalId := idleCheckIntervalId s; isIdle := isIdle s;
     pageVisible := pageVisible s; lastFlushTime := lastFlushTime s;
     listeners := listeners s; timers := timers s;
     nextTimerId := nextTimerId s |}.
Definition set_mouseBuffer (v : list MouseSample) (s : State) : State :=
  {| recording := recording s; sessionId := sessionId s;
     segmentId := segmentId s; segmentStartTime := segmentStartTime s;
     mouseBuffer := v; clickBuffer := clickBuffer s;
     keystrokeBuffer := keystrokeBuffer s; scrollBuffer := scrollBuffer s;
     lastMouseEvent := lastMouseEvent s;
     lastInteractionTime := lastInteractionTime s;
     lastClickTimestamp := lastClickTimestamp s;
     lastKeyTimestampByField := lastKeyTimestampByField s;
     lastScrollTimestamp := lastScrollTimestamp s;
     lastScrollX := lastScrollX s; lastScrollY := lastScrollY s;
     mouseIntervalId := mouseIntervalId s;
     flushIntervalId := flushIntervalId s;
     idleCheckIntervalId := idleCheckIntervalId s; isIdle := isIdle s;
     pageVisible := pageVisible s; lastFlushTime := lastFlushTime s;
     listeners := listeners s; timers := timers s;
     nextTimerId := nextTimerId s |}.
Definition set_clickBuffer (v : list ClickRecord) (s : State) : State :=
  {| recording := recording s; sessionId := sessionId s;
     segmentId := segmentId s; segmentStartTime := segmentStartTime s;
     mouseBuffer := mouseBuffer s; clickBuffer := v;
     keystrokeBuffer := keystrokeBuffer s; scrollBuffer := scrollBuffer s;
     lastMouseEvent := lastMouseEvent s;
     lastInteractionTime := lastInteractionTime s;
     lastClickTimestamp := lastClickTimestamp s;
     lastKeyTimestampByField := lastKeyTimestampByField s;
     lastScrollTimestamp := lastScrollTimestamp s;
     lastScrollX := lastScrollX s; lastScrollY := lastScrollY s;
     mouseIntervalId := mouseIntervalId s;
     flushIntervalId := flushIntervalId s;
     idleCheckIntervalId := idleCheckIntervalId s; isIdle := isIdle s;
     pageVisible := pageVisible s; lastFlushTime := lastFlushTime s;
     listeners := listeners s; timers := timers s;
     nextTimerId := nextTimerId s |}.
Definition set_keystrokeBuffer (v : list KeyRecord) (s : State) : State :=
  {| recording := recording s; sessionId := sessionId s;
     segmentId := segmentId s; segmentStartTime := segmentStartTime s;
     mouseBuffer := mouseBuffer s; clickBuffer := clickBuffer s;
     keystrokeBuffer := v; scrollBuffer := scrollBuffer s;
     lastMouseEvent := lastMouseEvent s;
     lastInteractionTime := lastInteractionTime s;
     lastClickTimestamp := lastClickTimestamp s;
     lastKeyTimestampByField := lastKeyTimestampByField s;
     lastScrollTimestamp := lastScrollTimestamp s;
     lastScrollX := lastScrollX s; lastScrollY := lastScrollY s;
     mouseIntervalId := mouseIntervalId s;
     flushIntervalId := flushIntervalId s;
     idleCheckIntervalId := idleCheckIntervalId s; isIdle := isIdle s;
     pageVisible := pageVisible s; lastFlushTime := lastFlushTime s;
     listeners := listeners s; timers := timers s;
     nextTimerId := nextTimerId s |}.
Definition set_scrollBuffer (v : list ScrollRecord) (s : State) : State :=
  {| recording := recording s; sessionId := sessionId s;
     segmentId := segmentId s; segmentStartTime := segmentStartTime s;
     mouseBuffer := mouseBuffer s; clickBuffer := clickBuffer s;
     keystrokeBuffer := keystrokeBuffer s; scrollBuffer := v;
     lastMouseEvent := lastMouseEvent s;
     lastInteractionTime := lastInteractionTime s;
     lastClickTimestamp := lastClickTimestamp s;
     lastKeyTimestampByField := lastKeyTimestampByField s;
     lastScrollTimestamp := lastScrollTimestamp s;
     lastScrollX := lastScrollX s; lastScrollY := lastScrollY s;
     mouseIntervalId := mouseIntervalId s;
     flushIntervalId := flushIntervalId s;
     idleCheckIntervalId := idleCheckIntervalId s; isIdle := isIdle s;
     pageVisible := pageVisible s; lastFlushTime := lastFlushTime s;
     listeners := listeners s; timers := timers s;
     nextTimerId := nextTimerId s |}.
Definition set_lastMouseEvent (v : option MousePos) (s : State) : State :=
  {| recording := recording s; sessionId := sessionId s;
     segmentId := segmentId s; segmentStartTime := segmentStartTime s;
     mouseBuffer := mouseBuffer s; clickBuffer := clickBuffer s;
     keystrokeBuffer := keystrokeBuffer s; scrollBuffer := scrollBuffer s;
     lastMouseEvent := v; lastInteractionTime := lastInteractionTime s;
     lastClickTimestamp := lastClickTimestamp s;
     lastKeyTimestampByField := lastKeyTimestampByField s;
     lastScrollTimestamp := lastScrollTimestamp s;
     lastScrollX := lastScrollX s; lastScrollY := lastScrollY s;
     mouseIntervalId := mouseIntervalId s;
     flushIntervalId := flushIntervalId s;
     idleCheckIntervalId := idleCheckIntervalId s; isIdle := isIdle s;
     pageVisible := pageVisible s; lastFlushTime := lastFlushTime s;
     listeners := listeners s; timers := timers s;
     nextTimerId := nextTimerId s |}.
Definition set_lastInteractionTime (v : Z) (s : State) : State :=
  {| recording := recording s; sessionId := sessionId s;
     segmentId := segmentId s; segmentStartTime := segmentStartTime s;
     mouseBuffer := mouseBuffer s; clickBuffer := clickBuffer s;
     keystrokeBuffer := keystrokeBuffer s; scrollBuffer := scrollBuffer s;
     lastMouseEvent := lastMouseEvent s; lastInteractionTime := v;
     lastClickTimestamp := lastClickTimestamp s;
     lastKeyTimestampByField := lastKeyTimestampByField s;
     lastScrollTimestamp := lastScrollTimestamp s;
     lastScrollX := lastScrollX s; lastScrollY := lastScrollY s;
     mouseIntervalId := mouseIntervalId s;
     flushIntervalId := flushIntervalId s;
     idleCheckIntervalId := idleCheckIntervalId s; isIdle := isIdle s;
     pageVisible := pageVisible s; lastFlushTime := lastFlushTime s;
     listeners := listeners s; timers := timers s;
     nextTimerId := nextTimerId s |}.
Definition set_lastClickTimestamp (v : option Z) (s : State) : State :=
  {| recording := recording s; sessionId := sessionId s;
     segmentId := segmentId s; segmentStartTime := segmentStartTime s;
     mouseBuffer := mouseBuffer s; clickBuffer := clickBuffer s;
     keystrokeBuffer := keystrokeBuffer s; scrollBuffer := scrollBuffer s;
     lastMouseEvent := lastMouseEvent s;
     lastInteractionTime := lastInteractionTime s; lastClickTimestamp := v;
     lastKeyTimestampByField := lastKeyTimestampByField s;
     lastScrollTimestamp := lastScrollTimestamp s;
     lastScrollX := lastScrollX s; lastScrollY := lastScrollY s;
     mouseIntervalId := mouseIntervalId s;
     flushIntervalId := flushIntervalId s;
     idleCheckIntervalId := idleCheckIntervalId s; isIdle := isIdle s;
     pageVisible := pageVisible s; lastFlushTime := lastFlushTime s;
     listeners := listeners s; timers := timers s;
     nextTimerId := nextTimerId s |}.
Definition set_lastKeyTimestampByField (v : gmap string Z) (s : State) : State :=
  {| recording := recording s; sessionId := sessionId s;
     segmentId := segmentId s; segmentStartTime := segmentStartTime s;
     mouseBuffer := mouseBuffer s; clickBuffer := clickBuffer s;
     keystrokeBuffer := keystrokeBuffer s; scrollBuffer := scrollBuffer s;
     lastMouseEvent := lastMouseEvent s;
     lastInteractionTime := lastInteractionTime s;
     lastClickTimestamp := lastClickTimestamp s; lastKeyTimestampByField := v;
     lastScrollTimestamp := lastScrollTimestamp s;
     lastScrollX := lastScrollX s; lastScrollY := lastScrollY s;
     mouseIntervalId := mouseIntervalId s;
     flushIntervalId := flushIntervalId s;
     idleCheckIntervalId := idleCheckIntervalId s; isIdle := isIdle s;
     pageVisible := pageVisible s; lastFlushTime := lastFlushTime s;
     listeners := listeners s; timers := timers s;
     nextTimerId := nextTimerId s |}.
Definition set_lastScrollTimestamp (v : option Z) (s : State) : State :=
  {| recording := recording s; sessionId := sessionId s;
     segmentId := segmentId s; segmentStartTime := segmentStartTime s;
     mouseBuffer := mouseBuffer s; clickBuffer := clickBuffer s;
     keystrokeBuffer := keystrokeBuffer s; scrollBuffer := scrollBuffer s;
     lastMouseEvent := lastMouseEvent s;
     lastInteractionTime := lastInteractionTime s;
     lastClickTimestamp := lastClickTimestamp s;
     lastKeyTimestampByField := lastKeyTimestampByField s;
     lastScrollTimestamp := v; lastScrollX := lastScrollX s;
     lastScrollY := lastScrollY s; mouseIntervalId := mouseIntervalId s;
     flushIntervalId := flushIntervalId s;
     idleCheckIntervalId := idleCheckIntervalId s; isIdle := isIdle s;
     pageVisible := pageVisible s; lastFlushTime := lastFlushTime s;
     listeners := listeners s; timers := timers s;
     nextTimerId := nextTimerId s |}.
Definition set_lastScrollX (v : Z) (s : State) : State :=
  {| recording := recording s; sessionId := sessionId s;
     segmentId := segmentId s; segmentStartTime := segmentStartTime s;
     mouseBuffer := mouseBuffer s; clickBuffer := clickBuffer s;
     keystrokeBuffer := keystrokeBuffer s; scrollBuffer := scrollBuffer s;
     lastMouseEvent := lastMouseEvent s;
     lastInteractionTime := lastInteractionTime s;
     lastClickTimestamp := lastClickTimestamp s;
     lastKeyTimestampByField := lastKeyTimestampByField s;
     lastScrollTimestamp := lastScrollTimestamp s; lastScrollX := v;
     lastScrollY := lastScrollY s; mouseIntervalId := mouseIntervalId s;
     flushIntervalId := flushIntervalId s;
     idleCheckIntervalId := idleCheckIntervalId s; isIdle := isIdle s;
     pageVisible := pageVisible s; lastFlushTime := lastFlushTime s;
     listeners := listeners s; timers := timers s;
     nextTimerId := nextTimerId s |}.
Definition set_lastScrollY (v : Z) (s : State) : State :=
  {| recording := recording s; sessionId := sessionId s;
     segmentId := segmentId s; segmentStartTime := segmentStartTime s;
     mouseBuffer := mouseBuffer s; clickBuffer := clickBuffer s;
     keystrokeBuffer := keystrokeBuffer s; scrollBuffer := scrollBuffer s;
     lastMouseEvent := lastMouseEvent s;
     lastInteractionTime := lastInteractionTime s;
     lastClickTimestamp := lastClickTimestamp s;
     lastKeyTimestampByField := lastKeyTimestampByField s;
     lastScrollTimestamp := lastScrollTimestamp s;
     lastScrollX := lastScrollX s; lastScrollY := v;
     mouseIntervalId := mouseIntervalId s;
     flushIntervalId := flushIntervalId s;
     idleCheckIntervalId := idleCheckIntervalId s; isIdle := isIdle s;
     pageVisible := pageVisible s; lastFlushTime := lastFlushTime s;
     listeners := listeners s; timers := timers s;
     nextTimerId := nextTimerId s |}.
Definition set_mouseIntervalId (v : option nat) (s : State) : State :=
  {| recording := recording s; sessionId := sessionId s;
     segmentId := segmentId s; segmentStartTime := segmentStartTime s;
     mouseBuffer := mouseBuffer s; clickBuffer := clickBuffer s;
     keystrokeBuffer := keystrokeBuffer s; scrollBuffer := scrollBuffer s;
     lastMouseEvent := lastMouseEvent s;
     lastInteractionTime := lastInteractionTime s;
     lastClickTimestamp := lastClickTimestamp s;
     lastKeyTimestampByField := lastKeyTimestampByField s;
     lastScrollTimestamp := lastScrollTimestamp s;
     lastScrollX := lastScrollX s; lastScrollY := lastScrollY s;
     mouseIntervalId := v; flushIntervalId := flushIntervalId s;
     idleCheckIntervalId := idleCheckIntervalId s; isIdle := isIdle s;
     pageVisible := pageVisible s; lastFlushTime := lastFlushTime s;
     listeners := listeners s; timers := timers s;
     nextTimerId := nextTimerId s |}.
Definition set_flushIntervalId (v : option nat) (s : State) : State :=
  {| recording := recording s; sessionId := sessionId s;
     segmentId := segmentId s; segmentStartTime := segmentStartTime s;
     mouseBuffer := mouseBuffer s; clickBuffer := clickBuffer s;
     keystrokeBuffer := keystrokeBuffer s; scrollBuffer := scrollBuffer s;
     lastMouseEvent := lastMouseEvent s;
     lastInteractionTime := lastInteractionTime s;
     lastClickTimestamp := lastClickTimestamp s;
     lastKeyTimestampByField := lastKeyTimestampByField s;
     lastScrollTimestamp := lastScrollTimestamp s;
     lastScrollX := lastScrollX s; lastScrollY := lastScrollY s;
     mouseIntervalId := mouseIntervalId s; flushIntervalId := v;
     idleCheckIntervalId := idleCheckIntervalId s; isIdle := isIdle s;
     pageVisible := pageVisible s; lastFlushTime := lastFlushTime s;
     listeners := listeners s; timers := timers s;
     nextTimerId := nextTimerId s |}.
Definition set_idleCheckIntervalId (v : option nat) (s : State) : State :=
  {| recording := recording s; sessionId := sessionId s;
     segmentId := segmentId s; segmentStartTime := segmentStartTime s;
     mouseBuffer := mouseBuffer s; clickBuffer := clickBuffer s;
     keystrokeBuffer := keystrokeBuffer s; scrollBuffer := scrollBuffer s;
     lastMouseEvent := lastMouseEvent s;
     lastInteractionTime := lastInteractionTime s;
     lastClickTimestamp := lastClickTimestamp s;
     lastKeyTimestampByField := lastKeyTimestampByField s;
     lastScrollTimestamp := lastScrollTimestamp s;
     lastScrollX := lastScrollX s; lastScrollY := lastScrollY s;
     mouseIntervalId := mouseIntervalId s;
     flushIntervalId := flushIntervalId s; idleCheckIntervalId := v;
     isIdle := isIdle s; pageVisible := pageVisible s;
     lastFlushTime := lastFlushTime s; listeners := listeners s;
     timers := timers s; nextTimerId := nextTimerId s |}.
Definition set_isIdle (v : bool) (s : State) : State :=
  {| recording := recording s; sessionId := sessionId s;
     segmentId := segmentId s; segmentStartTime := segmentStartTime s;
     mouseBuffer := mouseBuffer s; clickBuffer := clickBuffer s;
     keystrokeBuffer := keystrokeBuffer s; scrollBuffer := scrollBuffer s;
     lastMouseEvent := lastMouseEvent s;
     lastInteractionTime := lastInteractionTime s;
     lastClickTimestamp := lastClickTimestamp s;
     lastKeyTimestampByField := lastKeyTimestampByField s;
     lastScrollTimestamp := lastScrollTimestamp s;
     lastScrollX := lastScrollX s; lastScrollY := lastScrollY s;
     mouseIntervalId := mouseIntervalId s;
     flushIntervalId := flushIntervalId s;
     idleCheckIntervalId := idleCheckIntervalId s; isIdle := v;
     pageVisible := pageVisible s; lastFlushTime := lastFlushTime s;
     listeners := listeners s; timers := timers s;
     nextTimerId := nextTimerId s |}.
Definition set_pageVisible (v : bool) (s : State) : State :=
  {| recording := recording s; sessionId := sessionId s;
     segmentId := segmentId s; segmentStartTime := segmentStartTime s;
     mouseBuffer := mouseBuffer s; clickBuffer := clickBuffer s;
     keystrokeBuffer := keystrokeBuffer s; scrollBuffer := scrollBuffer s;
     lastMouseEvent := lastMouseEvent s;
     lastInteractionTime := lastInteractionTime s;
     lastClickTimestamp := lastClickTimestamp s;
     lastKeyTimestampByField := lastKeyTimestampByField s;
     lastScrollTimestamp := lastScrollTimestamp s;
     lastScrollX := lastScrollX s; lastScrollY := lastScrollY s;
     mouseIntervalId := mouseIntervalId s;
     flushIntervalId := flushIntervalId s;
     idleCheckIntervalId := idleCheckIntervalId s; isIdle := isIdle s;
     pageVisible := v; lastFlushTime := lastFlushTime s;
     listeners := listeners s; timers := timers s;
     nextTimerId := nextTimerId s |}.
Definition set_lastFlushTime (v : Z) (s : State) : State :=
  {| recording := recording s; sessionId := sessionId s;
     segmentId := segmentId s; segmentStartTime := segmentStartTime s;
     mouseBuffer := mouseBuffer s; clickBuffer := clickBuffer s;
     keystrokeBuffer := keystrokeBuffer s; scrollBuffer := scrollBuffer s;
     lastMouseEvent := lastMouseEvent s;
     lastInteractionTime := lastInteractionTime s;
     lastClickTimestamp := lastClickTimestamp s;
     lastKeyTimestampByField := lastKeyTimestampByField s;
     lastScrollTimestamp := lastScrollTimestamp s;
     lastScrollX := lastScrollX s; lastScrollY := lastScrollY s;
     mouseIntervalId := mouseIntervalId s;
     flushIntervalId := flushIntervalId s;
     idleCheckIntervalId := idleCheckIntervalId s; isIdle := isIdle s;
     pageVisible := pageVisible s; lastFlushTime := v;
     listeners := listeners s; timers := timers s;
     nextTimerId := nextTimerId s |}.
Definition set_listeners (v : bool) (s : State) : State :=
  {| recording := recording s; sessionId := sessionId s;
     segmentId := segmentId s; segmentStartTime := segmentStartTime s;
     mouseBuffer := mouseBuffer s; clickBuffer := clickBuffer s;
     keystrokeBuffer := keystrokeBuffer s; scrollBuffer := scrollBuffer s;
     lastMouseEvent := lastMouseEvent s;
     lastInteractionTime := lastInteractionTime s;
     lastClickTimestamp := lastClickTimestamp s;
     lastKeyTimestampByField := lastKeyTimestampByField s;
     lastScrollTimestamp := lastScrollTimestamp s;
     lastScrollX := lastScrollX s; lastScrollY := lastScrollY s;
     mouseIntervalId := mouseIntervalId s;
     flushIntervalId := flushIntervalId s;
     idleCheckIntervalId := idleCheckIntervalId s; isIdle := isIdle s;
     pageVisible := pageVisible s; lastFlushTime := lastFlushTime s;
     listeners := v; timers := timers s; nextTimerId := nextTimerId s |}.
Definition set_timers (v : list (nat * TimerKind)) (s : State) : State :=
  {| recording := recording s; sessionId := sessionId s;
     segmentId := segmentId s; segmentStartTime := segmentStartTime s;
     mouseBuffer := mouseBuffer s; clickBuffer := clickBuffer s;
     keystrokeBuffer := keystrokeBuffer s; scrollBuffer := scrollBuffer s;
     lastMouseEvent := lastMouseEvent s;
     lastInteractionTime := lastInteractionTime s;
     lastClickTimestamp := lastClickTimestamp s;
     lastKeyTimestampByField := lastKeyTimestampByField s;
     lastScrollTimestamp := lastScrollTimestamp s;
     lastScrollX := lastScrollX s; lastScrollY := lastScrollY s;
     mouseIntervalId := mouseIntervalId s;
     flushIntervalId := flushIntervalId s;
     idleCheckIntervalId := idleCheckIntervalId s; isIdle := isIdle s;
     pageVisible := pageVisible s; lastFlushTime := lastFlushTime s;
     listeners := listeners s; timers := v; nextTimerId := nextTimerId s |}.
Definition set_nextTimerId (v : nat) (s : State) : State :=
  {| recording := recording s; sessionId := sessionId s;
     segmentId := segmentId s; segmentStartTime := segmentStartTime s;
     mouseBuffer := mouseBuffer s; clickBuffer := clickBuffer s;
     keystrokeBuffer := keystrokeBuffer s; scrollBuffer := scrollBuffer s;
     lastMouseEvent := lastMouseEvent s;
     lastInteractionTime := lastInteractionTime s;
     lastClickTimestamp := lastClickTimestamp s;
     lastKeyTimestampByField := lastKeyTimestampByField s;
     lastScrollTimestamp := lastScrollTimestamp s;
     lastScrollX := lastScrollX s; lastScrollY := lastScrollY s;
     mouseIntervalId := mouseIntervalId s;
     flushIntervalId := flushIntervalId s;
     idleCheckIntervalId := idleCheckIntervalId s; isIdle := isIdle s;
     pageVisible := pageVisible s; lastFlushTime := lastFlushTime s;
     listeners := listeners s; timers := timers s; nextTimerId := v |}.

(** [setInterval]: a fresh positive id, registered with the host. *)
Definition setInterval (k : TimerKind) (s : State) : nat * State :=
  let id := nextTimerId s in
  (id, set_nextTimerId (S id) (set_timers (timers s ++ [(id, k)]) s)).

Definition clearInterval (id : nat) (s : State) : State :=
  set_timers (filter (fun t => t.1 ≠ id) (timers s)) s.

Definition has_timer (k : TimerKind) (s : State) : bool :=
  existsb (fun t => match t.2, k with
                    | SampleTimer, SampleTimer
                    | FlushTimer, FlushTimer
                    | IdleTimer, IdleTimer => true
                    | _, _ => false
                    end) (timers s).

(** The state when the script has been injected and evaluated. *)
Definition initial (env : Env) : State :=
  {| recording := false; sessionId := None; segmentId := 0;
     segmentStartTime := None;
     mouseBuffer := []; clickBuffer := []; keystrokeBuffer := [];
     scrollBuffer := [];
     lastMouseEvent := None; lastInteractionTime := performance_now env;
     lastClickTimestamp := None; lastKeyTimestampByField := ∅;
     lastScrollTimestamp := None;
     lastScrollX := window_scrollX env; lastScrollY := window_scrollY env;
     mouseIntervalId := None; flushIntervalId := None;
     idleCheckIntervalId := None; isIdle := false; pageVisible := true;
     lastFlushTime := Date_now env;
     listeners := false; timers := []; nextTimerId := 1 |}.

(** ** Segment management *)

Definition startNewSegment (env : Env) (s : State) : State :=
  let s := set_segmentId (segmentId s + 1) s in
  let s := set_segmentStartTime (Some (Date_now env)) s in
  let s := set_mouseBuffer [] s in
  let s := set_clickBuffer [] s in
  let s := set_keystrokeBuffer [] s in
  let s := set_scrollBuffer [] s in
  let s := set_lastClickTimestamp None s in
  let s := set_lastKeyTimestampByField ∅ s in
  let s := set_lastScrollTimestamp None s in
  match mouseIntervalId s with
  | None => let '(id, s) := setInterval SampleTimer s in
            set_mouseIntervalId (Some id) s
  | Some _ => s
  end.

Definition touchInteraction (env : Env) (s : State) : State :=
  let s := set_lastInteractionTime (performance_now env) s in
  if isIdle s then startNewSegment env (set_isIdle false s) else s.

(** ** Flush and stop.  [flushBuffers] calls [stopRecording] from its
    [catch] block and [stopRecording] calls [flushBuffers]; each body takes
    the other as a parameter and the knot is tied below. *)

Definition hasData (s : State) : bool :=
  negb (Nat.eqb (length (mouseBuffer s)) 0)
  || negb (Nat.eqb (length (clickBuffer s)) 0)
  || negb (Nat.eqb (length (keystrokeBuffer s)) 0)
  || negb (Nat.eqb (length (scrollBuffer s)) 0).

Definition build_payload (env : Env) (isSegmentEnd : bool) (s : State)
  : Payload :=
  {| p_sessionId := sessionId s; p_segmentId := segmentId s;
     p_tabId := None;
     p_url := location_href env; p_hostname := location_hostname env;
     p_timestamp := Date_now env; p_isSegmentEnd := isSegmentEnd;
     p_mouse := mouseBuffer s; p_clicks := clickBuffer s;
     p_keystrokes := keystrokeBuffer s; p_scroll := scrollBuffer s |}.

(** The four [buf.splice(0)] calls: every buffer is emptied in place. *)
Definition splice_all (s : State) : State :=
  set_scrollBuffer []
    (set_keystrokeBuffer [] (set_clickBuffer [] (set_mouseBuffer [] s))).

Definition flushBuffers_body
    (stop : Env → State → State * list OutMsg)
    (env : Env) (isSegmentEnd : bool) (s : State) : State * list OutMsg :=
  if negb (recording s) || negb (truthy_string (sessionId s)) then (s, [])
  else if negb (hasData s) && negb isSegmentEnd then (s, [])
  else
    let payload := build_payload env isSegmentEnd s in
    let s := splice_all s in
    match runtime env with
    | RuntimeAlive => (s, [Telemetry payload])
    | RuntimeNoId => (s, [])
    | RuntimeThrows => stop env s
    end.

Definition clear_timer (id : option nat) (s : State) : State :=
  match id with
  | Some i => clearInterval i s
  | None => s
  end.

(** The statements of [stopRecording] after its flush call: listeners
    removed, the three interval variables cleared. *)
Definition teardown (s : State) : State :=
  let s := set_listeners false s in
  let s := set_mouseIntervalId None (clear_timer (mouseIntervalId s) s) in
  let s := set_flushIntervalId None (clear_timer (flushIntervalId s) s) in
  set_idleCheckIntervalId None (clear_timer (idleCheckIntervalId s) s).

Definition stopRecording_body
    (flush : Env → bool → State → State * list OutMsg)
    (env : Env) (s : State) : State * list OutMsg :=
  if negb (recording s) then (s, [])
  else
    let s := set_recording false s in
    let '(s, out) := flush env true s in
    (teardown s, out).

(** Call nesting [depth]: at depth [0] the nested call is not entered. *)
Fixpoint stopRecording_depth (depth : nat) (env : Env) (s : State)
  : State * list OutMsg :=
  match depth with
  | O => (s, [])
  | S d => stopRecording_body (flushBuffers_body (stopRecording_depth d)) env s
  end.

(** The source nests at most [stopRecording → flushBuffers → stopRecording];
    [stopRecording_unfold] below shows the recursive equation of the source
    holds at this depth. *)
Definition stopRecording : Env → State → State * list OutMsg :=
  stopRecording_depth 2.

Definition flushBuffers : Env → bool → State → State * list OutMsg :=
  flushBuffers_body stopRecording.

Definition endCurrentSegment (env : Env) (s : State) : State * list OutMsg :=
  let '(s, out) := flushBuffers env true s in
  (set_mouseIntervalId None (clear_timer (mouseIntervalId s) s), out).

(** ** Mouse tracking *)

Definition handleMouseMove (env : Env) (event : MouseEvent) (s : State)
  : State :=
  let s := set_lastMouseEvent
             (Some {| mp_x := me_clientX event; mp_y := me_clientY event;
                      mp_pageX := me_pageX event;
                      mp_pageY := me_pageY event |}) s in
  touchInteraction env s.

Definition sampleMousePosition (env : Env) (s : State) : State :=
  match lastMouseEvent s with
  | None => s
  | Some m =>
      if isIdle s || negb (recording s) then s
      else set_mouseBuffer
             (mouseBuffer s ++
                [ {| ms_x := mp_x m; ms_y := mp_y m; ms_pageX := mp_pageX m;
                     ms_pageY := mp_pageY m; ms_t := performance_now env |} ])
             s
  end.

(** ** Click tracking *)

(** [buttonMap[event.button] || 'unknown'] *)
Definition buttonName (b : Z) : string :=
  if b =? 0 then "left"
  else if b =? 1 then "middle"
  else if b =? 2 then "right"
  else "unknown".

Definition from_option_string (o : option string) : string :=
  match o with Some s => s | None => "" end.

Definition targetInfo (t : Element) : TargetInfo :=
  {| ti_tag := tagName t; ti_id := or_null (el_id t);
     ti_classes := or_null (className t); ti_name := or_null (el_name t);
     ti_type := or_null (el_type t);
     ti_text := String.substring 0 64 (from_option_string (innerText t)) |}.

Definition handleClick (env : Env) (event : ClickEvent) (s : State)
  : State :=
  if negb (recording s) then s
  else
    let s := touchInteraction env s in
    if isIdle s then s
    else
      let now := performance_now env in
      let dtSinceLast :=
        match lastClickTimestamp s with
        | Some l => Some (now - l)
        | None => None
        end in
      let s := set_lastClickTimestamp (Some now) s in
      set_clickBuffer
        (clickBuffer s ++
           [ {| cr_t := now; cr_x := ce_clientX event;
                cr_y := ce_clientY event;
                cr_button := buttonName (ce_button event);
                cr_target := targetInfo <$> ce_target event;
                cr_dt_since_last := dtSinceLast |} ]) s.

(** ** Keystroke tracking *)

Definition lower_ascii (c : ascii) : ascii :=
  let n := nat_of_ascii c in
  if (Nat.leb 65 n && Nat.leb n 90)%bool then ascii_of_nat (n + 32) else c.

Fixpoint toLowerCase (s : string) : string :=
  match s with
  | EmptyString => EmptyString
  | String c r => String (lower_ascii c) (toLowerCase r)
  end.

Definition _getFieldId (target : option Element) : string :=
  match target with
  | None => "body"
  | Some target =>
      let tag := from_option_string (or_string (tagName target) (Some "")) in
      if String.eqb tag "INPUT" || String.eqb tag "TEXTAREA"
         || String.eqb tag "SELECT"
      then from_option_string
             (or_string (el_name target)
                (or_string (el_id target)
                   (or_string (el_type target) (Some (toLowerCase tag)))))
      else if isContentEditable target
      then from_option_string
             (or_string (el_id target) (Some "contenteditable"))
      else from_option_string
             (or_string (el_id target)
                (or_string (Some (toLowerCase tag)) (Some "body")))
  end.

(** [LOGGABLE_KEYS.has(event.key) ? event.key : null] *)
Definition loggable (key : string) : option string :=
  if bool_decide (key ∈ LOGGABLE_KEYS) then Some key else None.

(** Field ids are looked up as own properties; ids that collide with the
    members every object inherits are outside this model. *)
Definition handleKeyDown (env : Env) (event : KeyboardEvent) (s : State)
  : State :=
  if negb (recording s) then s
  else
    let s := touchInteraction env s in
    if isIdle s then s
    else
      let now := performance_now env in
      let fieldId := _getFieldId (ke_target event) in
      let dt :=
        match lastKeyTimestampByField s !! fieldId with
        | Some l => Some (now - l)
        | None => None
        end in
      let s := set_lastKeyTimestampByField
                 (<[fieldId := now]> (lastKeyTimestampByField s)) s in
      set_keystrokeBuffer
        (keystrokeBuffer s ++
           [ {| kr_field := fieldId; kr_type := down; kr_t := now;
                kr_dt_since_last := Some dt;
                kr_key := loggable (ke_key event) |} ]) s.

Definition handleKeyUp (env : Env) (event : KeyboardEvent) (s : State)
  : State :=
  if negb (recording s) then s
  else
    let s := touchInteraction env s in
    if isIdle s then s
    else
      let now := performance_now env in
      let fieldId := _getFieldId (ke_target event) in
      set_keystrokeBuffer
        (keystrokeBuffer s ++
           [ {| kr_field := fieldId; kr_type := up; kr_t := now;
                kr_dt_since_last := None;
                kr_key := loggable (ke_key event) |} ]) s.

(** ** Scroll tracking *)

(** [lastScrollTimestamp && (now - lastScrollTimestamp) < SCROLL_THROTTLE_MS]:
    a timestamp of [0] is falsy, like [null]. *)
Definition throttled (now : Z) (last : option Z) : bool :=
  match last with
  | Some l => negb (l =? 0) && (now - l <? SCROLL_THROTTLE_MS)
  | None => false
  end.

Definition handleScroll (env : Env) (s : State) : State :=
  if negb (recording s) then s
  else
    let s := touchInteraction env s in
    if isIdle s then s
    else
      let now := performance_now env in
      if throttled now (lastScrollTimestamp s) then s
      else
        let sx := window_scrollX env in
        let sy := window_scrollY env in
        let dx := sx - lastScrollX s in
        let dy := sy - lastScrollY s in
        let dtSinceLast :=
          match lastScrollTimestamp s with
          | Some l => Some (now - l)
          | None => None
          end in
        let s := set_lastScrollX sx s in
        let s := set_lastScrollY sy s in
        let s := set_lastScrollTimestamp (Some now) s in
        set_scrollBuffer
          (scrollBuffer s ++
             [ {| sr_t := now; sr_scrollX := sx; sr_scrollY := sy;
                  sr_dx := dx; sr_dy := dy;
                  sr_dt_since_last := dtSinceLast |} ]) s.

(** ** Visibility, idle detection, periodic flush *)

Definition handleVisibilityChange (env : Env) (s : State)
  : State * list OutMsg :=
  if document_hidden env then
    let s := set_pageVisible false s in
    if recording s && negb (isIdle s)
    then endCurrentSegment env (set_isIdle true s)
    else (s, [])
  else (set_pageVisible true s, []).

Definition checkIdle (env : Env) (s : State) : State * list OutMsg :=
  if negb (recording s) || isIdle s then (s, [])
  else
    let elapsed := performance_now env - lastInteractionTime s in
    if IDLE_THRESHOLD_MS <=? elapsed
    then endCurrentSegment env (set_isIdle true s)
    else (s, []).

Definition periodicFlush (env : Env) (s : State) : State * list OutMsg :=
  let now := Date_now env in
  if FLUSH_INTERVAL_MS <=? now - lastFlushTime s
  then flushBuffers env false (set_lastFlushTime now s)
  else (s, []).

(** ** Start recording *)

(** A [sendMessage] guarded by [chrome.runtime?.id] inside [try]/[catch]
    with an empty handler. *)
Definition try_send (env : Env) (m : OutMsg) : list OutMsg :=
  match runtime env with
  | RuntimeAlive => [m]
  | RuntimeNoId | RuntimeThrows => []
  end.

Definition startRecording (env : Env) (sid : option string) (s : State)
  : State * list OutMsg :=
  if recording s then (s, [])
  else
    let s := set_sessionId sid s in
    let s := set_recording true s in
    let s := set_isIdle false s in
    let s := set_segmentId 0 s in
    let s := startNewSegment env s in
    let out :=
      try_send env
        (PageMeta {| pm_sessionId := sessionId s;
                     pm_url := location_href env;
                     pm_hostname := location_hostname env;
                     pm_clientHints := Some (collectClientHints env);
                     pm_network := Some (collectNetworkMeta env);
                     pm_timestamp := Date_now env |}) in
    let s := set_listeners true s in
    let '(id, s) := setInterval SampleTimer s in
    let s := set_mouseIntervalId (Some id) s in
    let '(id, s) := setInterval FlushTimer s in
    let s := set_flushIntervalId (Some id) s in
    let '(id, s) := setInterval IdleTimer s in
    let s := set_idleCheckIntervalId (Some id) s in
    (s, out).

(** The [content_ready] announcement sent when the script is evaluated. *)
Definition on_load (env : Env) : list OutMsg := try_send env ContentReady.

(** ** Dispatch: what the host can deliver to the script *)

Inductive Event :=
| MsgStartRecording (sid : option string)
| MsgStopRecording
| MsgGetStatus
| DomMouseMove (e : MouseEvent)
| DomClick (e : ClickEvent)
| DomKeyDown (e : KeyboardEvent)
| DomKeyUp (e : KeyboardEvent)
| DomScroll
| DomVisibilityChange
| TimerFired (k : TimerKind).

(** The [get_status] branch: an unguarded [sendMessage] inside
    [try]/[catch] with an empty handler; on a runtime without [id] the call
    throws. *)
Definition onMessage_get_status (env : Env) (s : State) : list OutMsg :=
  match runtime env with
  | RuntimeAlive =>
      [ ContentStatus (recording s) (isIdle s) (segmentId s)
          (length (mouseBuffer s)) (length (clickBuffer s))
          (length (keystrokeBuffer s)) (length (scrollBuffer s)) ]
  | RuntimeNoId | RuntimeThrows => []
  end.

(** A DOM event reaches its handler only while the listeners are
    registered, a timer callback only while an interval of its kind is
    live. *)
Definition step (env : Env) (ev : Event) (s : State)
  : State * list OutMsg :=
  match ev with
  | MsgStartRecording sid => startRecording env sid s
  | MsgStopRecording => stopRecording env s
  | MsgGetStatus => (s, onMessage_get_status env s)
  | DomMouseMove e =>
      if listeners s then (handleMouseMove env e s, []) else (s, [])
  | DomClick e =>
      if listeners s then (handleClick env e s, []) else (s, [])
  | DomKeyDown e =>
      if listeners s then (handleKeyDown env e s, []) else (s, [])
  | DomKeyUp e =>
      if listeners s then (handleKeyUp env e s, []) else (s, [])
  | DomScroll =>
      if listeners s then (handleScroll env s, []) else (s, [])
  | DomVisibilityChange =>
      if listeners s then handleVisibilityChange env s else (s, [])
  | TimerFired SampleTimer =>
      if has_timer SampleTimer s then (sampleMousePosition env s, [])
      else (s, [])
  | TimerFired FlushTimer =>
      if has_timer FlushTimer s then periodicFlush env s else (s, [])
  | TimerFired IdleTimer =>
      if has_timer IdleTimer s then checkIdle env s else (s, [])
  end.

(** A run of the page context: events in delivery order, each with the host
    readings of its invocation; messages accumulate in sending order. *)
Fixpoint run (s : State) (tr : list (Env * Event)) : State * list OutMsg :=
  match tr with
  | [] => (s, [])
  | (env, ev) :: tr =>
      let '(s1, out1) := step env ev s in
      let '(s2, out2) := run s1 tr in
      (s2, out1 ++ out2)
  end.

(** ** Observations on a run *)

Definition payload_of (m : OutMsg) : option Payload :=
  match m with
  | Telemetry p => Some p
  | _ => None
  end.

(** The telemetry payloads among the messages sent, in sending order. *)
Definition flushes (out : list OutMsg) : list Payload := omap payload_of out.

(** The segment ids under which flushes were emitted. *)
Definition flush_ids (out : list OutMsg) : list Z :=
  p_segmentId <$> flushes out.

Definition terminal_flush_ids (out : list OutMsg) : list Z :=
  p_segmentId <$> filter (fun p => p_isSegmentEnd p = true) (flushes out).

(** All records of one kind delivered by a list of payloads. *)
Definition delivered {A} (buf : Payload → list A) (out : list OutMsg)
  : list A :=
  concat (buf <$> flushes out).

Definition is_sample (ev : Event) : bool :=
  match ev with TimerFired SampleTimer => true | _ => false end.
Definition is_click (ev : Event) : bool :=
  match ev with DomClick _ => true | _ => false end.
Definition is_key (ev : Event) : bool :=
  match ev with DomKeyDown _ | DomKeyUp _ => true | _ => false end.
Definition is_scroll (ev : Event) : bool :=
  match ev with DomScroll => true | _ => false end.

(** How many events of a trace satisfy [f]. *)
Definition occurrences (f : Event → bool) (tr : list (Env * Event)) : nat :=
  length (filter (fun x => f x.2 = true) tr).

(** Every event of a trace but a start command. *)
Definition no_start (ev : Event) : Prop :=
  match ev with MsgStartRecording _ => False | _ => True end.

(** The events the capturers treat as user interaction. *)
Definition qualifying (ev : Event) : bool :=
  match ev with
  | DomMouseMove _ | DomClick _ | DomKeyDown _ | DomKeyUp _ | DomScroll => true
  | _ => false
  end.

(** The least segment id a terminal flush can still be emitted under: the
    current id, or the next one once the current segment has ended. *)
Definition next_terminal_id (s : State) : Z :=
  segmentId s + (if isIdle s then 1 else 0).

(** A key record whose [key] is [null] or on the allow-list. *)
Definition redacted (r : KeyRecord) : Prop :=
  match kr_key r with
  | Some k => k ∈ LOGGABLE_KEYS
  | None => True
  end.

(** The [event.key] values of the modifiers the source comment names
    (Shift, Ctrl, Alt, Meta). *)
Definition MODIFIER_KEYS : list string := ["Shift"; "Control"; "Alt"; "Meta"].

(** A drain of one buffer: what was in it [before], what went
    [in_payload], what is in it [after]. *)
Definition atomic_drain {A} (before in_payload after : list A) : Prop :=
  (∀ r, r ∈ in_payload → r ∉ after)
  ∧ (∀ r, r ∈ before ↔ r ∈ in_payload ∨ r ∈ after)
  ∧ in_payload = before ∧ after = [].

(** *** The clicks of the current segment.  A segment begins when a start
    command takes effect or when a wake moves the segment id; a click is
    captured when it reaches [handleClick] with recording on. *)
Definition began_segment (ev : Event) (s s' : State) : bool :=
  match ev with
  | MsgStartRecording _ => negb (recording s)
  | _ => negb (segmentId s' =? segmentId s)
  end.

Definition click_captured (ev : Event) (s : State) : bool :=
  is_click ev && listeners s && recording s.

Definition note_click (env : Env) (ev : Event) (s : State) (hist : list Z)
  : list Z :=
  let hist := if began_segment ev s (step env ev s).1 then [] else hist in
  if click_captured ev s then hist ++ [performance_now env] else hist.

(** Timestamps of the clicks captured since the current segment began,
    oldest first, after the trace [tr] from [s]. *)
Fixpoint segment_clicks (s : State) (tr : list (Env * Event))
    (hist : list Z) : list Z :=
  match tr with
  | [] => hist
  | (env, ev) :: tr =>
      segment_clicks (step env ev s).1 tr (note_click env ev s hist)
  end.

(** What the terminal flush on entering idle looks like. *)
Definition ends_segment (s : State) (r : State * list OutMsg) : Prop :=
  ∃ p, r.2 = [Telemetry p] ∧ p_isSegmentEnd p = true
       ∧ p_segmentId p = segmentId s
       ∧ isIdle r.1 = true ∧ segmentId r.1 = segmentId s.

(** What a wake leaves behind. *)
Definition fresh_segment (s w : State) : Prop :=
  segmentId w = segmentId s + 1 ∧ isIdle w = false
  ∧ mouseBuffer w = [] ∧ clickBuffer w = [] ∧ keystrokeBuffer w = []
  ∧ scrollBuffer w = []
  ∧ lastClickTimestamp w = None ∧ lastKeyTimestampByField w = ∅
  ∧ lastScrollTimestamp w = None.

(** ** Further observations of a run *)

(** The number of records a payload carries. *)
Definition payload_size (p : Payload) : nat :=
  (length (p_mouse p) + length (p_clicks p) + length (p_keystrokes p)
   + length (p_scroll p))%nat.

(** What can end a segment: the idle check past the threshold, or the page
    becoming hidden. *)
Definition ends_activity (env : Env) (ev : Event) (s : State) : Prop :=
  match ev with
  | TimerFired IdleTimer =>
      IDLE_THRESHOLD_MS ≤ performance_now env - lastInteractionTime s
  | DomVisibilityChange => document_hidden env = true
  | _ => False
  end.

(** The script is off: not recording, no listener registered. *)
Definition stopped (s : State) : Prop :=
  recording s = false ∧ listeners s = false.

(** A [mousemove] reaching the script. *)
Definition is_mouse_move (ev : Event) : Prop :=
  match ev with DomMouseMove _ => True | _ => False end.

(** A scroll record the throttle let through. *)
Definition spaced (r : ScrollRecord) : Prop :=
  match sr_dt_since_last r with
  | Some d => SCROLL_THROTTLE_MS ≤ d ∨ d = sr_t r
  | None => True
  end.

(** [b] was recorded with [a] as the position remembered. *)
Definition follows (a b : ScrollRecord) : Prop :=
  sr_dx b = sr_scrollX b - sr_scrollX a
  ∧ sr_dy b = sr_scrollY b - sr_scrollY a.

(** Each record follows the one before it. *)
Fixpoint chained (l : list ScrollRecord) : Prop :=
  match l with
  | a :: (b :: _) as tl => follows a b ∧ chained tl
  | _ => True
  end.

(** The scroll buffer is a chain of deltas that ends at the position the
    script last recorded. *)
Definition scroll_tracked (s : State) : Prop :=
  chained (scrollBuffer s)
  ∧ ∀ r, last (scrollBuffer s) = Some r →
         sr_scrollX r = lastScrollX s ∧ sr_scrollY r = lastScrollY s.

(** The [slice(0, 64)] of [handleClick]. *)
Definition text_bounded (r : ClickRecord) : Prop :=
  match cr_target r with
  | Some t => (String.length (ti_text t) ≤ 64)%nat
  | None => True
  end.


End Content.

(** * background.js *)
Module Background.

(** ** Stored data *)

Record Counters := {
  c_mouse : Z; c_clicks : Z; c_keystrokes : Z; c_scroll : Z }.

Definition zero_counters : Counters :=
  {| c_mouse := 0; c_clicks := 0; c_keystrokes := 0; c_scroll := 0 |}.

(** A [telemetry] message as the handler receives it: any property may be
    missing, and the handler has overwritten [tabId] with the sender's. *)
Record TelemetryData := {
  d_sessionId : option string; d_segmentId : Z; d_tabId : option Z;
  d_url : string; d_hostname : string; d_timestamp : Z;
  d_isSegmentEnd : option bool;
  d_mouse : option (list MouseSample);
  d_clicks : option (list ClickRecord);
  d_keystrokes : option (list KeyRecord);
  d_scroll : option (list ScrollRecord) }.

(** The message a page context sends, as received from tab [tab]. *)
Definition received (tab : option Z) (p : Payload) : TelemetryData :=
  {| d_sessionId := p_sessionId p; d_segmentId := p_segmentId p;
     d_tabId := tab; d_url := p_url p; d_hostname := p_hostname p;
     d_timestamp := p_timestamp p;
     d_isSegmentEnd := Some (p_isSegmentEnd p);
     d_mouse := Some (p_mouse p); d_clicks := Some (p_clicks p);
     d_keystrokes := Some (p_keystrokes p);
     d_scroll := Some (p_scroll p) |}.

(** One stored fragment: the [segment] object of [storeTelemetry]. *)
Record Segment := {
  segmentId : Z; tabId : option Z; url : string; hostname : string;
  timestamp : Z; isSegmentEnd : bool;
  mouse : list MouseSample; clicks : list ClickRecord;
  keystrokes : list KeyRecord; scroll : list ScrollRecord }.

Record PageMetaEntry := {
  e_url : string; e_hostname : string;
  e_clientHints : option Snapshot; e_network : option Snapshot;
  e_timestamp : Z }.

Record Session := {
  startTime : Z; segments : list Segment; pageMeta : list PageMetaEntry }.

(** [chrome.storage.session]: the mirror used to restore state. *)
Record SessionArea := {
  sa_sessionId : option string; sa_recording : option bool;
  sa_totalEvents : option Counters; sa_segmentCount : option Z }.

(** ** The write queue.  A queued function is one of three closures; each
    reads the module-level [sessionId] when it runs, not when it is queued. *)
Inductive WriteOp :=
| InitSession
| AppendSegment (segment : Segment)
| AppendPageMeta (entry : PageMetaEntry).

(** The queued function that is executing, suspended at one of its
    [await]s: the read of [sessions], the write of the updated [sessions],
    or the write of the counters by [persistCounters]. *)
Inductive InFlight :=
| AwaitGet (op : WriteOp)
| AwaitSet (op : WriteOp) (sessions : gmap string Session)
| AwaitPersist (totals : Counters) (count : Z).

(** ** State: the module-level variables, the two storage areas, and the
    promise chain [writeQueue] (functions not yet started, function in
    progress); [errors] counts the [console.error] calls of the chain. *)
Record Coordinator := {
  sessionId : option string; recording : bool; totalEvents : Counters;
  segmentCount : Z; stateRestored : bool;
  local_sessions : option (gmap string Session);
  session_area : SessionArea;
  pending : list WriteOp; running : option InFlight; errors : nat }.

Definition set_sessionId (v : option string) (s : Coordinator) : Coordinator :=
  {| sessionId := v; recording := recording s; totalEvents := totalEvents s;
     segmentCount := segmentCount s; stateRestored := stateRestored s;
     local_sessions := local_sessions s; session_area := session_area s;
     pending := pending s; running := running s; errors := errors s |}.
Definition set_recording (v : bool) (s : Coordinator) : Coordinator :=
  {| sessionId := sessionId s; recording := v; totalEvents := totalEvents s;
     segmentCount := segmentCount s; stateRestored := stateRestored s;
     local_sessions := local_sessions s; session_area := session_area s;
     pending := pending s; running := running s; errors := errors s |}.
Definition set_totalEvents (v : Counters) (s : Coordinator) : Coordinator :=
  {| sessionId := sessionId s; recording := recording s; totalEvents := v;
     segmentCount := segmentCount s; stateRestored := stateRestored s;
     local_sessions := local_sessions s; session_area := session_area s;
     pending := pending s; running := running s; errors := errors s |}.
Definition set_segmentCount (v : Z) (s : Coordinator) : Coordinator :=
  {| sessionId := sessionId s; recording := recording s;
     totalEvents := totalEvents s; segmentCount := v;
     stateRestored := stateRestored s; local_sessions := local_sessions s;
     session_area := session_area s; pending := pending s;
     running := running s; errors := errors s |}.
Definition set_stateRestored (v : bool) (s : Coordinator) : Coordinator :=
  {| sessionId := sessionId s; recording := recording s;
     totalEvents := totalEvents s; segmentCount := segmentCount s;
     stateRestored := v; local_sessions := local_sessions s;
     session_area := session_area s; pending := pending s;
     running := running s; errors := errors s |}.
Definition set_local_sessions (v : option (gmap string Session)) (s : Coordinator) : Coordinator :=
  {| sessionId := sessionId s; recording := recording s;
     totalEvents := totalEvents s; segmentCount := segmentCount s;
     stateRestored := stateRestored s; local_sessions := v;
     session_area := session_area s; pending := pending s;
     running := running s; errors := errors s |}.
Definition set_session_area (v : SessionArea) (s : Coordinator) : Coordinator :=
  {| sessionId := sessionId s; recording := recording s;
     totalEvents := totalEvents s; segmentCount := segmentCount s;
     stateRestored := stateRestored s; local_sessions := local_sessions s;
     session_area := v; pending := pending s; running := running s;
     errors := errors s |}.
Definition set_pending (v : list WriteOp) (s : Coordinator) : Coordinator :=
  {| sessionId := sessionId s; recording := recording s;
     totalEvents := totalEvents s; segmentCount := segmentCount s;
     stateRestored := stateRestored s; local_sessions := local_sessions s;
     session_area := session_area s; pending := v; running := running s;
     errors := errors s |}.
Definition set_running (v : option InFlight) (s : Coordinator) : Coordinator :=
  {| sessionId := sessionId s; recording := recording s;
     totalEvents := totalEvents s; segmentCount := segmentCount s;
     stateRestored := stateRestored s; local_sessions := local_sessions s;
     session_area := session_area s; pending := pending s; running := v;
     errors := errors s |}.
Definition set_errors (v : nat) (s : Coordinator) : Coordinator :=
  {| sessionId := sessionId s; recording := recording s;
     totalEvents := totalEvents s; segmentCount := segmentCount s;
     stateRestored := stateRestored s; local_sessions := local_sessions s;
     session_area := session_area s; pending := pending s;
     running := running s; errors := v |}.

(** [writeQueue = writeQueue.then(fn).catch(...)]: [fn] is appended to the
    chain; it starts only when every function queued before it has settled. *)
Definition enqueueWrite (fn : WriteOp) (c : Coordinator) : Coordinator :=
  set_pending (pending c ++ [fn]) c.

(** ** State persistence helpers *)

(** The call [chrome.storage.session.set({ totalEvents, segmentCount })]. *)
Definition write_counters (totals : Counters) (count : Z) (a : SessionArea)
  : SessionArea :=
  {| sa_sessionId := sa_sessionId a; sa_recording := sa_recording a;
     sa_totalEvents := Some totals; sa_segmentCount := Some count |}.

Definition persistCounters (c : Coordinator) : Coordinator :=
  set_session_area
    (write_counters (totalEvents c) (segmentCount c) (session_area c)) c.

Definition restoreState (c : Coordinator) : Coordinator :=
  if stateRestored c then c
  else
    let result := session_area c in
    let c := if truthy_string (sa_sessionId result)
             then set_sessionId (sa_sessionId result) c else c in
    let c := match sa_recording result with
             | Some true => set_recording true c
             | _ => c
             end in
    let c := match sa_totalEvents result with
             | Some t => set_totalEvents t c
             | None => c
             end in
    let c := match sa_segmentCount result with
             | Some n => set_segmentCount n c
             | None => c
             end in
    set_stateRestored true c.

(** The service worker is killed and started again: module-level variables
    take their initial values, both storage areas survive, the promise
    chain is gone. *)
Definition restart (c : Coordinator) : Coordinator :=
  {| sessionId := None; recording := false; totalEvents := zero_counters;
     segmentCount := 0; stateRestored := false;
     local_sessions := local_sessions c; session_area := session_area c;
     pending := []; running := None; errors := 0 |}.

(** ** Session management *)

(** [startNewSession] up to the point where it waits for its queued write;
    [uuid] is the value [crypto.randomUUID()] returned. *)
Definition startNewSession (uuid : string) (c : Coordinator) : Coordinator :=
  let c := set_sessionId (Some uuid) c in
  let c := set_totalEvents zero_counters c in
  let c := set_segmentCount 0 c in
  let c := set_session_area
             {| sa_sessionId := sessionId c; sa_recording := Some true;
                sa_totalEvents := Some (totalEvents c);
                sa_segmentCount := Some (segmentCount c) |} c in
  enqueueWrite InitSession c.

(** ** Telemetry storage *)

Definition or_nil {A} (o : option (list A)) : list A :=
  match o with Some l => l | None => [] end.

Definition count_add (n : Z) {A} (l : list A) : Z := n + Z.of_nat (length l).

Definition make_segment (data : TelemetryData) : Segment :=
  {| segmentId := d_segmentId data; tabId := d_tabId data;
     url := d_url data; hostname := d_hostname data;
     timestamp := d_timestamp data;
     isSegmentEnd := match d_isSegmentEnd data with
                     | Some b => b
                     | None => false
                     end;
     mouse := or_nil (d_mouse data); clicks := or_nil (d_clicks data);
     keystrokes := or_nil (d_keystrokes data);
     scroll := or_nil (d_scroll data) |}.

Definition hasData (segment : Segment) : bool :=
  negb (Nat.eqb (length (mouse segment)) 0)
  || negb (Nat.eqb (length (clicks segment)) 0)
  || negb (Nat.eqb (length (keystrokes segment)) 0)
  || negb (Nat.eqb (length (scroll segment)) 0).

Definition storeTelemetry (data : TelemetryData) (c : Coordinator)
  : Coordinator :=
  if negb (recording c) || negb (truthy_string (sessionId c)) then c
  else
    let t := totalEvents c in
    let c := set_totalEvents
               {| c_mouse := count_add (c_mouse t) (or_nil (d_mouse data));
                  c_clicks := count_add (c_clicks t) (or_nil (d_clicks data));
                  c_keystrokes :=
                    count_add (c_keystrokes t) (or_nil (d_keystrokes data));
                  c_scroll :=
                    count_add (c_scroll t) (or_nil (d_scroll data)) |} c in
    let segment := make_segment data in
    if negb (hasData segment) then c
    else enqueueWrite (AppendSegment segment) c.

Definition storePageMeta (data : PageMetaMsg) (c : Coordinator)
  : Coordinator :=
  if negb (recording c) || negb (truthy_string (sessionId c)) then c
  else
    enqueueWrite
      (AppendPageMeta
         {| e_url := pm_url data; e_hostname := pm_hostname data;
            e_clientHints := pm_clientHints data;
            e_network := pm_network data;
            e_timestamp := pm_timestamp data |}) c.

(** ** Progress of the write queue *)

(** The property name [sessions[sessionId]] resolves to. *)
Definition property_key (sid : option string) : string :=
  match sid with Some s => s | None => "null" end.

Record Tab := { tab_id : option Z; tab_url : option string }.

Inductive TabMessage :=
| start_recording (sid : option string)
| stop_recording.

(** The tabs a broadcast reaches: those with an id and a url that is not
    privileged. *)
Definition starts_with (p s : string) : bool :=
  String.eqb (String.substring 0 (String.length p) s) p.

Definition reachable_tab (t : Tab) : option Z :=
  match tab_id t, tab_url t with
  | Some i, Some u =>
      if negb (i =? 0) && negb (String.eqb u "")
         && negb (starts_with "chrome://" u)
         && negb (starts_with "chrome-extension://" u)
         && negb (starts_with "about:" u)
      then Some i else None
  | _, _ => None
  end.

Definition broadcast (tabs : list Tab) (m : TabMessage)
  : list (Z * TabMessage) :=
  omap (fun t => (fun i => (i, m)) <$> reachable_tab t) tabs.

(** What the host supplies when the queue advances: whether the storage
    call that was awaited succeeded, the clock, and the open tabs. *)
Record TickEnv := { storage_ok : bool; tick_now : Z; tabs : list Tab }.

(** A queued function has settled.  The only caller that awaits its queued
    function is [startRecording] (through [startNewSession]); it resumes
    here: [recording = true], then the start broadcast. *)
Definition settle (env : TickEnv) (op : option WriteOp) (c : Coordinator)
  : Coordinator * list (Z * TabMessage) :=
  let c := set_running None c in
  match op with
  | Some InitSession =>
      (set_recording true c,
       broadcast (tabs env) (start_recording (sessionId c)))
  | _ => (c, [])
  end.

(** The queued function threw: the [catch] of the chain logs and the chain
    goes on. *)
Definition fail (env : TickEnv) (op : option WriteOp) (c : Coordinator)
  : Coordinator * list (Z * TabMessage) :=
  settle env op (set_errors (S (errors c)) c).

(** The body of a queued function from the point where
    [chrome.storage.local.get('sessions')] has answered. *)
Definition after_get (env : TickEnv) (op : WriteOp) (c : Coordinator)
  : Coordinator * list (Z * TabMessage) :=
  let sessions := match local_sessions c with
                  | Some m => m
                  | None => ∅
                  end in
  let key := property_key (sessionId c) in
  match op with
  | InitSession =>
      let session := {| startTime := tick_now env; segments := [];
                        pageMeta := [] |} in
      (set_running (Some (AwaitSet op (<[key := session]> sessions))) c, [])
  | AppendSegment segment =>
      match sessions !! key with
      | None => settle env (Some op) c
      | Some session =>
          let session := {| startTime := startTime session;
                            segments := segments session ++ [segment];
                            pageMeta := pageMeta session |} in
          let c := set_segmentCount
                     (Z.of_nat (length (segments session))) c in
          (set_running (Some (AwaitSet op (<[key := session]> sessions))) c,
           [])
      end
  | AppendPageMeta entry =>
      match sessions !! key with
      | None => settle env (Some op) c
      | Some session =>
          let session := {| startTime := startTime session;
                            segments := segments session;
                            pageMeta := pageMeta session ++ [entry] |} in
          (set_running (Some (AwaitSet op (<[key := session]> sessions))) c,
           [])
      end
  end.

(** One resumption of the promise chain: start the next queued function if
    none is in progress, otherwise resume the one in progress at the
    [await] it is suspended on. *)
Definition queue_step (env : TickEnv) (c : Coordinator)
  : Coordinator * list (Z * TabMessage) :=
  match running c with
  | None =>
      match pending c with
      | [] => (c, [])
      | fn :: rest =>
          (set_running (Some (AwaitGet fn)) (set_pending rest c), [])
      end
  | Some (AwaitGet op) =>
      if storage_ok env then after_get env op c else fail env (Some op) c
  | Some (AwaitSet op sessions) =>
      if storage_ok env then
        let c := set_local_sessions (Some sessions) c in
        match op with
        | AppendSegment _ =>
            (set_running
               (Some (AwaitPersist (totalEvents c) (segmentCount c))) c, [])
        | _ => settle env (Some op) c
        end
      else fail env (Some op) c
  | Some (AwaitPersist totals count) =>
      if storage_ok env then
        settle env None
          (set_session_area (write_counters totals count (session_area c)) c)
      else fail env None c
  end.

(** ** Export *)

(** A consolidated segment: the [currentSeg] object of [exportData]. *)
Record MergedSegment := {
  m_segmentId : Z; m_tabId : option Z; m_url : string; m_hostname : string;
  m_startTime : Z; m_endTime : Z;
  m_mouse : list MouseSample; m_clicks : list ClickRecord;
  m_keystrokes : list KeyRecord; m_scroll : list ScrollRecord }.

(** The object literal that opens a new [currentSeg]. *)
Definition open_segment (seg : Segment) : MergedSegment :=
  {| m_segmentId := segmentId seg; m_tabId := tabId seg; m_url := url seg;
     m_hostname := hostname seg;
     m_startTime := timestamp seg; m_endTime := timestamp seg;
     m_mouse := mouse seg; m_clicks := clicks seg;
     m_keystrokes := keystrokes seg; m_scroll := scroll seg |}.

(** The four [push(...seg.x)] and the update of [endTime]. *)
Definition extend_segment (currentSeg : MergedSegment) (seg : Segment)
  : MergedSegment :=
  {| m_segmentId := m_segmentId currentSeg; m_tabId := m_tabId currentSeg;
     m_url := m_url currentSeg; m_hostname := m_hostname currentSeg;
     m_startTime := m_startTime currentSeg; m_endTime := timestamp seg;
     m_mouse := m_mouse currentSeg ++ mouse seg;
     m_clicks := m_clicks currentSeg ++ clicks seg;
     m_keystrokes := m_keystrokes currentSeg ++ keystrokes seg;
     m_scroll := m_scroll currentSeg ++ scroll seg |}.

(** One iteration of [for (const seg of session.segments)] on the loop
    variables [mergedSegments] and [currentSeg]. *)
Definition merge_step (st : list MergedSegment * option MergedSegment)
    (seg : Segment) : list MergedSegment * option MergedSegment :=
  let '(mergedSegments, currentSeg) := st in
  match currentSeg with
  | Some cur =>
      if m_segmentId cur =? segmentId seg
      then (mergedSegments, Some (extend_segment cur seg))
      else (mergedSegments ++ [cur], Some (open_segment seg))
  | None => (mergedSegments, Some (open_segment seg))
  end.

(** The final [if (currentSeg) mergedSegments.push(currentSeg)]. *)
Definition close_segments (st : list MergedSegment * option MergedSegment)
  : list MergedSegment :=
  match st with
  | (mergedSegments, Some cur) => mergedSegments ++ [cur]
  | (mergedSegments, None) => mergedSegments
  end.

Definition mergeSegments (segs : list Segment) : list MergedSegment :=
  close_segments (fold_left merge_step segs ([], None)).

Record ExportedSession := {
  x_sessionId : string; x_startTime : Z; x_pageMeta : list PageMetaEntry;
  x_totalSegments : nat; x_segments : list MergedSegment }.

Definition consolidate_session (sid : string) (session : Session)
  : ExportedSession :=
  let mergedSegments := mergeSegments (segments session) in
  {| x_sessionId := sid; x_startTime := startTime session;
     x_pageMeta := pageMeta session;
     x_totalSegments := length mergedSegments;
     x_segments := mergedSegments |}.

Definition consolidated (sessions : gmap string Session)
  : gmap string ExportedSession :=
  map_imap (fun sid session => Some (consolidate_session sid session))
    sessions.

(** What [chrome.downloads.download] does with the document: it returns an
    id, returns [undefined] (with or without [lastError.message]), or throws
    (with or without [err.message]). *)
Inductive DownloadOutcome :=
| DownloadId (id : Z)
| DownloadUndefined (lastError : option string)
| DownloadThrows (message : option string).

Record ExportEnv := { toISOString : string; download : DownloadOutcome }.

(** [s.replace(/[:.]/g, '-')] *)
Fixpoint replace_colon_dot (s : string) : string :=
  match s with
  | EmptyString => EmptyString
  | String c r =>
      String (if (Ascii.eqb c ":" || Ascii.eqb c ".")%bool then "-"%char else c)
        (replace_colon_dot r)
  end.

Definition export_filename (env : ExportEnv) : string :=
  String.append "telemetry_export_"
    (String.append (replace_colon_dot (toISOString env)) ".json").

Inductive ExportResult :=
| ExportSuccess (filename : string)
| ExportFailure (error : string).

Definition or_default (o : option string) (d : string) : string :=
  if truthy_string o then match o with Some s => s | None => d end else d.

(** The result returned to the caller, and the document and file name
    handed to the download collaborator when the export gets that far (the
    data-URL encoding of the document is the host's). *)
Definition exportData (env : ExportEnv) (c : Coordinator)
  : ExportResult * option (gmap string ExportedSession * string) :=
  let sessions := match local_sessions c with
                  | Some m => m
                  | None => ∅
                  end in
  if Nat.eqb (size sessions) 0
  then (ExportFailure "No data to export", None)
  else
    let doc := consolidated sessions in
    let filename := export_filename env in
    let result :=
      match download env with
      | DownloadId _ => ExportSuccess filename
      | DownloadUndefined lastError =>
          ExportFailure (or_default lastError "Download failed")
      | DownloadThrows message =>
          ExportFailure (or_default message "Download failed")
      end in
    (result, Some (doc, filename)).

Definition clearData (c : Coordinator) : Coordinator :=
  let c := set_local_sessions None c in
  let c := set_totalEvents zero_counters c in
  let c := set_segmentCount 0 c in
  persistCounters c.

(** ** Recording control *)

(** [startRecording] up to its wait on the queued write of
    [startNewSession]; it resumes in [settle]. *)
Definition startRecording (uuid : string) (c : Coordinator) : Coordinator :=
  if recording c then c
  else startNewSession uuid (restoreState c).

Definition stopRecording (tabs : list Tab) (c : Coordinator)
  : Coordinator * list (Z * TabMessage) :=
  if negb (recording c) then (c, [])
  else
    let c := set_recording false c in
    let a := session_area c in
    let c := set_session_area
               {| sa_sessionId := sa_sessionId a;
                  sa_recording := Some false;
                  sa_totalEvents := sa_totalEvents a;
                  sa_segmentCount := sa_segmentCount a |} c in
    (c, broadcast tabs stop_recording).

(** ** Message handling *)

Inductive Message :=
| telemetry (data : TelemetryData)
| page_meta (data : PageMetaMsg)
| content_ready
| popup_get_status
| popup_start
| popup_stop
| popup_export
| popup_clear
| unknown_type.

Record Status := {
  st_recording : bool; st_sessionId : option string;
  st_totalEvents : Counters; st_segmentCount : Z }.

Definition status (c : Coordinator) : Status :=
  {| st_recording := recording c; st_sessionId := sessionId c;
     st_totalEvents := totalEvents c; st_segmentCount := segmentCount c |}.

Inductive Response :=
| Success
| StatusReply (s : Status)
| ExportReply (r : ExportResult)
| NoResponse.

(** What a handler invocation reads from the host. *)
Record HandlerEnv := {
  sender_tab : option Z; randomUUID : string; open_tabs : list Tab;
  export_env : ExportEnv }.

Definition with_tabId (tab : option Z) (d : TelemetryData) : TelemetryData :=
  {| d_sessionId := d_sessionId d; d_segmentId := d_segmentId d;
     d_tabId := tab; d_url := d_url d; d_hostname := d_hostname d;
     d_timestamp := d_timestamp d; d_isSegmentEnd := d_isSegmentEnd d;
     d_mouse := d_mouse d; d_clicks := d_clicks d;
     d_keystrokes := d_keystrokes d; d_scroll := d_scroll d |}.

(** The [onMessage] listener.  Each handler is run without interleaving
    with the write queue up to its reply, except that [popup_start] replies
    once its queued write has settled. *)
Definition handle (env : HandlerEnv) (msg : Message) (c : Coordinator)
  : Coordinator * Response * list (Z * TabMessage) :=
  let c := restoreState c in
  let tabId := sender_tab env in
  match msg with
  | telemetry data => (storeTelemetry (with_tabId tabId data) c, Success, [])
  | page_meta data => (storePageMeta data c, Success, [])
  | content_ready =>
      let out :=
        match tabId with
        | Some t =>
            if recording c && truthy_string (sessionId c) && negb (t =? 0)
            then [(t, start_recording (sessionId c))] else []
        | None => []
        end in
      (c, Success, out)
  | popup_get_status => (c, StatusReply (status c), [])
  | popup_start => (startRecording (randomUUID env) c, Success, [])
  | popup_stop =>
      let '(c, out) := stopRecording (open_tabs env) c in (c, Success, out)
  | popup_export => (c, ExportReply (exportData (export_env env) c).1, [])
  | popup_clear => (clearData c, Success, [])
  | unknown_type => (c, NoResponse, [])
  end.

(** The [chrome.idle.onStateChanged] listener. *)
Definition onIdleStateChanged (now : Z) (state : string) (c : Coordinator)
  : Coordinator :=
  if negb (recording c) then c
  else if String.eqb state "idle" || String.eqb state "locked"
  then
    if truthy_string (sessionId c)
    then storePageMeta
           {| pm_sessionId := None; pm_url := "system";
              pm_hostname := "system"; pm_clientHints := None;
              pm_network := None; pm_timestamp := now |} c
    else c
  else c.

(** ** Runs of the coordinator: handler invocations and resumptions of the
    write queue, in the order the event loop takes them. *)
Inductive Action :=
| Receive (env : HandlerEnv) (msg : Message)
| Resume (env : TickEnv)
| IdleState (now : Z) (state : string)
| WorkerRestart.

Definition act (a : Action) (c : Coordinator) : Coordinator :=
  match a with
  | Receive env msg => (handle env msg c).1.1
  | Resume env => (queue_step env c).1
  | IdleState now state => onIdleStateChanged now state c
  | WorkerRestart => restoreState (restart c)
  end.

Definition run (c : Coordinator) (schedule : list Action) : Coordinator :=
  fold_left (fun c a => act a c) schedule c.

(** The loop, read from the front: [cur] absorbs fragments while their id
    matches and is pushed when it does not. *)
Fixpoint absorb (cur : MergedSegment) (segs : list Segment)
  : list MergedSegment :=
  match segs with
  | [] => [cur]
  | seg :: rest =>
      if m_segmentId cur =? segmentId seg
      then absorb (extend_segment cur seg) rest
      else cur :: absorb (open_segment seg) rest
  end.

(** ** Observations on the coordinator *)

(** [sessionsResult.sessions || {}] *)
Definition stored_sessions (c : Coordinator) : gmap string Session :=
  match local_sessions c with
  | Some m => m
  | None => ∅
  end.

Definition stored_fragments (sid : string) (c : Coordinator) : list Segment :=
  match stored_sessions c !! sid with
  | Some session => segments session
  | None => []
  end.

(** The promise chain has settled: nothing queued, nothing in progress. *)
Definition idle_queue (c : Coordinator) : Prop :=
  pending c = [] ∧ running c = None.

Definition every_fragment (P : Segment → Prop) (m : gmap string Session)
  : Prop :=
  map_Forall (λ _ session, Forall P (segments session)) m.

Definition op_fragment (P : Segment → Prop) (op : WriteOp) : Prop :=
  match op with
  | AppendSegment segment => P segment
  | _ => True
  end.

(** [P] holds of every fragment in the store and of every fragment on its
    way there. *)
Definition fragments_ok (P : Segment → Prop) (c : Coordinator) : Prop :=
  every_fragment P (stored_sessions c)
  ∧ Forall (op_fragment P) (pending c)
  ∧ match running c with
    | Some (AwaitGet op) => op_fragment P op
    | Some (AwaitSet _ m) => every_fragment P m
    | _ => True
    end.

(** The fragments an action submits for storage satisfy [P]. *)
Definition submits_only (P : Segment → Prop) (a : Action) : Prop :=
  match a with
  | Receive env (telemetry data) =>
      hasData (make_segment (with_tabId (sender_tab env) data)) = true →
      P (make_segment (with_tabId (sender_tab env) data))
  | _ => True
  end.

Definition submits_fragment (a : Action) : bool :=
  match a with
  | Receive _ (telemetry _) => true
  | _ => false
  end.


(** The actions of a burst of fragment submissions: non-empty telemetry
    messages, and resumptions of the queue whose storage call succeeds. *)
Definition fragment_traffic (a : Action) : Prop :=
  match a with
  | Receive env (telemetry data) => hasData (make_segment data) = true
  | Resume env => storage_ok env = true
  | _ => False
  end.

(** Queued fragments whose write has not completed. *)
Definition unwritten (c : Coordinator) : nat :=
  (length (pending c)
   + match running c with
     | Some (AwaitGet _) | Some (AwaitSet _ _) => 1
     | _ => 0
     end)%nat.

(** An upper bound on the resumptions the queue needs to settle. *)
Definition work_left (c : Coordinator) : nat :=
  (4 * length (pending c)
   + match running c with
     | None => 0
     | Some (AwaitGet _) => 3
     | Some (AwaitSet _ _) => 2
     | Some (AwaitPersist _ _) => 1
     end)%nat.

Definition is_append (op : WriteOp) : Prop :=
  match op with
  | AppendSegment _ => True
  | _ => False
  end.

Definition appended (session : Session) (segment : Segment) : Session :=
  {| startTime := startTime session;
     segments := segments session ++ [segment];
     pageMeta := pageMeta session |}.

(** While fragments for session [sid] are being filed: the coordinator is
    recording under [sid], the session exists, only fragment writes are
    queued, and a write in progress was computed from the store as it is. *)
Definition serialized (sid : string) (c : Coordinator) : Prop :=
  recording c = true ∧ sessionId c = Some sid ∧ sid ≠ ""
  ∧ stateRestored c = true
  ∧ is_Some (stored_sessions c !! sid)
  ∧ Forall is_append (pending c)
  ∧ match running c with
    | Some (AwaitGet op) => is_append op
    | Some (AwaitSet op m) =>
        ∃ segment session,
          op = AppendSegment segment
          ∧ stored_sessions c !! sid = Some session
          ∧ m = <[sid := appended session segment]> (stored_sessions c)
    | _ => True
    end.

Definition is_data_message (msg : Message) : bool :=
  match msg with
  | telemetry _ | page_meta _ => true
  | _ => false
  end.

(** ** Further observations of the coordinator *)

(** The fragment a telemetry message is filed as. *)
Definition submitted_fragment (a : Action) : option Segment :=
  match a with
  | Receive env (telemetry data) =>
      Some (make_segment (with_tabId (sender_tab env) data))
  | _ => None
  end.

(** The fragments a schedule submits, in arrival order. *)
Definition submitted (schedule : list Action) : list Segment :=
  omap submitted_fragment schedule.

(** The fragment a queued function appends, if it appends one. *)
Definition op_segment (op : WriteOp) : option Segment :=
  match op with
  | AppendSegment segment => Some segment
  | _ => None
  end.

(** The fragments queued and not yet written, oldest first. *)
Definition queued_fragments (c : Coordinator) : list Segment :=
  match running c with
  | Some (AwaitGet op) | Some (AwaitSet op _) =>
      match op_segment op with Some seg => [seg] | None => [] end
  | _ => []
  end ++ omap op_segment (pending c).

(** The counter update of [storeTelemetry]. *)
Definition add_records (t : Counters) (seg : Segment) : Counters :=
  {| c_mouse := count_add (c_mouse t) (mouse seg);
     c_clicks := count_add (c_clicks t) (clicks seg);
     c_keystrokes := count_add (c_keystrokes t) (keystrokes seg);
     c_scroll := count_add (c_scroll t) (scroll seg) |}.

(** 1 while a fragment write has counted its fragment and not stored it. *)
Definition in_progress_write (c : Coordinator) : Z :=
  match running c with
  | Some (AwaitSet _ _) => 1
  | _ => 0
  end.

(** The mirror in [chrome.storage.session] holds what memory holds. *)
Definition mirror_current (c : Coordinator) : Prop :=
  sa_sessionId (session_area c) = sessionId c
  ∧ sessionId c ≠ Some ""
  ∧ sa_recording (session_area c) = Some (recording c)
  ∧ sa_totalEvents (session_area c) = Some (totalEvents c)
  ∧ sa_segmentCount (session_area c) = Some (segmentCount c).

End Background.

(** * Consolidation as the specification words it (section 4.6), to be
    compared with [Background.mergeSegments] *)
Module Spec.
Import Background.


(** The maximal runs of consecutive fragments sharing a segment id, in
    arrival order. *)
Fixpoint runs_by_id (segs : list Segment) : list (list Segment) :=
  match segs with
  | [] => []
  | seg :: rest =>
      match runs_by_id rest with
      | (next :: run) :: runs =>
          if segmentId seg =? segmentId next
          then (seg :: next :: run) :: runs
          else [seg] :: (next :: run) :: runs
      | _ => [[seg]]
      end
  end.

(** One logical segment for the run [first :: rest]: buffers concatenated
    in order, start time from the first fragment, end time from the last. *)
Definition merged_run (first : Segment) (rest : list Segment)
  : MergedSegment :=
  {| m_segmentId := segmentId first; m_tabId := tabId first;
     m_url := url first; m_hostname := hostname first;
     m_startTime := timestamp first;
     m_endTime := timestamp (List.last rest first);
     m_mouse := concat (mouse <$> first :: rest);
     m_clicks := concat (clicks <$> first :: rest);
     m_keystrokes := concat (keystrokes <$> first :: rest);
     m_scroll := concat (scroll <$> first :: rest) |}.

Definition merge_run (run : list Segment) : option MergedSegment :=
  match run with
  | first :: rest => Some (merged_run first rest)
  | [] => None
  end.

Definition merge_runs (segs : list Segment) : list MergedSegment :=
  omap merge_run (runs_by_id segs).

Definition run_id (run : list Segment) : option Z := segmentId <$> head run.

Definition uniform_run (run : list Segment) : Prop :=
  ∃ first rest, run = first :: rest
                ∧ Forall (λ seg, segmentId seg = segmentId first) rest.

Fixpoint adjacent_differ (runs : list (list Segment)) : Prop :=
  match runs with
  | r1 :: (r2 :: _) as tl => run_id r1 ≠ run_id r2 ∧ adjacent_differ tl
  | _ => True
  end.

End Spec.

Module CoordinatorScenario.
Import Background.

Definition empty_area : SessionArea :=
  {| sa_sessionId := None; sa_recording := None; sa_totalEvents := None;
     sa_segmentCount := None |}.

(** A coordinator recording under [sid], with the given store. *)
Definition recording_under (sid : string)
    (store : option (gmap string Session)) : Coordinator :=
  {| sessionId := Some sid; recording := true;
     totalEvents := zero_counters; segmentCount := 0;
     stateRestored := true; local_sessions := store;
     session_area := empty_area; pending := []; running := None;
     errors := 0 |}.

Definition new_session : Session :=
  {| startTime := 1700000000000; segments := []; pageMeta := [] |}.

Definition a_click (t : Z) : ClickRecord :=
  {| cr_t := t; cr_x := 10; cr_y := 20; cr_button := "left";
     cr_target := None; cr_dt_since_last := None |}.

(** A telemetry message carrying session id [sid] with the given clicks. *)
Definition fragment (sid : string) (seg : Z) (terminal : bool)
    (clicks : list ClickRecord) : TelemetryData :=
  {| d_sessionId := Some sid; d_segmentId := seg; d_tabId := None;
     d_url := "https://tickets.example/cart";
     d_hostname := "tickets.example"; d_timestamp := 1700000005000;
     d_isSegmentEnd := Some terminal;
     d_mouse := Some []; d_clicks := Some clicks;
     d_keystrokes := Some []; d_scroll := Some [] |}.

(** A stored fragment with the given id, timestamp and clicks. *)
Definition stored (id t : Z) (terminal : bool) (clicks : list ClickRecord)
  : Segment :=
  {| segmentId := id; tabId := Some 7;
     url := "https://tickets.example/cart"; hostname := "tickets.example";
     timestamp := t; isSegmentEnd := terminal;
     mouse := []; clicks := clicks; keystrokes := []; scroll := [] |}.

Definition export_host : ExportEnv :=
  {| toISOString := "2026-01-01T00:00:00.000Z"; download := DownloadId 1 |}.

Definition from_tab (tab : Z) : HandlerEnv :=
  {| sender_tab := Some tab; randomUUID := "fresh"; open_tabs := [];
     export_env := export_host |}.

Definition storage_up : TickEnv :=
  {| storage_ok := true; tick_now := 1700000006000; tabs := [] |}.

(** The worker as installed: nothing recorded, both storage areas empty. *)
Definition installed : Coordinator :=
  {| sessionId := None; recording := false; totalEvents := zero_counters;
     segmentCount := 0; stateRestored := true; local_sessions := None;
     session_area := empty_area; pending := []; running := None;
     errors := 0 |}.

Definition storage_down : TickEnv :=
  {| storage_ok := false; tick_now := 1700000007000; tabs := [] |}.

Definition a_page : PageMetaMsg :=
  {| pm_sessionId := Some "s1"; pm_url := "https://tickets.example/cart";
     pm_hostname := "tickets.example"; pm_clientHints := None;
     pm_network := None; pm_timestamp := 1700000001000 |}.

End CoordinatorScenario.


(** * The two scripts together *)
Module System.

(** A telemetry message as a page context running [content.js] sends it:
    a payload flushed on some run from a fresh injection, as received from
    some tab. *)
Definition sent_by_page (data : Background.TelemetryData) : Prop :=
  ∃ env0 tr p tab,
    p ∈ Content.flushes (Content.run (Content.initial env0) tr).2
    ∧ data = Background.received tab p.

(** Coordinator actions whose telemetry messages all come from pages. *)
Definition page_traffic (a : Background.Action) : Prop :=
  match a with
  | Background.Receive _ (Background.telemetry data) => sent_by_page data
  | _ => True
  end.

Definition keys_redacted (seg : Background.Segment) : Prop :=
  Forall Content.redacted (Background.keystrokes seg).

End System.

(** * Concrete hosts and inputs used in the scenarios *)
Module Scenario.
Import Content.

Definition host (t : Z) (r : RuntimeStatus) : Env :=
  {| performance_now := t; Date_now := 1700000000000 + t;
     window_scrollX := 0; window_scrollY := 0; document_hidden := false;
     location_href := "https://tickets.example/cart";
     location_hostname := "tickets.example";
     runtime := r; collectClientHints := []; collectNetworkMeta := [] |}.

Definition click_at (x y : Z) : ClickEvent :=
  {| ce_clientX := x; ce_clientY := y; ce_button := 0; ce_target := None |}.


(** The script freshly injected. *)
Definition page0 : State := initial (host 0 RuntimeAlive).

(** Recording under session [s1] with one click buffered. *)
Definition page_one_click : State :=
  (run page0 [ (host 0 RuntimeAlive, MsgStartRecording (Some "s1"));
               (host 100 RuntimeAlive, DomClick (click_at 10 20)) ]).1.


End Scenario.

(** * Properties of the page context *)
Section ContentFacts.
Import Content.

(** With [recording] off, [flushBuffers] returns at its first guard,
    whatever it would call from its [catch]. *)
Lemma flushBuffers_body_stopped stop env b s :
  recording s = false → flushBuffers_body stop env b s = (s, []).
Proof. intros H. unfold flushBuffers_body. by rewrite H. Qed.

Lemma stopRecording_body_flush_irrelevant flush1 flush2 env s :
  (∀ e b t, recording t = false → flush1 e b t = flush2 e b t) →
  stopRecording_body flush1 env s = stopRecording_body flush2 env s.
Proof.
  intros H. unfold stopRecording_body.
  destruct (recording s); cbn [negb]; [|done].
  by rewrite (H env true (set_recording false s)).
Qed.

(** Nesting deeper than one call changes nothing. *)
Lemma stopRecording_depth_stable n env s :
  stopRecording_depth (S n) env s = stopRecording_depth 1 env s.
Proof.
  simpl. apply stopRecording_body_flush_irrelevant.
  intros e b t Ht. by rewrite !flushBuffers_body_stopped.
Qed.

(** The recursive equations of the source. *)
Lemma stopRecording_unfold env s :
  stopRecording env s = stopRecording_body flushBuffers env s.
Proof.
  unfold stopRecording, flushBuffers, stopRecording.
  change (stopRecording_depth 2 env s = stopRecording_depth 3 env s).
  by rewrite !stopRecording_depth_stable.
Qed.

Lemma flushBuffers_unfold env b s :
  flushBuffers env b s = flushBuffers_body stopRecording env b s.
Proof. reflexivity. Qed.

(** [stopRecording] in closed form: its flush call never gets past the
    [recording] guard, because [recording] has just been set to [false]. *)
Lemma stopRecording_closed env s :
  stopRecording env s =
  if recording s then (teardown (set_recording false s), []) else (s, []).
Proof.
  rewrite stopRecording_unfold. unfold stopRecording_body.
  destruct (recording s); cbn [negb]; [|done].
  by rewrite flushBuffers_unfold, flushBuffers_body_stopped.
Qed.

End ContentFacts.

Section FlushFacts.
Import Content.

Lemma recording_splice_all s : recording (splice_all s) = recording s.
Proof. reflexivity. Qed.

(** [flushBuffers] with its [catch] resolved. *)
Lemma flushBuffers_closed env b s :
  flushBuffers env b s =
  if negb (recording s) || negb (truthy_string (sessionId s)) then (s, [])
  else if negb (hasData s) && negb b then (s, [])
  else match runtime env with
       | RuntimeAlive => (splice_all s, [Telemetry (build_payload env b s)])
       | RuntimeNoId => (splice_all s, [])
       | RuntimeThrows => (teardown (set_recording false (splice_all s)), [])
       end.
Proof.
  rewrite flushBuffers_unfold. unfold flushBuffers_body.
  destruct (recording s) eqn:Hr; cbn [negb orb]; [|done].
  destruct (negb (truthy_string (sessionId s))); [done|].
  destruct (negb (hasData s) && negb b); [done|].
  destruct (runtime env); try done.
  by rewrite stopRecording_closed, recording_splice_all, Hr.
Qed.

Lemma endCurrentSegment_closed env s :
  endCurrentSegment env s =
  (set_mouseIntervalId None
     (clear_timer (mouseIntervalId (flushBuffers env true s).1)
        (flushBuffers env true s).1),
   (flushBuffers env true s).2).
Proof. unfold endCurrentSegment. by destruct (flushBuffers env true s). Qed.

Lemma clear_timer_closed id s :
  clear_timer id s =
  set_timers match id with
             | Some i => filter (λ t, t.1 ≠ i) (timers s)
             | None => timers s
             end s.
Proof. destruct id; [done|]. by destruct s. Qed.

(** [startNewSegment] as one chain of assignments: only the three timer
    fields depend on whether sampling had been stopped. *)
Lemma startNewSegment_closed env s :
  startNewSegment env s =
  set_mouseIntervalId
    match mouseIntervalId s with
    | None => Some (nextTimerId s)
    | Some i => Some i
    end
    (set_nextTimerId
       match mouseIntervalId s with
       | None => S (nextTimerId s)
       | Some _ => nextTimerId s
       end
       (set_timers
          match mouseIntervalId s with
          | None => timers s ++ [(nextTimerId s, SampleTimer)]
          | Some _ => timers s
          end
          (set_lastScrollTimestamp None
             (set_lastKeyTimestampByField ∅
                (set_lastClickTimestamp None
                   (set_scrollBuffer []
                      (set_keystrokeBuffer []
                         (set_clickBuffer []
                            (set_mouseBuffer []
                               (set_segmentStartTime (Some (Date_now env))
                                  (set_segmentId (segmentId s + 1) s))))))))))).
Proof.
  unfold startNewSegment, setInterval. cbn.
  destruct (mouseIntervalId s) eqn:E; destruct s; cbn in *; by subst.
Qed.

End FlushFacts.

(** ** One step of the page context, by cases on the event and on every
    test the handler makes *)

Ltac unfold_handlers :=
  unfold Content.step, Content.startRecording, Content.handleMouseMove,
    Content.handleClick, Content.handleKeyDown, Content.handleKeyUp,
    Content.handleScroll, Content.handleVisibilityChange, Content.checkIdle,
    Content.periodicFlush, Content.sampleMousePosition,
    Content.touchInteraction, Content.onMessage_get_status,
    Content.try_send, Content.setInterval;
  rewrite ?endCurrentSegment_closed, ?flushBuffers_closed,
    ?stopRecording_closed;
  unfold Content.teardown;
  rewrite ?clear_timer_closed, ?startNewSegment_closed;
  unfold Content.splice_all, Content.build_payload.

Ltac split_goal_cases :=
  repeat (match goal with
          | |- context [if ?b then _ else _] => destruct b eqn:?
          | |- context [match ?x with _ => _ end] => destruct x eqn:?
          end; cbn).

Ltac by_cases_on_step ev :=
  destruct ev as [?| | |?|?|?|?| | |[]];
  unfold_handlers; cbn; split_goal_cases.

Section StepFacts.
Import Content.

Lemma delivered_nil {A} (buf : Payload → list A) : delivered buf [] = [].
Proof. reflexivity. Qed.

Lemma delivered_one {A} (buf : Payload → list A) p :
  delivered buf [Telemetry p] = buf p.
Proof. unfold delivered. simpl. apply app_nil_r. Qed.

Lemma delivered_app {A} (buf : Payload → list A) out1 out2 :
  delivered buf (out1 ++ out2) = delivered buf out1 ++ delivered buf out2.
Proof.
  unfold delivered, flushes. by rewrite omap_app, fmap_app, concat_app.
Qed.

Lemma flushes_app out1 out2 :
  flushes (out1 ++ out2) = flushes out1 ++ flushes out2.
Proof. apply omap_app. Qed.

(** Segment ids never go back, a flush carries the id current when the
    step began, and a terminal flush leaves the segment ended. *)
Lemma step_segment env ev s :
  no_start ev →
  segmentId s ≤ segmentId (step env ev s).1 ∧
  next_terminal_id s ≤ next_terminal_id (step env ev s).1 ∧
  Forall (λ p, p_segmentId p = segmentId s ∧
               (p_isSegmentEnd p = true →
                isIdle s = false ∧
                next_terminal_id (step env ev s).1 = segmentId s + 1))
    (flushes (step env ev s).2) ∧
  (length (flushes (step env ev s).2) ≤ 1)%nat.
Proof.
  unfold next_terminal_id. intros Hev.
  by_cases_on_step ev; try done.
  all: split; [try lia|split; [try lia|]]; try (cbn in *; congruence).
  all: split; [|cbn; lia].
  all: repeat (constructor; cbn); try lia; try done.
Qed.

Lemma loggable_redacted field type t dt key :
  redacted {| kr_field := field; kr_type := type; kr_t := t;
              kr_dt_since_last := dt; kr_key := loggable key |}.
Proof. unfold redacted, loggable. cbn. by case_bool_decide. Qed.

Lemma step_keys env ev s :
  Forall redacted (keystrokeBuffer s) →
  Forall redacted (keystrokeBuffer (step env ev s).1) ∧
  Forall redacted (delivered p_keystrokes (step env ev s).2).
Proof.
  intros H.
  by_cases_on_step ev; rewrite ?delivered_nil, ?delivered_one; cbn.
  all: rewrite ?Forall_app, ?Forall_singleton;
    auto using Forall_nil_2, loggable_redacted.
Qed.

(** A step adds at most one record to the buffer of its own kind, and what
    it sends it removes. *)
Lemma step_counts env ev s :
  (length (delivered p_mouse (step env ev s).2)
     + length (mouseBuffer (step env ev s).1)
   ≤ length (mouseBuffer s) + (if is_sample ev then 1 else 0) ∧
   length (delivered p_clicks (step env ev s).2)
     + length (clickBuffer (step env ev s).1)
   ≤ length (clickBuffer s) + (if is_click ev then 1 else 0) ∧
   length (delivered p_keystrokes (step env ev s).2)
     + length (keystrokeBuffer (step env ev s).1)
   ≤ length (keystrokeBuffer s) + (if is_key ev then 1 else 0) ∧
   length (delivered p_scroll (step env ev s).2)
     + length (scrollBuffer (step env ev s).1)
   ≤ length (scrollBuffer s) + (if is_scroll ev then 1 else 0))%nat.
Proof.
  by_cases_on_step ev; rewrite ?delivered_nil, ?delivered_one; cbn.
  all: rewrite ?length_app; cbn; lia.
Qed.

(** Listeners are registered exactly while [recording] is on. *)
Lemma step_listeners env ev s :
  listeners s = recording s →
  listeners (step env ev s).1 = recording (step env ev s).1.
Proof. intros H. by_cases_on_step ev; try done; congruence. Qed.

End StepFacts.

Section RunFacts.
Import Content.

Lemma run_cons s env ev tr :
  run s ((env, ev) :: tr) =
  ((run (step env ev s).1 tr).1, (step env ev s).2 ++ (run (step env ev s).1 tr).2).
Proof.
  simpl. destruct (step env ev s) as [s1 out1]. simpl.
  by destruct (run s1 tr).
Qed.

Lemma run_snoc s tr env ev :
  (run s (tr ++ [(env, ev)])).1 = (step env ev (run s tr).1).1.
Proof.
  revert s. induction tr as [|[e v] tr IH]; intros s.
  - simpl. destruct (step env ev s). done.
  - rewrite <- app_comm_cons, !run_cons. simpl. apply IH.
Qed.

Lemma flush_ids_app out1 out2 :
  flush_ids (out1 ++ out2) = flush_ids out1 ++ flush_ids out2.
Proof. unfold flush_ids. by rewrite flushes_app, fmap_app. Qed.

Lemma terminal_flush_ids_app out1 out2 :
  terminal_flush_ids (out1 ++ out2) =
  terminal_flush_ids out1 ++ terminal_flush_ids out2.
Proof.
  unfold terminal_flush_ids. by rewrite flushes_app, filter_app, fmap_app.
Qed.

Lemma terminal_flush_ids_Forall (P : Z → Prop) out :
  Forall (λ p, p_isSegmentEnd p = true → P (p_segmentId p)) (flushes out) →
  Forall P (terminal_flush_ids out).
Proof.
  unfold terminal_flush_ids. induction 1 as [|p l Hp _ IH]; [constructor|].
  rewrite filter_cons. case_decide; [|done].
  rewrite fmap_cons. constructor; auto.
Qed.

(** Every flush of a run without a further start carries an id at least the
    current one, every terminal flush an id the current segment can still
    end under. *)
Lemma run_ids_bounded tr : ∀ s,
  Forall (λ x, no_start x.2) tr →
  Forall (λ i, segmentId s ≤ i) (flush_ids (run s tr).2) ∧
  Forall (λ i, next_terminal_id s ≤ i) (terminal_flush_ids (run s tr).2).
Proof.
  induction tr as [|[env ev] tr IH]; intros s Htr.
  - split; constructor.
  - apply Forall_cons in Htr as [Hev Htr]. simpl in Hev.
    destruct (step_segment env ev s Hev) as (Hid & Hnext & Hout & Hone).
    destruct (IH (step env ev s).1 Htr) as [IH1 IH2].
    rewrite run_cons. cbn [snd].
    rewrite flush_ids_app, terminal_flush_ids_app. split; apply Forall_app; split.
    + unfold flush_ids. apply Forall_fmap.
      eapply Forall_impl; [exact Hout|]. cbn. intros p [-> _]. lia.
    + eapply Forall_impl; [exact IH1|]. cbn. intros; lia.
    + apply terminal_flush_ids_Forall.
      eapply Forall_impl; [exact Hout|]. cbn. intros p [-> Hp] Ht.
      destruct (Hp Ht) as [Hidle _]. unfold next_terminal_id.
      rewrite Hidle. lia.
    + eapply Forall_impl; [exact IH2|]. cbn. intros; lia.
Qed.

Lemma StronglySorted_app_intro {A} (R : A → A → Prop) l1 l2 :
  StronglySorted R l1 → StronglySorted R l2 →
  (∀ x y, x ∈ l1 → y ∈ l2 → R x y) →
  StronglySorted R (l1 ++ l2).
Proof.
  intros H1 H2 H12. induction H1 as [|x l1 Hl1 IH Hx]; [done|].
  simpl. constructor.
  - apply IH. intros a b Ha Hb. apply H12; [by right|done].
  - apply Forall_app. split; [done|].
    apply Forall_forall. intros y Hy. apply H12; [by left|done].
Qed.

Lemma run_ids_sorted tr : ∀ s,
  Forall (λ x, no_start x.2) tr →
  StronglySorted Z.le (flush_ids (run s tr).2) ∧
  StronglySorted Z.lt (terminal_flush_ids (run s tr).2).
Proof.
  induction tr as [|[env ev] tr IH]; intros s Htr.
  - split; constructor.
  - apply Forall_cons in Htr as [Hev Htr]. simpl in Hev.
    destruct (step_segment env ev s Hev) as (Hid & Hnext & Hout & Hone).
    destruct (IH (step env ev s).1 Htr) as [IH1 IH2].
    destruct (run_ids_bounded tr (step env ev s).1 Htr) as [B1 B2].
    rewrite run_cons. cbn [snd].
    rewrite flush_ids_app, terminal_flush_ids_app.
    split; apply StronglySorted_app_intro; try done.
    + unfold flush_ids. destruct (flushes (step env ev s).2) as [|p [|q l]];
        [constructor|repeat constructor|simpl in Hone; lia].
    + intros x y Hx Hy. unfold flush_ids in Hx.
      apply list_elem_of_fmap in Hx as (p & -> & Hp).
      rewrite Forall_forall in Hout. destruct (Hout p Hp) as [-> _].
      rewrite Forall_forall in B1. specialize (B1 y Hy). cbn in B1. lia.
    + unfold terminal_flush_ids.
      destruct (flushes (step env ev s).2) as [|p [|q l]];
        [constructor| |simpl in Hone; lia].
      rewrite filter_cons. case_decide; repeat constructor.
    + intros x y Hx Hy. unfold terminal_flush_ids in Hx.
      apply list_elem_of_fmap in Hx as (p & -> & Hp).
      apply list_elem_of_filter in Hp as [Ht Hp].
      rewrite Forall_forall in Hout. destruct (Hout p Hp) as [-> Hend].
      destruct (Hend Ht) as [_ Hnx].
      rewrite Forall_forall in B2. specialize (B2 y Hy). cbn in B2. lia.
Qed.
End RunFacts.

Section ClickFacts.
Import Content.

Lemma Z_succ_eqb_self z : (z + 1 =? z) = false.
Proof. apply Z.eqb_neq. lia. Qed.

(** The tracker [lastClickTimestamp] holds the time of the latest click of
    the current segment. *)
Lemma step_last_click env ev s hist :
  lastClickTimestamp s = last hist →
  lastClickTimestamp (step env ev s).1 = last (note_click env ev s hist).
Proof.
  intros H. unfold note_click, began_segment, click_captured.
  by_cases_on_step ev; rewrite ?Z_succ_eqb_self, ?Z.eqb_refl in *; cbn.
  all: rewrite ?last_snoc; try done; try (cbn in *; congruence).
Qed.

Lemma run_last_click tr : ∀ s hist,
  lastClickTimestamp s = last hist → listeners s = recording s →
  lastClickTimestamp (run s tr).1 = last (segment_clicks s tr hist) ∧
  listeners (run s tr).1 = recording (run s tr).1.
Proof.
  induction tr as [|[env ev] tr IH]; intros s hist H1 H2; [done|].
  rewrite run_cons. cbn [fst segment_clicks].
  apply IH; [by apply step_last_click|by apply step_listeners].
Qed.

Lemma handleClick_recording env e s :
  recording s = true → isIdle s = false →
  handleClick env e s =
  set_clickBuffer
    (clickBuffer s ++
       [ {| cr_t := performance_now env; cr_x := ce_clientX e;
            cr_y := ce_clientY e; cr_button := buttonName (ce_button e);
            cr_target := targetInfo <$> ce_target e;
            cr_dt_since_last :=
              (λ l, performance_now env - l) <$> lastClickTimestamp s |} ])
    (set_lastClickTimestamp (Some (performance_now env))
       (set_lastInteractionTime (performance_now env) s)).
Proof.
  intros Hr Hi. unfold handleClick, touchInteraction. cbn. rewrite Hr, Hi. cbn.
  rewrite Hi. by destruct (lastClickTimestamp s).
Qed.
End ClickFacts.

Section ContentClaims.
Import Content Scenario.

(** C1, evaluated on the code.  The specification asks that a stop command
    received while recording issues a terminal flush delivering the
    buffered records.  On a page recording under session [s1] with one click
    buffered, [stopRecording] sends nothing: it clears [recording] before
    calling [flushBuffers], whose first guard then returns.  The click
    stays in the buffer, no flush timer can deliver it afterwards, and the
    next start command empties the buffer: the record is never emitted. *)
Theorem C1_stop_skips_terminal_flush :
  recording page_one_click = true
  ∧ truthy_string (sessionId page_one_click) = true
  ∧ length (clickBuffer page_one_click) = 1%nat
  ∧ (stopRecording (host 400 RuntimeAlive) page_one_click).2 = []
  ∧ clickBuffer (stopRecording (host 400 RuntimeAlive) page_one_click).1
    = clickBuffer page_one_click
  ∧ flushes
      (run page_one_click
         [ (host 400 RuntimeAlive, MsgStopRecording);
           (host 6000 RuntimeAlive, TimerFired FlushTimer);
           (host 7000 RuntimeAlive, MsgStartRecording (Some "s2"));
           (host 13000 RuntimeAlive, TimerFired FlushTimer) ]).2 = []
  ∧ clickBuffer
      (run page_one_click
         [ (host 400 RuntimeAlive, MsgStopRecording);
           (host 7000 RuntimeAlive, MsgStartRecording (Some "s2")) ]).1 = [].
Proof. vm_compute. repeat split; reflexivity. Qed.

Lemma atomic_drain_all {A} (l : list A) : atomic_drain l l [].
Proof.
  unfold atomic_drain. repeat split; try done.
  - intros r _ Hr. by apply elem_of_nil in Hr.
  - by left.
  - intros [?|Hr]; [done|by apply elem_of_nil in Hr].
Qed.

Lemma run_counts tr : ∀ s,
  (length (delivered p_mouse (run s tr).2) + length (mouseBuffer (run s tr).1)
   ≤ length (mouseBuffer s) + occurrences is_sample tr ∧
   length (delivered p_clicks (run s tr).2) + length (clickBuffer (run s tr).1)
   ≤ length (clickBuffer s) + occurrences is_click tr ∧
   length (delivered p_keystrokes (run s tr).2)
     + length (keystrokeBuffer (run s tr).1)
   ≤ length (keystrokeBuffer s) + occurrences is_key tr ∧
   length (delivered p_scroll (run s tr).2) + length (scrollBuffer (run s tr).1)
   ≤ length (scrollBuffer s) + occurrences is_scroll tr)%nat.
Proof.
  induction tr as [|[env ev] tr IH]; intros s.
  - cbn. lia.
  - rewrite run_cons. cbn [fst snd]. rewrite !delivered_app, !length_app.
    unfold occurrences in *. rewrite !filter_cons. cbn [snd].
    pose proof (step_counts env ev s) as Hs.
    pose proof (IH (step env ev s).1) as Hr.
    destruct (is_sample ev), (is_click ev), (is_key ev), (is_scroll ev);
      repeat case_decide; try done; cbn [length]; lia.
Qed.

(** C3.  Whenever [flushBuffers] emits a payload, that payload is the only
    message, and each of the four buffers is drained atomically: payload
    and remaining buffer are disjoint, together they are the buffer's
    contents before the flush, the payload holds exactly those contents and
    the buffer is left empty by the same call; a call that builds a payload
    it cannot send empties the buffers all the same.  Over any run, the records
    delivered plus the records still buffered never outnumber the records
    there at the start plus one per capturing event, for each of the four
    kinds: no record is delivered twice. *)
Theorem C3_flush_drain_atomic :
  (∀ env isSegmentEnd s s' out p,
     flushBuffers env isSegmentEnd s = (s', out) → Telemetry p ∈ out →
     out = [Telemetry p]
     ∧ atomic_drain (mouseBuffer s) (p_mouse p) (mouseBuffer s')
     ∧ atomic_drain (clickBuffer s) (p_clicks p) (clickBuffer s')
     ∧ atomic_drain (keystrokeBuffer s) (p_keystrokes p) (keystrokeBuffer s')
     ∧ atomic_drain (scrollBuffer s) (p_scroll p) (scrollBuffer s'))
  ∧ (∀ env isSegmentEnd s,
       flushBuffers env isSegmentEnd s = (s, [])
       ∨ (mouseBuffer (flushBuffers env isSegmentEnd s).1 = []
          ∧ clickBuffer (flushBuffers env isSegmentEnd s).1 = []
          ∧ keystrokeBuffer (flushBuffers env isSegmentEnd s).1 = []
          ∧ scrollBuffer (flushBuffers env isSegmentEnd s).1 = []
          ∧ ((flushBuffers env isSegmentEnd s).2 = []
             ∨ (flushBuffers env isSegmentEnd s).2
               = [Telemetry (build_payload env isSegmentEnd s)])))
  ∧ (∀ s tr,
       (length (delivered p_mouse (run s tr).2)
          + length (mouseBuffer (run s tr).1)
        ≤ length (mouseBuffer s) + occurrences is_sample tr ∧
        length (delivered p_clicks (run s tr).2)
          + length (clickBuffer (run s tr).1)
        ≤ length (clickBuffer s) + occurrences is_click tr ∧
        length (delivered p_keystrokes (run s tr).2)
          + length (keystrokeBuffer (run s tr).1)
        ≤ length (keystrokeBuffer s) + occurrences is_key tr ∧
        length (delivered p_scroll (run s tr).2)
          + length (scrollBuffer (run s tr).1)
        ≤ length (scrollBuffer s) + occurrences is_scroll tr)%nat).
Proof.
  split; [|split; [|intros; apply run_counts]].
  2:{ intros env b s. rewrite flushBuffers_closed.
      destruct (negb (recording s) || negb (truthy_string (sessionId s)));
        [by left|].
      destruct (negb (hasData s) && negb b); [by left|].
      right. unfold teardown. rewrite ?clear_timer_closed.
      destruct (runtime env); cbn; auto 10. }
  intros env b s s' out p Hf Hp. rewrite flushBuffers_closed in Hf.
  repeat match type of Hf with
         | (if ?c then _ else _) = _ => destruct c
         | match ?r with _ => _ end = _ => destruct r
         end;
    injection Hf as <- <-; try by apply elem_of_nil in Hp.
  apply list_elem_of_singleton in Hp. injection Hp as ->.
  cbn. repeat split; try apply atomic_drain_all.
Qed.

(** C3 at a concrete flush: the periodic flush of a page with one click
    buffered. *)
Lemma C3_flush_drain_atomic_witness :
  let env := host 6000 RuntimeAlive in
  let r := flushBuffers env false page_one_click in
  let p := build_payload env false page_one_click in
  flushBuffers env false page_one_click = (r.1, r.2)
  ∧ Telemetry p ∈ r.2
  ∧ r.2 = [Telemetry p]
  ∧ atomic_drain (clickBuffer page_one_click) (p_clicks p) (clickBuffer r.1).
Proof.
  cbn zeta.
  assert (flushBuffers (host 6000 RuntimeAlive) false page_one_click
          = ((flushBuffers (host 6000 RuntimeAlive) false page_one_click).1,
             (flushBuffers (host 6000 RuntimeAlive) false page_one_click).2))
    as Hf by (by destruct (flushBuffers _ _ _)).
  assert (Telemetry (build_payload (host 6000 RuntimeAlive) false
                       page_one_click)
          ∈ (flushBuffers (host 6000 RuntimeAlive) false page_one_click).2)
    as Hp by (vm_compute; left).
  split; [exact Hf|]. split; [exact Hp|].
  pose proof (proj1 C3_flush_drain_atomic _ _ _ _ _ _ Hf Hp) as H.
  split; apply H.
Defined.

End ContentClaims.

Section SegmentClaims.
Import Content Scenario.

Lemma endCurrentSegment_ends env s :
  recording s = true → truthy_string (sessionId s) = true →
  runtime env = RuntimeAlive → isIdle s = true →
  ends_segment s (endCurrentSegment env s).
Proof.
  intros Hr Hs Hrt Hi. rewrite endCurrentSegment_closed, flushBuffers_closed.
  rewrite Hr, Hs, Hrt, andb_false_r. cbn.
  unfold ends_segment. rewrite clear_timer_closed. cbn.
  eexists. repeat split; done.
Qed.

Lemma checkIdle_ends env s :
  recording s = true → isIdle s = false →
  truthy_string (sessionId s) = true → runtime env = RuntimeAlive →
  IDLE_THRESHOLD_MS ≤ performance_now env - lastInteractionTime s →
  ends_segment s (checkIdle env s).
Proof.
  intros Hr Hi Hs Hrt Ht. unfold checkIdle. rewrite Hr, Hi. cbn [negb orb].
  destruct (Z.leb_spec IDLE_THRESHOLD_MS
              (performance_now env - lastInteractionTime s)); [|lia].
  by apply (endCurrentSegment_ends env (set_isIdle true s)).
Qed.

Lemma handleVisibilityChange_ends env s :
  recording s = true → isIdle s = false →
  truthy_string (sessionId s) = true → runtime env = RuntimeAlive →
  document_hidden env = true →
  ends_segment s (handleVisibilityChange env s).
Proof.
  intros Hr Hi Hs Hrt Hh. unfold handleVisibilityChange. rewrite Hh. cbn.
  rewrite Hr, Hi. cbn [negb andb].
  by apply (endCurrentSegment_ends env
              (set_isIdle true (set_pageVisible false s))).
Qed.

Lemma touchInteraction_wakes env s :
  isIdle s = true → fresh_segment s (touchInteraction env s).
Proof.
  intros Hi. unfold touchInteraction. cbn. rewrite Hi.
  rewrite startNewSegment_closed. by repeat split.
Qed.

Lemma touchInteraction_awake env s :
  isIdle s = false →
  touchInteraction env s = set_lastInteractionTime (performance_now env) s.
Proof. intros Hi. unfold touchInteraction. cbn. by rewrite Hi. Qed.

Lemma touchInteraction_idem env s :
  touchInteraction env (touchInteraction env s) = touchInteraction env s.
Proof.
  destruct (isIdle s) eqn:Hi.
  - rewrite (touchInteraction_awake env (touchInteraction env s));
      [|apply (touchInteraction_wakes env s Hi)].
    unfold touchInteraction. cbn. rewrite Hi.
    rewrite startNewSegment_closed. (destruct s; vm_compute; reflexivity).
  - rewrite (touchInteraction_awake env s Hi).
    rewrite touchInteraction_awake by done.
    by destruct s.
Qed.

Lemma touchInteraction_recording env s :
  recording (touchInteraction env s) = recording s.
Proof.
  unfold touchInteraction. cbn.
  destruct (isIdle s); [|done]. by rewrite startNewSegment_closed.
Qed.
Lemma touchInteraction_listeners env s :
  listeners (touchInteraction env s) = listeners s.
Proof.
  unfold touchInteraction. cbn.
  destruct (isIdle s); [|done]. by rewrite startNewSegment_closed.
Qed.

(** A handler that wakes the machine buffers into the woken state. *)
Lemma step_after_wake env ev s :
  qualifying ev = true → listeners s = true → recording s = true →
  step env ev s = step env ev (touchInteraction env s).
Proof.
  intros Hq Hl Hr.
  destruct ev; try discriminate Hq; cbn [step];
    rewrite touchInteraction_listeners, Hl.
  - unfold handleMouseMove. f_equal.
    unfold touchInteraction. cbn. destruct (isIdle s) eqn:Hi; cbn.
    + rewrite !startNewSegment_closed. (destruct s; vm_compute; reflexivity).
    + rewrite Hi. (destruct s; vm_compute; reflexivity).
  - unfold handleClick.
    by rewrite touchInteraction_recording, touchInteraction_idem, Hr.
  - unfold handleKeyDown.
    by rewrite touchInteraction_recording, touchInteraction_idem, Hr.
  - unfold handleKeyUp.
    by rewrite touchInteraction_recording, touchInteraction_idem, Hr.
  - unfold handleScroll.
    by rewrite touchInteraction_recording, touchInteraction_idem, Hr.
Qed.


(** Two periodic flushes of one segment: the flush ids are [1; 1], which is
    not strictly increasing. *)
Lemma C4_counterexample :
  flush_ids
    (run page0
       [ (host 0 RuntimeAlive, MsgStartRecording (Some "s1"));
         (host 100 RuntimeAlive, DomClick (click_at 10 20));
         (host 6000 RuntimeAlive, TimerFired FlushTimer);
         (host 6100 RuntimeAlive, DomClick (click_at 30 40));
         (host 12000 RuntimeAlive, TimerFired FlushTimer) ]).2 = [1; 1]
  ∧ ¬ StronglySorted Z.lt
        (flush_ids
           (run page0
              [ (host 0 RuntimeAlive, MsgStartRecording (Some "s1"));
                (host 100 RuntimeAlive, DomClick (click_at 10 20));
                (host 6000 RuntimeAlive, TimerFired FlushTimer);
                (host 6100 RuntimeAlive, DomClick (click_at 30 40));
                (host 12000 RuntimeAlive, TimerFired FlushTimer) ]).2).
Proof.
  assert (flush_ids
            (run page0
               [ (host 0 RuntimeAlive, MsgStartRecording (Some "s1"));
                 (host 100 RuntimeAlive, DomClick (click_at 10 20));
                 (host 6000 RuntimeAlive, TimerFired FlushTimer);
                 (host 6100 RuntimeAlive, DomClick (click_at 30 40));
                 (host 12000 RuntimeAlive, TimerFired FlushTimer) ]).2
          = [1; 1]) as Hids by (by vm_compute).
  rewrite Hids. split; [done|].
  intros H. apply StronglySorted_inv in H as [_ H].
  apply Forall_inv in H. lia.
Qed.

(** C4, amended.  In a run that begins with a start command and has no
    further start command, the segment ids under which flushes are emitted
    never decrease, and the ids of the terminal flushes strictly increase.
    Entering idle, by the idle threshold or by the page becoming hidden,
    with a session id set and a live runtime, emits exactly one message, a
    terminal flush under the unchanged segment id.  A qualifying
    interaction that arrives while idle first increments the segment id and
    clears the four buffers and the click, per-field key and scroll
    timestamp trackers, and only then buffers its own record. *)
Theorem C4_segment_ids_monotone :
  (∀ s0 env0 sid tr,
     Forall (λ x, no_start x.2) tr →
     StronglySorted Z.le
       (flush_ids (run s0 ((env0, MsgStartRecording sid) :: tr)).2)
     ∧ StronglySorted Z.lt
         (terminal_flush_ids
            (run s0 ((env0, MsgStartRecording sid) :: tr)).2))
  ∧ (∀ env s,
       recording s = true → isIdle s = false →
       truthy_string (sessionId s) = true → runtime env = RuntimeAlive →
       (IDLE_THRESHOLD_MS ≤ performance_now env - lastInteractionTime s →
        ends_segment s (checkIdle env s))
       ∧ (document_hidden env = true →
          ends_segment s (handleVisibilityChange env s)))
  ∧ (∀ env ev s,
       qualifying ev = true → listeners s = true → recording s = true →
       isIdle s = true →
       fresh_segment s (touchInteraction env s)
       ∧ step env ev s = step env ev (touchInteraction env s)).
Proof.
  split; [|split].
  - intros s0 env0 sid tr Htr. rewrite run_cons. cbn [snd].
    rewrite flush_ids_app, terminal_flush_ids_app.
    assert (flushes (step env0 (MsgStartRecording sid) s0).2 = []) as Hnone.
    { cbn [step]. unfold startRecording, try_send.
      destruct (recording s0); [done|]. cbn.
      by destruct (runtime env0). }
    unfold flush_ids at 1, terminal_flush_ids at 1. rewrite Hnone. cbn.
    by apply run_ids_sorted.
  - intros env s Hr Hi Hs Hrt. split; intros H.
    + by apply checkIdle_ends.
    + by apply handleVisibilityChange_ends.
  - intros env ev s Hq Hl Hr Hi. split.
    + by apply touchInteraction_wakes.
    + by apply step_after_wake.
Qed.

(** C4 at a concrete run: a click, a periodic flush, an idle gap, a waking
    click, a second idle gap. *)
Lemma C4_segment_ids_monotone_witness :
  let tr := [ (host 100 RuntimeAlive, DomClick (click_at 10 20));
              (host 6000 RuntimeAlive, TimerFired FlushTimer);
              (host 9500 RuntimeAlive, TimerFired IdleTimer);
              (host 10000 RuntimeAlive, DomClick (click_at 30 40));
              (host 14000 RuntimeAlive, TimerFired IdleTimer) ] in
  Forall (λ x, no_start x.2) tr
  ∧ StronglySorted Z.le
      (flush_ids
         (run page0
            ((host 0 RuntimeAlive, MsgStartRecording (Some "s1")) :: tr)).2)
  ∧ StronglySorted Z.lt
      (terminal_flush_ids
         (run page0
            ((host 0 RuntimeAlive, MsgStartRecording (Some "s1")) :: tr)).2).
Proof.
  cbn zeta.
  assert (Forall (λ x : Env * Event, no_start x.2)
            [ (host 100 RuntimeAlive, DomClick (click_at 10 20));
              (host 6000 RuntimeAlive, TimerFired FlushTimer);
              (host 9500 RuntimeAlive, TimerFired IdleTimer);
              (host 10000 RuntimeAlive, DomClick (click_at 30 40));
              (host 14000 RuntimeAlive, TimerFired IdleTimer) ]) as H
    by (repeat constructor).
  split; [exact H|].
  exact (proj1 C4_segment_ids_monotone page0 (host 0 RuntimeAlive)
           (Some "s1") _ H).
Defined.

End SegmentClaims.

(** * Properties of the coordinator *)

Section Consolidation.
Import Background Spec.

Lemma fold_merge_step segs : ∀ acc cur,
  close_segments (fold_left merge_step segs (acc, Some cur))
  = acc ++ absorb cur segs.
Proof.
  induction segs as [|seg rest IH]; intros acc cur; [done|].
  cbn [fold_left merge_step absorb].
  destruct (m_segmentId cur =? segmentId seg).
  - apply IH.
  - rewrite IH. by rewrite <- app_assoc.
Qed.

Lemma mergeSegments_absorb seg rest :
  mergeSegments (seg :: rest) = absorb (open_segment seg) rest.
Proof. unfold mergeSegments. cbn [fold_left merge_step]. apply fold_merge_step. Qed.

Lemma open_segment_run seg : open_segment seg = merged_run seg [].
Proof.
  unfold open_segment, merged_run. cbn. by rewrite !app_nil_r.
Qed.

Lemma last_snoc_default {A} (l : list A) x d : List.last (l ++ [x]) d = x.
Proof. induction l as [|a [|b l] IH]; try done. Qed.

Lemma extend_segment_run first pre seg :
  extend_segment (merged_run first pre) seg = merged_run first (pre ++ [seg]).
Proof.
  unfold extend_segment, merged_run. cbn.
  rewrite last_snoc_default, !fmap_app, !concat_app. cbn.
  by rewrite !app_nil_r, !app_assoc.
Qed.

Lemma runs_by_id_head seg rest :
  ∃ run runs, runs_by_id (seg :: rest) = (seg :: run) :: runs.
Proof.
  cbn. destruct (runs_by_id rest) as [|[|next run] runs]; [by eexists _, _..|].
  destruct (segmentId seg =? segmentId next); by eexists _, _.
Qed.

(** A uniform prefix followed by a fragment of another id is a run of its
    own; followed by nothing, it is the only run. *)
Lemma runs_by_id_prefix first pre segs :
  Forall (λ seg, segmentId seg = segmentId first) pre →
  runs_by_id (first :: pre ++ segs) =
  match segs with
  | [] => [first :: pre]
  | seg :: rest =>
      if segmentId first =? segmentId seg
      then runs_by_id (first :: (pre ++ [seg]) ++ rest)
      else (first :: pre) :: runs_by_id (seg :: rest)
  end.
Proof.
  intros Hpre. destruct segs as [|seg rest].
  - rewrite app_nil_r. revert first Hpre.
    induction pre as [|p pre IH]; intros first Hpre; [done|].
    apply Forall_cons in Hpre as [Hp Hpre].
    cbn [runs_by_id]. 
    assert (Forall (λ seg, segmentId seg = segmentId p) pre) as Hpre'.
    { eapply Forall_impl; [exact Hpre|]. cbn. congruence. }
    cbn [runs_by_id] in IH. rewrite (IH p Hpre').
    rewrite Hp, Z.eqb_refl. done.
  - destruct (segmentId first =? segmentId seg) eqn:E.
    + by rewrite <- app_assoc.
    + revert first Hpre E.
      induction pre as [|p pre IH]; intros first Hpre E.
      * cbn [app]. destruct (runs_by_id_head seg rest) as (run & runs & Hr).
        change (runs_by_id (first :: seg :: rest)) with
          (match runs_by_id (seg :: rest) with
           | (next :: run) :: runs =>
               if segmentId first =? segmentId next
               then (first :: next :: run) :: runs
               else [first] :: (next :: run) :: runs
           | _ => [[first]]
           end).
        rewrite Hr, E. done.
      * apply Forall_cons in Hpre as [Hp Hpre].
        assert (Forall (λ seg, segmentId seg = segmentId p) pre) as Hpre'.
        { eapply Forall_impl; [exact Hpre|]. cbn. congruence. }
        change (runs_by_id (first :: (p :: pre) ++ seg :: rest)) with
          (match runs_by_id (p :: pre ++ seg :: rest) with
           | (next :: run) :: runs =>
               if segmentId first =? segmentId next
               then (first :: next :: run) :: runs
               else [first] :: (next :: run) :: runs
           | _ => [[first]]
           end).
        rewrite (IH p Hpre') by congruence.
        by rewrite Hp, Z.eqb_refl.
Qed.

Lemma absorb_runs segs : ∀ first pre,
  Forall (λ seg, segmentId seg = segmentId first) pre →
  absorb (merged_run first pre) segs = merge_runs (first :: pre ++ segs).
Proof.
  induction segs as [|seg rest IH]; intros first pre Hpre.
  - unfold merge_runs. by rewrite (runs_by_id_prefix first pre []).
  - unfold merge_runs. rewrite (runs_by_id_prefix first pre (seg :: rest)) by done.
    cbn [absorb]. change (m_segmentId (merged_run first pre)) with (segmentId first).
    destruct (segmentId first =? segmentId seg) eqn:E.
    + rewrite extend_segment_run. rewrite IH; [done|].
      apply Forall_app. split; [done|]. constructor; [|done].
      symmetry. by apply Z.eqb_eq.
    + cbn [omap merge_run]. f_equal.
      rewrite open_segment_run. rewrite (IH seg []); done.
Qed.

Lemma mergeSegments_merge_runs segs : mergeSegments segs = merge_runs segs.
Proof.
  destruct segs as [|seg rest]; [done|].
  rewrite mergeSegments_absorb, open_segment_run.
  by rewrite (absorb_runs rest seg []).
Qed.

Lemma runs_by_id_concat segs : concat (runs_by_id segs) = segs.
Proof.
  induction segs as [|seg rest IH]; [done|]. cbn [runs_by_id].
  destruct rest as [|next rest]; [done|].
  destruct (runs_by_id_head next rest) as (run & runs & Hr).
  rewrite Hr in *. cbn in IH.
  destruct (segmentId seg =? segmentId next); cbn; by rewrite IH.
Qed.

Lemma runs_by_id_uniform segs : Forall uniform_run (runs_by_id segs).
Proof.
  induction segs as [|seg rest IH]; [constructor|]. cbn [runs_by_id].
  destruct (runs_by_id rest) as [|[|next run] runs].
  - repeat constructor. by exists seg, [].
  - repeat constructor. by exists seg, [].
  - apply Forall_cons in IH as [(f & r & [= <- <-] & Hr) IH].
    destruct (segmentId seg =? segmentId next) eqn:E.
    + constructor; [|done]. exists seg, (next :: run). split; [done|].
      apply Z.eqb_eq in E. constructor; [done|].
      eapply Forall_impl; [exact Hr|]. cbn. congruence.
    + constructor; [by exists seg, []|].
      constructor; [by exists next, run|done].
Qed.

Lemma runs_by_id_maximal segs : adjacent_differ (runs_by_id segs).
Proof.
  induction segs as [|seg rest IH]; [done|]. cbn [runs_by_id].
  destruct (runs_by_id rest) as [|[|next run] runs]; try done.
  destruct (segmentId seg =? segmentId next) eqn:E.
  - apply Z.eqb_eq in E. destruct runs as [|r2 runs]; [done|].
    destruct IH as [Hne IH]. split; [|done].
    unfold run_id in *. cbn in *. by rewrite E.
  - apply Z.eqb_neq in E. split; [|done].
    unfold run_id. cbn. congruence.
Qed.

(** With a non-empty store, the export hands the consolidated document to
    the download collaborator, whatever the download then does. *)
Lemma exportData_document env c :
  stored_sessions c ≠ ∅ →
  (exportData env c).2
  = Some (consolidated (stored_sessions c), export_filename env).
Proof.
  intros Hne. unfold exportData. cbn zeta. fold (stored_sessions c).
  destruct (Nat.eqb_spec (size (stored_sessions c)) 0) as [Hz|_]; [|done].
  by apply map_size_empty_iff in Hz.
Qed.

(** C2.  For every stored session the exported session carries
    [mergeSegments] of its fragment list.  [mergeSegments] merges each
    maximal run of consecutive fragments with equal segment id into one
    segment: the runs partition the fragment list in arrival order, each
    run has one id, adjacent runs have different ids (whatever their
    numeric order), and a run's segment concatenates the buffers in order,
    starts at the first fragment's timestamp and ends at the last one's.
    Scenario C: fragments with ids 4, 4, 5 give exactly two segments, the
    first holding the buffers of both fragments of id 4. *)
Theorem C2_export_merges_runs :
  (∀ env c sid session,
     stored_sessions c !! sid = Some session →
     ∃ doc filename exported,
       (exportData env c).2 = Some (doc, filename)
       ∧ doc !! sid = Some exported
       ∧ x_segments exported = mergeSegments (segments session)
       ∧ x_totalSegments exported = length (mergeSegments (segments session)))
  ∧ (∀ segs,
       mergeSegments segs = merge_runs segs
       ∧ concat (runs_by_id segs) = segs
       ∧ Forall uniform_run (runs_by_id segs)
       ∧ adjacent_differ (runs_by_id segs))
  ∧ (∀ f1 f2 f3,
       segmentId f1 = 4 → segmentId f2 = 4 → segmentId f3 = 5 →
       mergeSegments [f1; f2; f3] = [merged_run f1 [f2]; merged_run f3 []]
       ∧ m_mouse (merged_run f1 [f2]) = mouse f1 ++ mouse f2
       ∧ m_clicks (merged_run f1 [f2]) = clicks f1 ++ clicks f2
       ∧ m_keystrokes (merged_run f1 [f2]) = keystrokes f1 ++ keystrokes f2
       ∧ m_scroll (merged_run f1 [f2]) = scroll f1 ++ scroll f2
       ∧ m_startTime (merged_run f1 [f2]) = timestamp f1
       ∧ m_endTime (merged_run f1 [f2]) = timestamp f2).
Proof.
  split; [|split].
  - intros env c sid session Hs. eexists _, _, _. split.
    + apply exportData_document. intros Hz. rewrite Hz in Hs.
      by rewrite lookup_empty in Hs.
    + split; [unfold consolidated; by rewrite map_lookup_imap, Hs|done].
  - intros segs. split; [apply mergeSegments_merge_runs|].
    split; [apply runs_by_id_concat|].
    split; [apply runs_by_id_uniform|apply runs_by_id_maximal].
  - intros f1 f2 f3 H1 H2 H3. split.
    + rewrite mergeSegments_merge_runs. unfold merge_runs. cbn.
      rewrite H2, H3. cbn. by rewrite H1, H2.
    + unfold merged_run. cbn. by rewrite !app_nil_r.
Qed.

(** Scenario C at three concrete fragments. *)
Lemma C2_export_merges_runs_witness :
  let f1 := CoordinatorScenario.stored 4 1000 false
              [CoordinatorScenario.a_click 100] in
  let f2 := CoordinatorScenario.stored 4 2000 true
              [CoordinatorScenario.a_click 200] in
  let f3 := CoordinatorScenario.stored 5 3000 true
              [CoordinatorScenario.a_click 300] in
  segmentId f1 = 4 ∧ segmentId f2 = 4 ∧ segmentId f3 = 5
  ∧ mergeSegments [f1; f2; f3] = [merged_run f1 [f2]; merged_run f3 []].
Proof.
  cbn zeta. split; [reflexivity|]. split; [reflexivity|].
  split; [reflexivity|].
  exact (proj1 (proj2 (proj2 C2_export_merges_runs)
                  (CoordinatorScenario.stored 4 1000 false
                     [CoordinatorScenario.a_click 100])
                  (CoordinatorScenario.stored 4 2000 true
                     [CoordinatorScenario.a_click 200])
                  (CoordinatorScenario.stored 5 3000 true
                     [CoordinatorScenario.a_click 300])
                  eq_refl eq_refl eq_refl)).
Defined.

End Consolidation.

Section StoreFacts.
Import Background.

Lemma restoreState_storage c :
  local_sessions (restoreState c) = local_sessions c
  ∧ pending (restoreState c) = pending c
  ∧ running (restoreState c) = running c
  ∧ errors (restoreState c) = errors c
  ∧ session_area (restoreState c) = session_area c.
Proof.
  unfold restoreState. destruct (stateRestored c); [done|].
  destruct (truthy_string _), (sa_recording _) as [[]|],
    (sa_totalEvents _), (sa_segmentCount _); done.
Qed.

Lemma restoreState_restored c :
  stateRestored c = true → restoreState c = c.
Proof. intros H. unfold restoreState. by rewrite H. Qed.

Lemma fragments_ok_storage P c c' :
  local_sessions c' = local_sessions c → pending c' = pending c →
  running c' = running c → fragments_ok P c → fragments_ok P c'.
Proof.
  unfold fragments_ok, stored_sessions. by intros -> -> ->.
Qed.

Lemma fragments_ok_enqueue P op c :
  op_fragment P op → fragments_ok P c → fragments_ok P (enqueueWrite op c).
Proof.
  intros Hop (H1 & H2 & H3). repeat split; try done.
  cbn. apply Forall_app. split; [done|]. by constructor.
Qed.

Lemma fragments_ok_settle P env op c :
  fragments_ok P c → fragments_ok P (settle env op c).1.
Proof.
  intros (H1 & H2 & H3). unfold settle.
  destruct op as [[]|]; by repeat split.
Qed.

Lemma fragments_ok_fail P env op c :
  fragments_ok P c → fragments_ok P (fail env op c).1.
Proof.
  intros H. unfold fail. apply fragments_ok_settle.
  revert H. by apply fragments_ok_storage.
Qed.

Lemma every_fragment_insert P m key session :
  every_fragment P m → Forall P (segments session) →
  every_fragment P (<[key := session]> m).
Proof. intros Hm Hs. by apply map_Forall_insert_2. Qed.

Lemma storeTelemetry_fragments_ok P data c :
  (hasData (make_segment data) = true → P (make_segment data)) →
  fragments_ok P c → fragments_ok P (storeTelemetry data c).
Proof.
  intros HP H. unfold storeTelemetry.
  destruct (negb (recording c) || negb (truthy_string (sessionId c)));
    [done|].
  destruct (hasData (make_segment data)) eqn:E; cbn [negb].
  - apply fragments_ok_enqueue; [by apply HP|].
    revert H. by apply fragments_ok_storage.
  - revert H. by apply fragments_ok_storage.
Qed.

Lemma storePageMeta_fragments_ok P data c :
  fragments_ok P c → fragments_ok P (storePageMeta data c).
Proof.
  intros H. unfold storePageMeta.
  destruct (negb (recording c) || negb (truthy_string (sessionId c)));
    [done|].
  by apply fragments_ok_enqueue.
Qed.

Lemma queue_step_fragments_ok P env c :
  fragments_ok P c → fragments_ok P (queue_step env c).1.
Proof.
  intros H. pose proof H as (H1 & H2 & H3). unfold queue_step.
  destruct (running c) as [[op|op m|totals count]|] eqn:Hrun.
  - destruct (storage_ok env); [|by apply fragments_ok_fail].
    unfold after_get. fold (stored_sessions c).
    destruct op as [|segment|entry].
    + repeat split; try done. cbn.
      apply every_fragment_insert; [done|constructor].
    + destruct (stored_sessions c !! property_key (sessionId c))
        as [session|] eqn:Hs; [|by apply fragments_ok_settle].
      repeat split; try done. cbn.
      apply every_fragment_insert; [done|]. cbn.
      apply Forall_app. split; [by apply (H1 _ _ Hs)|by constructor].
    + destruct (stored_sessions c !! property_key (sessionId c))
        as [session|] eqn:Hs; [|by apply fragments_ok_settle].
      repeat split; try done. cbn.
      apply every_fragment_insert; [done|]. cbn. by apply (H1 _ _ Hs).
  - destruct (storage_ok env); [|by apply fragments_ok_fail].
    destruct op; try (apply fragments_ok_settle);
      unfold fragments_ok, stored_sessions; cbn; rewrite ?Hrun;
      by repeat split.
  - destruct (storage_ok env); [|by apply fragments_ok_fail].
    apply fragments_ok_settle.
    unfold fragments_ok, stored_sessions; cbn. by rewrite Hrun.
  - destruct (pending c) as [|fn rest] eqn:Hp; [done|].
    apply Forall_cons in H2 as [Hfn Hrest]. by repeat split.
Qed.

Lemma act_fragments_ok P a c :
  submits_only P a → fragments_ok P c → fragments_ok P (act a c).
Proof.
  intros Ha H.
  assert (fragments_ok P (restoreState c)) as Hr.
  { destruct (restoreState_storage c) as (? & ? & ? & _).
    revert H. by apply fragments_ok_storage. }
  destruct a as [env msg|env|now state|]; cbn [act].
  - unfold handle. destruct msg; cbn [fst]; try done.
    + by apply storeTelemetry_fragments_ok.
    + by apply storePageMeta_fragments_ok.
    + unfold startRecording. destruct (recording (restoreState c)); [done|].
      unfold startNewSession. apply fragments_ok_enqueue; [done|].
      destruct (restoreState_storage (restoreState c)) as (? & ? & ? & _).
      revert Hr. apply fragments_ok_storage; cbn; congruence.
    + unfold stopRecording.
      destruct (recording (restoreState c)); cbn; [|done].
      revert Hr. by apply fragments_ok_storage.
    + destruct Hr as (_ & ? & ?). by repeat split.
  - by apply queue_step_fragments_ok.
  - unfold onIdleStateChanged. destruct (negb (recording c)); [done|].
    destruct (_ || _); [|done].
    destruct (truthy_string (sessionId c)); [|done].
    by apply storePageMeta_fragments_ok.
  - destruct (restoreState_storage (restart c)) as (E1 & E2 & E3 & _).
    destruct H as (H1 & _ & _).
    by repeat split; unfold stored_sessions; rewrite ?E1, ?E2, ?E3.
Qed.

Lemma run_fragments_ok P schedule : ∀ c,
  Forall (submits_only P) schedule → fragments_ok P c →
  fragments_ok P (run c schedule).
Proof.
  induction schedule as [|a schedule IH]; intros c Hs Hc; [done|].
  apply Forall_cons in Hs as [Ha Hs]. cbn.
  apply IH; [done|]. by apply act_fragments_ok.
Qed.

Lemma idle_fragments_ok P c :
  idle_queue c → every_fragment P (stored_sessions c) → fragments_ok P c.
Proof. intros [Hp Hr] H. unfold fragments_ok. rewrite Hp, Hr. by repeat split. Qed.

End StoreFacts.

Section QueueFacts.
Import Background.

Lemma truthy_string_nonempty s : s ≠ "" → truthy_string (Some s) = true.
Proof.
  intros H. cbn. destruct (String.eqb_spec s ""); [done|done].
Qed.

Lemma stored_fragments_length sid c session :
  stored_sessions c !! sid = Some session →
  stored_fragments sid c = segments session.
Proof. intros H. unfold stored_fragments. by rewrite H. Qed.

Lemma act_serialized sid a c :
  serialized sid c → fragment_traffic a →
  serialized sid (act a c)
  ∧ (length (stored_fragments sid (act a c)) + unwritten (act a c)
     = length (stored_fragments sid c) + unwritten c
       + (if submits_fragment a then 1 else 0))%nat.
Proof.
  intros (Hrec & Hsid & Hne & Hres & Hsess & Hpend & Hrun) Ha.
  destruct a as [env [data| | | | | | | |]|env| |]; try done; cbn [act].
  - (* a fragment arrives *)
    cbn in Ha. unfold handle. rewrite restoreState_restored by done.
    cbn [fst]. unfold storeTelemetry.
    rewrite Hrec, Hsid, truthy_string_nonempty by done. cbn [negb orb].
    change (hasData (make_segment (with_tabId (sender_tab env) data)))
      with (hasData (make_segment data)).
    rewrite Ha. cbn [negb]. split.
    + repeat split; try done. cbn. apply Forall_app. split; [done|].
      by constructor.
    + unfold unwritten, stored_fragments, stored_sessions. cbn.
      rewrite length_app. cbn. lia.
  - (* the queue advances *)
    cbn in Ha. unfold queue_step. rewrite Ha.
    destruct (running c) as [[op|op m|totals count]|] eqn:Hr.
    + destruct op as [|segment|]; try done.
      unfold after_get. fold (stored_sessions c).
      rewrite Hsid. cbn [property_key].
      destruct Hsess as [session Hs]. rewrite Hs. cbn [fst]. split.
      * repeat split; try done. cbn. by exists segment, session.
      * unfold unwritten, stored_fragments, stored_sessions. cbn.
        by rewrite Hr.
    + destruct Hrun as (segment & session & -> & Hs & ->). cbn [fst]. split.
      * repeat split; try done. unfold stored_sessions. cbn.
        rewrite lookup_insert_eq. by eexists.
      * unfold unwritten, stored_fragments at 1. unfold stored_sessions at 1.
        cbn. rewrite lookup_insert_eq. cbn.
        rewrite (stored_fragments_length sid c session Hs), Hr, length_app.
        cbn. lia.
    + cbn. split; [by repeat split|].
      unfold unwritten, stored_fragments, stored_sessions. cbn.
      by rewrite Hr.
    + destruct (pending c) as [|fn rest] eqn:Hp.
      * cbn. split; [by repeat split; rewrite ?Hr, ?Hp|done].
      * apply Forall_cons in Hpend as [Hfn Hrest]. cbn. split.
        -- by repeat split.
        -- unfold unwritten, stored_fragments, stored_sessions. cbn.
           rewrite Hr, Hp. cbn. lia.
Qed.

Lemma run_cons_act a schedule c : run c (a :: schedule) = run (act a c) schedule.
Proof. reflexivity. Qed.



(** Every resumption does some of the work that is left. *)
Lemma queue_step_work env c :
  (work_left (queue_step env c).1 ≤ work_left c - 1)%nat.
Proof.
  unfold queue_step, work_left.
  destruct (running c) as [[op|op m|totals count]|] eqn:Hr.
  - destruct (storage_ok env), op; unfold after_get; cbn; try lia.
    all: destruct (_ !! _); cbn; lia.
  - destruct (storage_ok env), op; cbn; lia.
  - destruct (storage_ok env); cbn; lia.
  - destruct (pending c) eqn:Hp; cbn; rewrite ?Hr, ?Hp; cbn; lia.
Qed.

Lemma work_left_idle c : work_left c = 0%nat → idle_queue c.
Proof.
  unfold work_left, idle_queue. intros H.
  destruct (pending c), (running c) as [[]|]; cbn in H; try lia. done.
Qed.


End QueueFacts.

Section CoordinatorClaims.
Import Background CoordinatorScenario.

Lemma stateRestored_restoreState c : stateRestored (restoreState c) = true.
Proof.
  unfold restoreState. destruct (stateRestored c) eqn:E; [done|].
  destruct (truthy_string _), (sa_recording _) as [[]|],
    (sa_totalEvents _), (sa_segmentCount _); done.
Qed.


Lemma queue_step_idle env c : idle_queue c → (queue_step env c).1 = c.
Proof. intros [Hp Hr]. unfold queue_step. by rewrite Hr, Hp. Qed.

Lemma run_idle env n c :
  idle_queue c → run c (replicate n (Resume env)) = c.
Proof.
  intros Hc. induction n as [|n IH]; [done|].
  cbn [replicate]. rewrite run_cons_act. cbn [act].
  by rewrite queue_step_idle.
Qed.

Lemma handle_empty_fragment env data c :
  hasData (make_segment data) = false →
  pending (handle env (telemetry data) c).1.1 = pending c
  ∧ running (handle env (telemetry data) c).1.1 = running c
  ∧ local_sessions (handle env (telemetry data) c).1.1 = local_sessions c.
Proof.
  intros H. unfold handle. cbn [fst]. unfold storeTelemetry.
  change (hasData (make_segment (with_tabId (sender_tab env) data)))
    with (hasData (make_segment data)).
  rewrite H. cbn [negb].
  destruct (restoreState_storage c) as (? & ? & ? & _).
  by destruct (negb (recording _) || negb (truthy_string _)).
Qed.

(** C10.  A telemetry message whose four buffers are all empty is dropped
    by its handler before anything is queued, whatever its terminal flag:
    queue and store are as before.  From an idle queue, every fragment the
    store holds after any schedule of coordinator actions has at least one
    record if that was so at the start, and receiving an empty fragment
    followed by any number of queue resumptions leaves the durable store
    unchanged. *)
Theorem C10_empty_fragments_never_stored :
  (∀ env data c,
     hasData (make_segment data) = false →
     pending (handle env (telemetry data) c).1.1 = pending c
     ∧ running (handle env (telemetry data) c).1.1 = running c
     ∧ local_sessions (handle env (telemetry data) c).1.1 = local_sessions c)
  ∧ (∀ c schedule,
       idle_queue c →
       every_fragment (λ seg, hasData seg = true) (stored_sessions c) →
       every_fragment (λ seg, hasData seg = true)
         (stored_sessions (run c schedule)))
  ∧ (∀ c env data e n,
       idle_queue c → hasData (make_segment data) = false →
       local_sessions
         (run c (Receive env (telemetry data) :: replicate n (Resume e)))
       = local_sessions c).
Proof.
  split; [|split].
  - apply handle_empty_fragment.
  - intros c schedule Hc Hs.
    apply (run_fragments_ok (λ seg, hasData seg = true) schedule c).
    + apply Forall_forall. intros [? []| | |] _; cbn; auto.
    + by apply idle_fragments_ok.
  - intros c env data e n [Hp Hr] Hd. rewrite run_cons_act. cbn [act].
    destruct (handle_empty_fragment env data c Hd) as (E1 & E2 & E3).
    rewrite run_idle; [done|]. split; congruence.
Qed.

(** C10 at an empty terminal flush. *)
Lemma C10_empty_fragments_never_stored_witness :
  let c := recording_under "s1" (Some {[ "s1" := new_session ]}) in
  let data := fragment "s1" 3 true [] in
  idle_queue c ∧ hasData (make_segment data) = false
  ∧ local_sessions
      (run c (Receive (from_tab 7) (telemetry data)
                :: replicate 4 (Resume storage_up)))
    = local_sessions c.
Proof.
  cbn zeta.
  assert (idle_queue (recording_under "s1" (Some {[ "s1" := new_session ]})))
    as Hi by (split; reflexivity).
  assert (hasData (make_segment (fragment "s1" 3 true [])) = false)
    as Hd by reflexivity.
  split; [exact Hi|]. split; [exact Hd|].
  exact (proj2 (proj2 C10_empty_fragments_never_stored) _ (from_tab 7) _
           storage_up 4%nat Hi Hd).
Defined.

End CoordinatorClaims.

Section QueueClaims.
Import Background CoordinatorScenario.

Lemma serialized_start sid c :
  recording c = true → sessionId c = Some sid → sid ≠ "" →
  stateRestored c = true → is_Some (stored_sessions c !! sid) →
  idle_queue c → serialized sid c.
Proof.
  intros ? ? ? ? ? [Hp Hr]. unfold serialized. rewrite Hp, Hr.
  by repeat split.
Qed.







(** A fragment carrying the absent session id [X] while the coordinator
    records under the stored session [Y]: it is filed under [Y], so the
    durable store changes. *)
Lemma C8_counterexample :
  let c := recording_under "Y" (Some {[ "Y" := new_session ]}) in
  let data := fragment "X" 1 false [a_click 100] in
  d_sessionId data = Some "X"
  ∧ stored_sessions c !! "X" = None
  ∧ stored_fragments "Y"
      (run c [ Receive (from_tab 7) (telemetry data); Resume storage_up;
               Resume storage_up; Resume storage_up ])
    = [make_segment (with_tabId (Some 7) data)]
  ∧ local_sessions
      (run c [ Receive (from_tab 7) (telemetry data); Resume storage_up;
               Resume storage_up; Resume storage_up ])
    ≠ local_sessions c.
Proof.
  cbn zeta. split; [reflexivity|]. split; [by vm_compute|].
  assert (stored_fragments "Y"
            (run (recording_under "Y" (Some {[ "Y" := new_session ]}))
               [ Receive (from_tab 7)
                   (telemetry (fragment "X" 1 false [a_click 100]));
                 Resume storage_up; Resume storage_up; Resume storage_up ])
          = [make_segment
               (with_tabId (Some 7) (fragment "X" 1 false [a_click 100]))])
    as Hs by (by vm_compute).
  split; [exact Hs|].
  intros Heq. unfold stored_fragments, stored_sessions in Hs.
  rewrite Heq in Hs. vm_compute in Hs. discriminate Hs.
Qed.

(** C8, amended.  When the session id the coordinator is currently filing
    under is absent from the durable store (the id carried by the message
    is not read), a telemetry or page-metadata message is dropped silently:
    once its queued function has read the store, the durable store and the
    mirrored counters are unchanged, no error has been logged, the queue is
    idle again, and the coordinator differs from before at most in its
    in-memory event totals. *)
Theorem C8_missing_session_dropped c env msg e0 e1 :
  is_data_message msg = true → stateRestored c = true → idle_queue c →
  stored_sessions c !! property_key (sessionId c) = None →
  storage_ok e1 = true →
  local_sessions (run c [Receive env msg; Resume e0; Resume e1])
  = local_sessions c
  ∧ session_area (run c [Receive env msg; Resume e0; Resume e1])
    = session_area c
  ∧ errors (run c [Receive env msg; Resume e0; Resume e1]) = errors c
  ∧ idle_queue (run c [Receive env msg; Resume e0; Resume e1])
  ∧ run c [Receive env msg; Resume e0; Resume e1]
    = set_totalEvents
        (totalEvents (run c [Receive env msg; Resume e0; Resume e1])) c.
Proof.
  intros Hm Hres [Hp Hr] Hmiss Hok.
  unfold stored_sessions in Hmiss.
  destruct c as [sid rec tot cnt res loc area pend runn errs].
  cbn in Hres, Hp, Hr, Hmiss. subst res pend runn.
  destruct msg as [data|data| | | | | | |]; try discriminate Hm;
    unfold run; cbn [fold_left act handle fst]; unfold restoreState;
    cbn [stateRestored]; unfold storeTelemetry, storePageMeta;
    cbn [recording sessionId];
    destruct (negb rec || negb (truthy_string sid)); cbn;
    try (destruct (negb (hasData _)); cbn);
    unfold queue_step; cbn; rewrite ?Hok; unfold after_get; cbn;
    rewrite ?Hmiss; cbn; by repeat split.
Qed.

(** C8 at a terminal flush arriving after the sessions were cleared. *)
Lemma C8_missing_session_dropped_witness :
  let c := recording_under "gone" None in
  let msg := telemetry (fragment "gone" 2 true [a_click 100]) in
  stored_sessions c !! property_key (sessionId c) = None
  ∧ local_sessions
      (run c [Receive (from_tab 7) msg; Resume storage_up; Resume storage_up])
    = local_sessions c
  ∧ errors
      (run c [Receive (from_tab 7) msg; Resume storage_up; Resume storage_up])
    = errors c.
Proof.
  cbn zeta.
  assert (stored_sessions (recording_under "gone" None)
            !! property_key (sessionId (recording_under "gone" None)) = None)
    as Hmiss by reflexivity.
  pose proof (C8_missing_session_dropped (recording_under "gone" None)
                (from_tab 7)
                (telemetry (fragment "gone" 2 true [a_click 100]))
                storage_up storage_up eq_refl eq_refl
                (conj eq_refl eq_refl) Hmiss eq_refl) as H.
  split; [exact Hmiss|]. split; [apply H|apply H].
Defined.

End QueueClaims.

Section KeyClaims.
Import Content Scenario.

Lemma run_keys tr : ∀ s,
  Forall redacted (keystrokeBuffer s) →
  Forall redacted (keystrokeBuffer (run s tr).1) ∧
  Forall redacted (delivered p_keystrokes (run s tr).2).
Proof.
  induction tr as [|[env ev] tr IH]; intros s Hs.
  - split; [done|constructor].
  - rewrite run_cons. cbn [fst snd]. rewrite delivered_app.
    destruct (step_keys env ev s Hs) as [H1 H2].
    destruct (IH _ H1) as [H3 H4].
    split; [done|]. by apply Forall_app.
Qed.

Lemma LOGGABLE_KEYS_names k :
  k ∈ LOGGABLE_KEYS → (1 < String.length k)%nat ∧ k ∉ MODIFIER_KEYS.
Proof.
  unfold LOGGABLE_KEYS. rewrite elem_of_list_to_set.
  revert k. apply Forall_forall.
  repeat (apply Forall_cons; split;
          [split; [cbn; lia|by apply (bool_decide_unpack _)]|]).
  constructor.
Qed.

Lemma delivered_member {A} (buf : Payload → list A) (P : A → Prop) out p :
  p ∈ flushes out → Forall P (delivered buf out) → Forall P (buf p).
Proof.
  unfold delivered. intros Hp H.
  rewrite Forall_concat, Forall_fmap in H.
  rewrite Forall_forall in H. by apply H.
Qed.

Lemma page_traffic_redacted a :
  System.page_traffic a →
  Background.submits_only System.keys_redacted a.
Proof.
  destruct a as [env [data| | | | | | | |]| | |]; try done.
  intros (env0 & tr & p & tab & Hp & ->) _.
  unfold System.keys_redacted. cbn.
  apply (delivered_member p_keystrokes redacted _ p Hp).
  apply run_keys. constructor.
Qed.

(** C5.  Every key record a page context buffers or sends carries a key
    name that is [null] or on the allow-list [LOGGABLE_KEYS], for key-down
    and key-up events alike; the coordinator stores the key records of a
    payload unchanged, so every key record it persists from page traffic is
    redacted too; and the allow-list holds no single-character name and none
    of the modifier names Shift, Control, Alt, Meta. *)
Theorem C5_key_names_redacted :
  (∀ env0 tr,
     Forall redacted (keystrokeBuffer (run (initial env0) tr).1)
     ∧ Forall redacted (delivered p_keystrokes (run (initial env0) tr).2))
  ∧ (∀ tab p,
       Background.keystrokes
         (Background.make_segment
            (Background.with_tabId tab (Background.received None p)))
       = p_keystrokes p)
  ∧ (∀ c schedule,
       Background.idle_queue c →
       Background.every_fragment System.keys_redacted
         (Background.stored_sessions c) →
       Forall System.page_traffic schedule →
       Background.every_fragment System.keys_redacted
         (Background.stored_sessions (Background.run c schedule)))
  ∧ (∀ k, k ∈ LOGGABLE_KEYS →
          (1 < String.length k)%nat ∧ k ∉ MODIFIER_KEYS).
Proof.
  split; [|split; [|split]].
  - intros env0 tr. apply run_keys. constructor.
  - done.
  - intros c schedule Hc Hs Htr.
    apply (run_fragments_ok System.keys_redacted schedule c).
    + eapply Forall_impl; [exact Htr|]. apply page_traffic_redacted.
    + by apply idle_fragments_ok.
  - apply LOGGABLE_KEYS_names.
Qed.

(** C5 at the allow-listed key [Enter]. *)
Lemma C5_key_names_redacted_witness :
  "Enter" ∈ LOGGABLE_KEYS
  ∧ (1 < String.length "Enter")%nat ∧ "Enter" ∉ MODIFIER_KEYS.
Proof.
  assert ("Enter" ∈ LOGGABLE_KEYS) as H by (by apply (bool_decide_unpack _)).
  split; [exact H|].
  exact (proj2 (proj2 (proj2 C5_key_names_redacted)) "Enter" H).
Defined.

(** C9.  After any run from a fresh injection, a click captured while
    recording and not idle appends one record whose timestamp is the
    current clock reading and whose [dt_since_last] is [null] when no click
    was captured earlier in the current segment and otherwise the time
    elapsed since the latest such click.  Scenario A: clicks at 100 ms and
    350 ms after a start give [null] and [250]. *)
Theorem C9_click_dt_since_last :
  (∀ env0 tr env e,
     recording (run (initial env0) tr).1 = true →
     isIdle (run (initial env0) tr).1 = false →
     ∃ r,
       clickBuffer (step env (DomClick e) (run (initial env0) tr).1).1
       = clickBuffer (run (initial env0) tr).1 ++ [r]
       ∧ cr_t r = performance_now env
       ∧ cr_dt_since_last r
         = (λ prev, performance_now env - prev)
             <$> last (segment_clicks (initial env0) tr []))
  ∧ cr_dt_since_last <$>
      clickBuffer
        (run page0
           [ (host 0 RuntimeAlive, MsgStartRecording (Some "s1"));
             (host 100 RuntimeAlive, DomClick (click_at 10 20));
             (host 350 RuntimeAlive, DomClick (click_at 30 40)) ]).1
    = [None; Some 250].
Proof.
  split; [|by vm_compute].
  intros env0 tr env e Hr Hi.
  destruct (run_last_click tr (initial env0) []) as [Hlast Hl]; [done..|].
  rewrite Hr in Hl. cbn [step]. rewrite Hl.
  rewrite handleClick_recording by done. cbn.
  eexists. split; [done|]. split; [done|]. cbn. by rewrite Hlast.
Qed.

(** Scenario A, second click. *)
Lemma C9_click_dt_since_last_witness :
  let tr := [ (host 0 RuntimeAlive, MsgStartRecording (Some "s1"));
              (host 100 RuntimeAlive, DomClick (click_at 10 20)) ] in
  recording (run (initial (host 0 RuntimeAlive)) tr).1 = true
  ∧ isIdle (run (initial (host 0 RuntimeAlive)) tr).1 = false
  ∧ ∃ r,
      clickBuffer
        (step (host 350 RuntimeAlive) (DomClick (click_at 30 40))
           (run (initial (host 0 RuntimeAlive)) tr).1).1
      = clickBuffer (run (initial (host 0 RuntimeAlive)) tr).1 ++ [r]
      ∧ cr_t r = 350
      ∧ cr_dt_since_last r = Some 250.
Proof.
  cbn zeta.
  assert (recording
            (run (initial (host 0 RuntimeAlive))
               [ (host 0 RuntimeAlive, MsgStartRecording (Some "s1"));
                 (host 100 RuntimeAlive, DomClick (click_at 10 20)) ]).1
          = true) as Hr by (vm_compute; reflexivity).
  assert (isIdle
            (run (initial (host 0 RuntimeAlive))
               [ (host 0 RuntimeAlive, MsgStartRecording (Some "s1"));
                 (host 100 RuntimeAlive, DomClick (click_at 10 20)) ]).1
          = false) as Hi by (vm_compute; reflexivity).
  split; [exact Hr|]. split; [exact Hi|].
  exact (proj1 C9_click_dt_since_last (host 0 RuntimeAlive) _
           (host 350 RuntimeAlive) (click_at 30 40) Hr Hi).
Defined.

End KeyClaims.

(** * Where payloads come from *)
Section FlushOrigins.
Import Content Scenario.

Lemma hasData_size s :
  hasData s = true →
  (0 < length (mouseBuffer s) + length (clickBuffer s)
       + length (keystrokeBuffer s) + length (scrollBuffer s))%nat.
Proof.
  unfold hasData.
  destruct (mouseBuffer s), (clickBuffer s), (keystrokeBuffer s),
    (scrollBuffer s); cbn; intros H; try lia; discriminate H.
Qed.

Lemma flushBuffers_payload env b s p :
  p ∈ flushes (flushBuffers env b s).2 →
  p = build_payload env b s ∧ recording s = true
  ∧ truthy_string (sessionId s) = true ∧ (b = false → hasData s = true).
Proof.
  rewrite flushBuffers_closed.
  destruct (recording s); cbn [negb orb]; [|by intros ?%elem_of_nil].
  destruct (truthy_string (sessionId s)); cbn [negb];
    [|by intros ?%elem_of_nil].
  destruct (hasData s) eqn:Hd, b; cbn [negb andb];
    try (by intros ?%elem_of_nil);
    destruct (runtime env); cbn; try (by intros ?%elem_of_nil);
    intros ->%list_elem_of_singleton; done.
Qed.

Lemma step_flush_origin env ev s p :
  p ∈ flushes (step env ev s).2 →
  p_sessionId p = sessionId s ∧ truthy_string (p_sessionId p) = true
  ∧ (p_isSegmentEnd p = false → (0 < payload_size p)%nat)
  ∧ (p_isSegmentEnd p = true → ends_activity env ev s ∧ isIdle s = false).
Proof.
  destruct ev as [sid| | |e|e|e|e| | |[]]; cbn [step].
  - unfold startRecording, try_send. destruct (recording s); cbn;
      [by intros ?%elem_of_nil|].
    destruct (runtime env); cbn; by intros ?%elem_of_nil.
  - rewrite stopRecording_closed. destruct (recording s);
      by intros ?%elem_of_nil.
  - unfold onMessage_get_status. destruct (runtime env); cbn;
      by intros ?%elem_of_nil.
  - destruct (listeners s); by intros ?%elem_of_nil.
  - destruct (listeners s); by intros ?%elem_of_nil.
  - destruct (listeners s); by intros ?%elem_of_nil.
  - destruct (listeners s); by intros ?%elem_of_nil.
  - destruct (listeners s); by intros ?%elem_of_nil.
  - destruct (listeners s); [|by intros ?%elem_of_nil].
    unfold handleVisibilityChange.
    destruct (document_hidden env) eqn:Hh; [|by intros ?%elem_of_nil].
    cbn. destruct (recording s && negb (isIdle s)) eqn:Hc;
      [|by intros ?%elem_of_nil].
    rewrite endCurrentSegment_closed. cbn [snd].
    intros (-> & _ & Ht & _)%flushBuffers_payload. cbn in Ht |- *.
    apply andb_true_iff in Hc as [_ Hi%negb_true_iff].
    repeat split; done.
  - destruct (has_timer SampleTimer s); by intros ?%elem_of_nil.
  - destruct (has_timer FlushTimer s); [|by intros ?%elem_of_nil].
    unfold periodicFlush.
    destruct (FLUSH_INTERVAL_MS <=? _); [|by intros ?%elem_of_nil].
    intros (-> & _ & Ht & Hd)%flushBuffers_payload. cbn in Ht, Hd |- *.
    repeat split; try done.
    intros _. by apply hasData_size, Hd.
  - destruct (has_timer IdleTimer s); [|by intros ?%elem_of_nil].
    unfold checkIdle.
    destruct (negb (recording s) || isIdle s) eqn:Hc;
      [by intros ?%elem_of_nil|].
    destruct (Z.leb_spec IDLE_THRESHOLD_MS
                (performance_now env - lastInteractionTime s));
      [|by intros ?%elem_of_nil].
    rewrite endCurrentSegment_closed. cbn [snd].
    intros (-> & _ & Ht & _)%flushBuffers_payload. cbn in Ht |- *.
    apply orb_false_iff in Hc as [_ Hi].
    repeat split; done.
Qed.

Lemma flushes_cons_run s env ev tr p :
  p ∈ flushes (run s ((env, ev) :: tr)).2 →
  p ∈ flushes (step env ev s).2 ∨ p ∈ flushes (run (step env ev s).1 tr).2.
Proof.
  rewrite run_cons. cbn [snd]. rewrite flushes_app. apply elem_of_app.
Qed.

End FlushOrigins.

(** * Stopping *)
Section Lifecycle.
Import Content Scenario.

Lemma step_stopped env ev s :
  no_start ev → stopped s →
  stopped (step env ev s).1
  ∧ flushes (step env ev s).2 = []
  ∧ mouseBuffer (step env ev s).1 = mouseBuffer s
  ∧ clickBuffer (step env ev s).1 = clickBuffer s
  ∧ keystrokeBuffer (step env ev s).1 = keystrokeBuffer s
  ∧ scrollBuffer (step env ev s).1 = scrollBuffer s
  ∧ segmentId (step env ev s).1 = segmentId s.
Proof.
  intros Hev [Hr Hl]. unfold stopped.
  destruct ev as [sid| | |e|e|e|e| | |[]]; try done; cbn [step];
    rewrite ?Hl; try done.
  - rewrite stopRecording_closed, Hr. done.
  - unfold onMessage_get_status. by destruct (runtime env).
  - destruct (has_timer SampleTimer s); [|done].
    unfold sampleMousePosition. rewrite Hr.
    destruct (lastMouseEvent s); [|done]. by rewrite orb_true_r.
  - destruct (has_timer FlushTimer s); [|done].
    unfold periodicFlush. destruct (FLUSH_INTERVAL_MS <=? _); [|done].
    rewrite flushBuffers_closed. cbn. rewrite Hr. done.
  - destruct (has_timer IdleTimer s); [|done].
    unfold checkIdle. rewrite Hr. done.
Qed.

Lemma run_stopped tr : ∀ s,
  Forall (λ x, no_start x.2) tr → stopped s →
  stopped (run s tr).1
  ∧ flushes (run s tr).2 = []
  ∧ mouseBuffer (run s tr).1 = mouseBuffer s
  ∧ clickBuffer (run s tr).1 = clickBuffer s
  ∧ keystrokeBuffer (run s tr).1 = keystrokeBuffer s
  ∧ scrollBuffer (run s tr).1 = scrollBuffer s
  ∧ segmentId (run s tr).1 = segmentId s.
Proof.
  induction tr as [|[env ev] tr IH]; intros s Htr Hs; [done|].
  apply Forall_cons in Htr as [Hev Htr]. cbn in Hev.
  destruct (step_stopped env ev s Hev Hs) as (H0 & H1 & H2 & H3 & H4 & H5 & H6).
  destruct (IH _ Htr H0) as (I0 & I1 & I2 & I3 & I4 & I5 & I6).
  rewrite run_cons. cbn [fst snd]. rewrite flushes_app, H1, I1.
  rewrite I2, I3, I4, I5, I6. done.
Qed.

Lemma stopRecording_stops env s :
  listeners s = recording s → stopped (stopRecording env s).1.
Proof.
  intros Hl. rewrite stopRecording_closed. unfold stopped.
  destruct (recording s) eqn:Hr; [|done].
  unfold teardown. rewrite ?clear_timer_closed. done.
Qed.

Lemma stopRecording_buffers env s :
  mouseBuffer (stopRecording env s).1 = mouseBuffer s
  ∧ clickBuffer (stopRecording env s).1 = clickBuffer s
  ∧ keystrokeBuffer (stopRecording env s).1 = keystrokeBuffer s
  ∧ scrollBuffer (stopRecording env s).1 = scrollBuffer s.
Proof.
  rewrite stopRecording_closed. destruct (recording s); [|done].
  unfold teardown. rewrite ?clear_timer_closed. done.
Qed.

(** X1. After a stop command, and until the next start command, the page
    sends nothing and its buffers keep what they held when the command
    arrived: listeners are gone and every timer callback returns at its
    guard. *)
Theorem stop_recording_is_final env s tr :
  listeners s = recording s → Forall (λ x, no_start x.2) tr →
  flushes (run s ((env, MsgStopRecording) :: tr)).2 = []
  ∧ recording (run s ((env, MsgStopRecording) :: tr)).1 = false
  ∧ mouseBuffer (run s ((env, MsgStopRecording) :: tr)).1 = mouseBuffer s
  ∧ clickBuffer (run s ((env, MsgStopRecording) :: tr)).1 = clickBuffer s
  ∧ keystrokeBuffer (run s ((env, MsgStopRecording) :: tr)).1
    = keystrokeBuffer s
  ∧ scrollBuffer (run s ((env, MsgStopRecording) :: tr)).1 = scrollBuffer s.
Proof.
  intros Hl Htr. rewrite run_cons. cbn [fst snd step].
  pose proof (stopRecording_stops env s Hl) as Hs.
  destruct (run_stopped tr _ Htr Hs) as ([I0 _] & I1 & I2 & I3 & I4 & I5 & _).
  destruct (stopRecording_buffers env s) as (B1 & B2 & B3 & B4).
  rewrite flushes_app, I1, app_nil_r.
  repeat split; try congruence.
  rewrite stopRecording_closed. by destruct (recording s).
Qed.

Lemma stop_recording_is_final_witness :
  let tr := [ (host 500 RuntimeAlive, DomClick (click_at 1 2));
              (host 6000 RuntimeAlive, TimerFired FlushTimer);
              (host 9000 RuntimeAlive, TimerFired IdleTimer) ] in
  listeners page_one_click = recording page_one_click
  ∧ Forall (λ x, no_start x.2) tr
  ∧ flushes (run page_one_click
               ((host 400 RuntimeAlive, MsgStopRecording) :: tr)).2 = []
  ∧ clickBuffer (run page_one_click
                   ((host 400 RuntimeAlive, MsgStopRecording) :: tr)).1
    = clickBuffer page_one_click.
Proof.
  cbn zeta.
  assert (listeners page_one_click = recording page_one_click) as Hl
    by reflexivity.
  assert (Forall (λ x : Env * Event, no_start x.2)
            [ (host 500 RuntimeAlive, DomClick (click_at 1 2));
              (host 6000 RuntimeAlive, TimerFired FlushTimer);
              (host 9000 RuntimeAlive, TimerFired IdleTimer) ]) as Htr
    by (repeat constructor).
  split; [exact Hl|]. split; [exact Htr|].
  pose proof (stop_recording_is_final (host 400 RuntimeAlive)
                page_one_click _ Hl Htr) as H.
  split; apply H.
Defined.

(** X2. A send that throws ends recording for the page on the spot: the
    flush that hit it has already emptied the buffers, nothing was sent, and
    the listeners and the script's three intervals are gone. *)
Theorem transport_failure_stops_page env isSegmentEnd s :
  recording s = true → truthy_string (sessionId s) = true →
  runtime env = RuntimeThrows →
  hasData s = true ∨ isSegmentEnd = true →
  (flushBuffers env isSegmentEnd s).2 = []
  ∧ stopped (flushBuffers env isSegmentEnd s).1
  ∧ mouseIntervalId (flushBuffers env isSegmentEnd s).1 = None
  ∧ flushIntervalId (flushBuffers env isSegmentEnd s).1 = None
  ∧ idleCheckIntervalId (flushBuffers env isSegmentEnd s).1 = None
  ∧ mouseBuffer (flushBuffers env isSegmentEnd s).1 = []
  ∧ clickBuffer (flushBuffers env isSegmentEnd s).1 = []
  ∧ keystrokeBuffer (flushBuffers env isSegmentEnd s).1 = []
  ∧ scrollBuffer (flushBuffers env isSegmentEnd s).1 = [].
Proof.
  intros Hr Hs Hrt Hd. rewrite flushBuffers_closed, Hr, Hs, Hrt.
  cbn [negb orb].
  assert (negb (hasData s) && negb isSegmentEnd = false) as ->.
  { destruct Hd as [-> | ->]; [done|apply andb_false_r]. }
  unfold teardown, stopped. rewrite ?clear_timer_closed. done.
Qed.

Lemma transport_failure_stops_page_witness :
  recording page_one_click = true
  ∧ hasData page_one_click = true
  ∧ (flushBuffers (host 400 RuntimeThrows) false page_one_click).2 = []
  ∧ clickBuffer
      (flushBuffers (host 400 RuntimeThrows) false page_one_click).1 = [].
Proof.
  assert (recording page_one_click = true) as Hr
    by (vm_compute; reflexivity).
  assert (hasData page_one_click = true) as Hd by (vm_compute; reflexivity).
  assert (truthy_string (sessionId page_one_click) = true) as Hs
    by (vm_compute; reflexivity).
  split; [exact Hr|]. split; [exact Hd|].
  pose proof (transport_failure_stops_page (host 400 RuntimeThrows) false
                page_one_click Hr Hs eq_refl (or_introl Hd)) as H.
  split; apply H.
Defined.

End Lifecycle.

(** * What the capturers record, one event at a time *)
Section CaptureFacts.
Import Content Scenario.

Lemma chained_snoc l x :
  chained l → (∀ r, last l = Some r → follows r x) → chained (l ++ [x]).
Proof.
  induction l as [|a l IH]; intros Hc Hl; [done|].
  destruct l as [|b l].
  - cbn. split; [|done]. by apply Hl.
  - destruct Hc as [Hab Hc].
    change (follows a b ∧ chained ((b :: l) ++ [x])).
    split; [exact Hab|]. apply IH; [exact Hc|].
    intros r Hr. apply Hl. by rewrite last_cons_cons.
Qed.

Lemma step_scroll_tracked env ev s :
  scroll_tracked s →
  scroll_tracked (step env ev s).1
  ∧ Forall (λ p, chained (p_scroll p)) (flushes (step env ev s).2).
Proof.
  unfold scroll_tracked. intros [Hc Hl].
  by_cases_on_step ev.
  all: try (split; [split|]; try done; by repeat constructor).
  all: split; [split|done]; try done.
  all: try (apply chained_snoc; [done|]; intros r Hr;
            destruct (Hl r Hr) as [Hx Hy]; unfold follows; cbn;
            by rewrite Hx, Hy).
  all: rewrite ?last_snoc; intros r [= <-]; done.
Qed.

Lemma throttled_false now l :
  throttled now (Some l) = false → SCROLL_THROTTLE_MS ≤ now - l ∨ l = 0.
Proof.
  unfold throttled. intros H. apply andb_false_iff in H as [H|H].
  - right. apply negb_false_iff in H. by apply Z.eqb_eq.
  - left. by apply Z.ltb_ge.
Qed.

Lemma step_spaced env ev s :
  Forall spaced (scrollBuffer s) →
  Forall spaced (scrollBuffer (step env ev s).1)
  ∧ Forall spaced (delivered p_scroll (step env ev s).2).
Proof.
  intros H.
  by_cases_on_step ev; rewrite ?delivered_nil, ?delivered_one; cbn.
  all: rewrite ?Forall_app, ?Forall_singleton; unfold spaced; cbn.
  all: repeat split; auto using Forall_nil_2.
  all: cbn in *;
    match goal with
    | H1 : throttled _ ?x = false, H2 : ?x = Some _ |- _ =>
        rewrite H2 in H1; apply throttled_false in H1
    end; lia.
Qed.

Lemma length_substring n s : (String.length (String.substring 0 n s) ≤ n)%nat.
Proof.
  revert s. induction n as [|n IH]; intros [|c s]; cbn; try lia.
  specialize (IH s). lia.
Qed.

Lemma targetInfo_bounded x y b t dt e :
  text_bounded {| cr_t := t; cr_x := x; cr_y := y; cr_button := b;
                  cr_target := targetInfo <$> e;
                  cr_dt_since_last := dt |}.
Proof.
  unfold text_bounded. destruct e; cbn; [apply length_substring|done].
Qed.

Lemma step_text_bounded env ev s :
  Forall text_bounded (clickBuffer s) →
  Forall text_bounded (clickBuffer (step env ev s).1)
  ∧ Forall text_bounded (delivered p_clicks (step env ev s).2).
Proof.
  intros H.
  by_cases_on_step ev; rewrite ?delivered_nil, ?delivered_one; cbn.
  all: rewrite ?Forall_app, ?Forall_singleton;
    auto using Forall_nil_2, targetInfo_bounded.
Qed.

Lemma step_no_mouse env ev s :
  ¬ is_mouse_move ev → lastMouseEvent s = None → mouseBuffer s = [] →
  lastMouseEvent (step env ev s).1 = None
  ∧ mouseBuffer (step env ev s).1 = []
  ∧ delivered p_mouse (step env ev s).2 = [].
Proof.
  intros Hev Hm Hb.
  by_cases_on_step ev; rewrite ?delivered_nil, ?delivered_one; cbn;
    rewrite ?app_nil_r, ?Hb; try done; try (by destruct Hev); congruence.
Qed.


End CaptureFacts.

(** * Key timing *)
Section KeyTiming.
Import Content Scenario.

Lemma run_listeners tr : ∀ s,
  listeners s = recording s → listeners (run s tr).1 = recording (run s tr).1.
Proof.
  induction tr as [|[env ev] tr IH]; intros s Hs; [done|].
  rewrite run_cons. cbn [fst]. apply IH. by apply step_listeners.
Qed.

Lemma run_flush_origin tr : ∀ s p,
  p ∈ flushes (run s tr).2 →
  truthy_string (p_sessionId p) = true
  ∧ (p_isSegmentEnd p = false → (0 < payload_size p)%nat).
Proof.
  induction tr as [|[env ev] tr IH]; intros s p Hp.
  - by apply elem_of_nil in Hp.
  - apply flushes_cons_run in Hp as [Hp|Hp]; [|by eapply IH].
    apply step_flush_origin in Hp as (_ & ? & ? & _). done.
Qed.






End KeyTiming.

(** * What every run records *)
Section CaptureInvariants.
Import Content Scenario.

Lemma run_invariant (I : State → Prop) (P : Payload → Prop) :
  (∀ env ev s, I s → I (step env ev s).1
                     ∧ Forall P (flushes (step env ev s).2)) →
  ∀ tr s, I s → I (run s tr).1 ∧ Forall P (flushes (run s tr).2).
Proof.
  intros Hstep. induction tr as [|[env ev] tr IH]; intros s Hs.
  - split; [done|constructor].
  - rewrite run_cons. cbn [fst snd]. rewrite flushes_app.
    destruct (Hstep env ev s Hs) as [H1 H2].
    destruct (IH _ H1) as [H3 H4]. split; [done|]. by apply Forall_app.
Qed.

Lemma delivered_Forall {A} (buf : Payload → list A) (P : A → Prop) out :
  Forall P (delivered buf out) ↔ Forall (λ p, Forall P (buf p)) (flushes out).
Proof. unfold delivered. by rewrite Forall_concat, Forall_fmap. Qed.

(** X4. On every run from a fresh injection, in the buffer and in every
    payload sent, the [dt_since_last] of a scroll record is [null], or at
    least [SCROLL_THROTTLE_MS], or the record's own timestamp: the last case
    is a record that follows one taken at clock reading 0, which the
    throttle test takes for no record at all. *)
Theorem scroll_samples_are_spaced env0 tr :
  Forall spaced (scrollBuffer (run (initial env0) tr).1)
  ∧ Forall (λ p, Forall spaced (p_scroll p))
      (flushes (run (initial env0) tr).2).
Proof.
  apply (run_invariant (λ s, Forall spaced (scrollBuffer s))
           (λ p, Forall spaced (p_scroll p))); [|constructor].
  intros env ev s Hs. destruct (step_spaced env ev s Hs) as [H1 H2].
  split; [done|]. by apply delivered_Forall.
Qed.

(** X5. On every run from a fresh injection, in the buffer and in every
    payload sent, the [dx] and [dy] of a scroll record are the differences
    between its position and the position of the record before it; the
    buffer's last record holds the position the script remembers. *)
Theorem scroll_deltas_chain env0 tr :
  scroll_tracked (run (initial env0) tr).1
  ∧ Forall (λ p, chained (p_scroll p)) (flushes (run (initial env0) tr).2).
Proof.
  apply (run_invariant scroll_tracked (λ p, chained (p_scroll p))).
  - apply step_scroll_tracked.
  - split; [done|]. intros r Hr. discriminate Hr.
Qed.

(** X6. On every run from a fresh injection the text recorded for a click
    target is at most 64 characters long, in the buffer and in every payload
    sent. *)
Theorem click_text_is_truncated env0 tr :
  Forall text_bounded (clickBuffer (run (initial env0) tr).1)
  ∧ Forall (λ p, Forall text_bounded (p_clicks p))
      (flushes (run (initial env0) tr).2).
Proof.
  apply (run_invariant (λ s, Forall text_bounded (clickBuffer s))
           (λ p, Forall text_bounded (p_clicks p))); [|constructor].
  intros env ev s Hs. destruct (step_text_bounded env ev s Hs) as [H1 H2].
  split; [done|]. by apply delivered_Forall.
Qed.

(** X7. Until the first [mousemove] reaches the script no pointer sample is
    taken, whichever timers fire: neither the buffer nor any payload holds
    one. *)
Theorem no_pointer_samples_before_first_move env0 tr :
  Forall (λ x, ¬ is_mouse_move x.2) tr →
  mouseBuffer (run (initial env0) tr).1 = []
  ∧ delivered p_mouse (run (initial env0) tr).2 = [].
Proof.
  assert (∀ tr s, Forall (λ x : Env * Event, ¬ is_mouse_move x.2) tr →
                  lastMouseEvent s = None → mouseBuffer s = [] →
                  lastMouseEvent (run s tr).1 = None
                  ∧ mouseBuffer (run s tr).1 = []
                  ∧ delivered p_mouse (run s tr).2 = []) as H.
  { clear tr. induction tr as [|[env ev] tr IH]; intros s Htr Hm Hb; [done|].
    apply Forall_cons in Htr as [Hev Htr]. cbn in Hev.
    destruct (step_no_mouse env ev s Hev Hm Hb) as (H1 & H2 & H3).
    destruct (IH _ Htr H1 H2) as (I1 & I2 & I3).
    rewrite run_cons. cbn [fst snd]. by rewrite delivered_app, H3, I3. }
  intros Htr. by apply H.
Qed.

Lemma no_pointer_samples_before_first_move_witness :
  let tr := [ (host 0 RuntimeAlive, MsgStartRecording (Some "s1"));
              (host 50 RuntimeAlive, TimerFired SampleTimer);
              (host 100 RuntimeAlive, DomClick (click_at 10 20));
              (host 6000 RuntimeAlive, TimerFired FlushTimer) ] in
  Forall (λ x, ¬ is_mouse_move x.2) tr
  ∧ delivered p_mouse (run (initial (host 0 RuntimeAlive)) tr).2 = [].
Proof.
  cbn zeta.
  assert (Forall (λ x : Env * Event, ¬ is_mouse_move x.2)
            [ (host 0 RuntimeAlive, MsgStartRecording (Some "s1"));
              (host 50 RuntimeAlive, TimerFired SampleTimer);
              (host 100 RuntimeAlive, DomClick (click_at 10 20));
              (host 6000 RuntimeAlive, TimerFired FlushTimer) ]) as Htr
    by (repeat constructor; by intros []).
  split; [exact Htr|].
  exact (proj2 (no_pointer_samples_before_first_move
                  (host 0 RuntimeAlive) _ Htr)).
Defined.

Lemma truthy_from_option o :
  truthy_string o = true → from_option_string o ≠ "".
Proof.
  destruct o as [x|]; [|done]. cbn. intros H ->. discriminate H.
Qed.

Lemma truthy_or_string a b :
  truthy_string b = true → truthy_string (or_string a b) = true.
Proof. intros H. unfold or_string. by destruct (truthy_string a) eqn:E. Qed.

(** X8. [_getFieldId] never returns the empty string, whatever element the
    key event targets. *)
Theorem field_id_is_never_empty target : _getFieldId target ≠ "".
Proof.
  unfold _getFieldId. destruct target as [t|]; [|done].
  destruct (String.eqb_spec
              (from_option_string (or_string (tagName t) (Some ""))) "INPUT")
    as [->|_]; cbn [orb].
  { apply truthy_from_option. by do 3 apply truthy_or_string. }
  destruct (String.eqb_spec
              (from_option_string (or_string (tagName t) (Some "")))
              "TEXTAREA") as [->|_]; cbn [orb].
  { apply truthy_from_option. by do 3 apply truthy_or_string. }
  destruct (String.eqb_spec
              (from_option_string (or_string (tagName t) (Some "")))
              "SELECT") as [->|_].
  { apply truthy_from_option. by do 3 apply truthy_or_string. }
  destruct (isContentEditable t); apply truthy_from_option.
  - by apply truthy_or_string.
  - by do 2 apply truthy_or_string.
Qed.

(** X9. A payload marked as the end of a segment is sent only by the idle
    check once the threshold has passed or by the page becoming hidden, and
    only while the script was not idle already. *)
Theorem terminal_flush_origin env ev s p :
  p ∈ flushes (step env ev s).2 → p_isSegmentEnd p = true →
  ends_activity env ev s ∧ isIdle s = false.
Proof.
  intros Hp Ht. apply step_flush_origin in Hp as (_ & _ & _ & H). auto.
Qed.

Lemma terminal_flush_origin_witness :
  ∃ p,
    p ∈ flushes
          (step (host 4000 RuntimeAlive) (TimerFired IdleTimer)
             page_one_click).2
    ∧ p_isSegmentEnd p = true
    ∧ ends_activity (host 4000 RuntimeAlive) (TimerFired IdleTimer)
        page_one_click.
Proof.
  assert (∀ p,
            flushes
              (step (host 4000 RuntimeAlive) (TimerFired IdleTimer)
                 page_one_click).2 = [p] →
            p ∈ flushes
                  (step (host 4000 RuntimeAlive) (TimerFired IdleTimer)
                     page_one_click).2) as Hin
    by (intros p ->; apply list_elem_of_here).
  assert (∀ p (Hp : p ∈ flushes
                        (step (host 4000 RuntimeAlive)
                           (TimerFired IdleTimer) page_one_click).2)
            (Ht : p_isSegmentEnd p = true),
            p ∈ flushes
                  (step (host 4000 RuntimeAlive) (TimerFired IdleTimer)
                     page_one_click).2
            ∧ p_isSegmentEnd p = true
            ∧ ends_activity (host 4000 RuntimeAlive) (TimerFired IdleTimer)
                page_one_click) as Hw.
  { intros p Hp Ht. split; [exact Hp|]. split; [exact Ht|].
    exact (proj1 (terminal_flush_origin _ _ _ p Hp Ht)). }
  eexists. apply Hw.
  - apply Hin. vm_compute. reflexivity.
  - reflexivity.
Defined.

(** X10. Every payload a page sends names a session, and a payload that is
    not the end of a segment carries at least one record. *)
Theorem flushes_name_session_and_carry_data s tr p :
  p ∈ flushes (run s tr).2 →
  truthy_string (p_sessionId p) = true
  ∧ (p_isSegmentEnd p = false → (0 < payload_size p)%nat).
Proof. apply run_flush_origin. Qed.

Lemma flushes_name_session_and_carry_data_witness :
  ∃ p,
    p ∈ flushes
          (run page_one_click
             [ (host 6000 RuntimeAlive, TimerFired FlushTimer) ]).2
    ∧ truthy_string (p_sessionId p) = true.
Proof.
  eexists.
  assert (∀ p,
            flushes
              (run page_one_click
                 [ (host 6000 RuntimeAlive, TimerFired FlushTimer) ]).2
            = [p] →
            p ∈ flushes
                  (run page_one_click
                     [ (host 6000 RuntimeAlive, TimerFired FlushTimer) ]).2)
    as Hin by (intros p ->; apply list_elem_of_here).
  assert (∀ p (H : p ∈ flushes
                       (run page_one_click
                          [ (host 6000 RuntimeAlive,
                             TimerFired FlushTimer) ]).2),
            p ∈ flushes
                  (run page_one_click
                     [ (host 6000 RuntimeAlive, TimerFired FlushTimer) ]).2
            ∧ truthy_string (p_sessionId p) = true) as Hw.
  { intros p H. split; [exact H|].
    exact (proj1 (flushes_name_session_and_carry_data _ _ p H)). }
  apply Hw, Hin. vm_compute. reflexivity.
Defined.

(** X11. [startRecording] creates the sampling interval twice, once through
    [startNewSegment] and once itself, and keeps the second id only: the
    first interval is still live after [stopRecording]. *)
Theorem stop_leaves_sampling_interval env sid env' s :
  recording s = false → mouseIntervalId s = None →
  has_timer SampleTimer (stopRecording env' (startRecording env sid s).1).1
  = true
  ∧ (nextTimerId s, SampleTimer)
    ∈ timers (stopRecording env' (startRecording env sid s).1).1.
Proof.
  intros Hr Hm.
  assert ((nextTimerId s, SampleTimer)
          ∈ timers (stopRecording env' (startRecording env sid s).1).1) as H.
  { rewrite stopRecording_closed. unfold startRecording. rewrite Hr.
    unfold setInterval. rewrite startNewSegment_closed. cbn.
    unfold teardown. rewrite ?clear_timer_closed. cbn. rewrite Hm. cbn.
    repeat (apply list_elem_of_filter; split; [cbn; lia|]).
    rewrite !elem_of_app. left. left. left. right. by left. }
  split; [|done]. unfold has_timer. apply existsb_exists.
  exists (nextTimerId s, SampleTimer). split; [|done].
  by apply list_elem_of_In.
Qed.

Lemma stop_leaves_sampling_interval_witness :
  recording page0 = false ∧ mouseIntervalId page0 = None
  ∧ has_timer SampleTimer
      (stopRecording (host 900 RuntimeAlive)
         (startRecording (host 0 RuntimeAlive) (Some "s1") page0).1).1
    = true.
Proof.
  assert (recording page0 = false) as Hr by reflexivity.
  assert (mouseIntervalId page0 = None) as Hm by reflexivity.
  split; [exact Hr|]. split; [exact Hm|].
  exact (proj1 (stop_leaves_sampling_interval (host 0 RuntimeAlive)
                  (Some "s1") (host 900 RuntimeAlive) page0 Hr Hm)).
Defined.

End CaptureInvariants.

(** * The order of queued writes *)
Section QueueOrder.
Import Background.

Lemma stored_fragments_local sid c c' :
  local_sessions c' = local_sessions c →
  stored_fragments sid c' = stored_fragments sid c.
Proof. unfold stored_fragments, stored_sessions. by intros ->. Qed.

Lemma act_order sid a c :
  serialized sid c → fragment_traffic a →
  stored_fragments sid (act a c) ++ queued_fragments (act a c)
  = (stored_fragments sid c ++ queued_fragments c)
      ++ match submitted_fragment a with Some seg => [seg] | None => [] end
  ∧ totalEvents (act a c)
    = match submitted_fragment a with
      | Some seg => add_records (totalEvents c) seg
      | None => totalEvents c
      end
  ∧ (segmentCount c
     = Z.of_nat (length (stored_fragments sid c)) + in_progress_write c →
     segmentCount (act a c)
     = Z.of_nat (length (stored_fragments sid (act a c)))
       + in_progress_write (act a c)).
Proof.
  intros (Hrec & Hsid & Hne & Hres & Hsess & Hpend & Hrun) Ha.
  destruct a as [env [data| | | | | | | |]|env| |]; try done; cbn [act].
  - cbn in Ha. unfold handle. rewrite restoreState_restored by done.
    cbn [fst]. unfold storeTelemetry.
    rewrite Hrec, Hsid, truthy_string_nonempty by done. cbn [negb orb].
    change (hasData (make_segment (with_tabId (sender_tab env) data)))
      with (hasData (make_segment data)).
    rewrite Ha. cbn [negb]. split; [|split; [done|]].
    + unfold queued_fragments, stored_fragments, stored_sessions. cbn.
      rewrite omap_app. cbn. by rewrite !app_assoc.
    + unfold in_progress_write, stored_fragments, stored_sessions. by cbn.
  - cbn in Ha. unfold queue_step. rewrite Ha. cbn [submitted_fragment].
    rewrite app_nil_r.
    destruct (running c) as [[op|op m|totals count]|] eqn:Hr.
    + destruct op as [|segment|]; try done.
      unfold after_get. fold (stored_sessions c).
      rewrite Hsid. cbn [property_key].
      destruct Hsess as [session Hs]. rewrite Hs. cbn [fst].
      split; [|split; [done|]].
      * unfold queued_fragments, stored_fragments, stored_sessions. cbn.
        by rewrite Hr.
      * intros _. rewrite (stored_fragments_local sid c) by done.
        unfold in_progress_write. cbn.
        rewrite (stored_fragments_length sid c session Hs), length_app.
        cbn. lia.
    + destruct Hrun as (segment & session & -> & Hs & ->). cbn [fst].
      split; [|split; [done|]].
      * unfold queued_fragments, stored_fragments at 1.
        unfold stored_sessions at 1. cbn. rewrite lookup_insert_eq. cbn.
        rewrite (stored_fragments_length sid c session Hs), Hr. cbn.
        by rewrite <- app_assoc.
      * unfold in_progress_write, stored_fragments at 2.
        unfold stored_sessions at 2. cbn. rewrite lookup_insert_eq, Hr. cbn.
        rewrite (stored_fragments_length sid c session Hs), length_app.
        cbn. lia.
    + cbn. split; [|split; [done|]].
      * unfold queued_fragments, stored_fragments, stored_sessions. cbn.
        by rewrite Hr.
      * unfold in_progress_write, stored_fragments, stored_sessions. cbn.
        by rewrite Hr.
    + destruct (pending c) as [|fn rest] eqn:Hp.
      * cbn. done.
      * apply Forall_cons in Hpend as [Hfn Hrest]. cbn.
        split; [|split; [done|]].
        -- unfold queued_fragments, stored_fragments, stored_sessions. cbn.
           rewrite Hr, Hp. cbn. destruct fn; try done.
        -- unfold in_progress_write, stored_fragments, stored_sessions. cbn.
           by rewrite Hr.
Qed.

End QueueOrder.

(** * The write queue under arbitrary schedules *)
Section QueueBehaviour.
Import Background CoordinatorScenario.

Lemma run_order sid schedule : ∀ c,
  serialized sid c → Forall fragment_traffic schedule →
  stored_fragments sid (run c schedule) ++ queued_fragments (run c schedule)
  = (stored_fragments sid c ++ queued_fragments c) ++ submitted schedule
  ∧ totalEvents (run c schedule)
    = fold_left add_records (submitted schedule) (totalEvents c)
  ∧ (segmentCount c
     = Z.of_nat (length (stored_fragments sid c)) + in_progress_write c →
     segmentCount (run c schedule)
     = Z.of_nat (length (stored_fragments sid (run c schedule)))
       + in_progress_write (run c schedule)).
Proof.
  induction schedule as [|a schedule IH]; intros c Hc Hs.
  - cbn. by rewrite app_nil_r.
  - apply Forall_cons in Hs as [Ha Hs]. rewrite run_cons_act.
    destruct (act_serialized sid a c Hc Ha) as [Hc' _].
    destruct (act_order sid a c Hc Ha) as (H1 & H2 & H3).
    destruct (IH _ Hc' Hs) as (I1 & I2 & I3).
    rewrite I1, H1, I2, H2. unfold submitted.
    change (omap submitted_fragment (a :: schedule))
      with (match submitted_fragment a with
            | Some y => y :: omap submitted_fragment schedule
            | None => omap submitted_fragment schedule
            end).
    destruct (submitted_fragment a) as [seg|]; cbn.
    + split; [by rewrite <- !app_assoc|]. split; [done|].
      intros Hn. apply I3, H3, Hn.
    + rewrite app_nil_r. split; [done|]. split; [done|].
      intros Hn. apply I3, H3, Hn.
Qed.

Lemma queued_fragments_idle c : idle_queue c → queued_fragments c = [].
Proof. intros [Hp Hr]. unfold queued_fragments. by rewrite Hp, Hr. Qed.

(** X12. While recording under an existing session, the fragments stored
    followed by those queued are the fragments stored at the outset followed
    by the fragments received, in arrival order and unchanged; when the
    queue is idle they are all in the store. *)
Theorem fragments_stored_in_arrival_order c0 sid schedule :
  recording c0 = true → sessionId c0 = Some sid → sid ≠ "" →
  stateRestored c0 = true → is_Some (stored_sessions c0 !! sid) →
  idle_queue c0 → Forall fragment_traffic schedule →
  stored_fragments sid (run c0 schedule)
    ++ queued_fragments (run c0 schedule)
  = stored_fragments sid c0 ++ submitted schedule
  ∧ (idle_queue (run c0 schedule) →
     stored_fragments sid (run c0 schedule)
     = stored_fragments sid c0 ++ submitted schedule).
Proof.
  intros Hrec Hsid Hne Hres Hsess Hidle Hs.
  pose proof (serialized_start sid c0 Hrec Hsid Hne Hres Hsess Hidle) as H0.
  destruct (run_order sid schedule c0 H0 Hs) as (H & _).
  rewrite (queued_fragments_idle c0 Hidle), app_nil_r in H.
  split; [done|]. intros Hi.
  by rewrite (queued_fragments_idle _ Hi), app_nil_r in H.
Qed.

Lemma fragments_stored_in_arrival_order_witness :
  let c0 := recording_under "s1" (Some {[ "s1" := new_session ]}) in
  let schedule :=
    [ Receive (from_tab 7) (telemetry (fragment "s1" 1 false [a_click 100]));
      Receive (from_tab 8) (telemetry (fragment "s1" 1 false [a_click 120]));
      Resume storage_up;
      Receive (from_tab 7) (telemetry (fragment "s1" 1 true [a_click 300]));
      Resume storage_up; Resume storage_up ] in
  Forall fragment_traffic schedule
  ∧ stored_fragments "s1" (run c0 schedule)
      ++ queued_fragments (run c0 schedule)
    = stored_fragments "s1" c0 ++ submitted schedule.
Proof.
  cbn zeta.
  assert (is_Some
            (stored_sessions
               (recording_under "s1" (Some {[ "s1" := new_session ]}))
               !! "s1")) as Hs by (vm_compute; eexists; reflexivity).
  assert ("s1" ≠ "") as Hne by discriminate.
  assert (Forall fragment_traffic
            [ Receive (from_tab 7)
                (telemetry (fragment "s1" 1 false [a_click 100]));
              Receive (from_tab 8)
                (telemetry (fragment "s1" 1 false [a_click 120]));
              Resume storage_up;
              Receive (from_tab 7)
                (telemetry (fragment "s1" 1 true [a_click 300]));
              Resume storage_up; Resume storage_up ]) as Htr
    by (repeat constructor).
  split; [exact Htr|].
  exact (proj1 (fragments_stored_in_arrival_order
                  (recording_under "s1" (Some {[ "s1" := new_session ]}))
                  "s1" _ eq_refl eq_refl Hne eq_refl Hs
                  (conj eq_refl eq_refl) Htr)).
Defined.

(** X13. The counters the status reply reports add up the records of every
    non-empty fragment received, written or not, and the segment count is
    the length of the stored list, plus one while a storage write is in
    progress. *)
Theorem status_counts_track_submissions c0 sid schedule :
  recording c0 = true → sessionId c0 = Some sid → sid ≠ "" →
  stateRestored c0 = true → is_Some (stored_sessions c0 !! sid) →
  idle_queue c0 → Forall fragment_traffic schedule →
  segmentCount c0 = Z.of_nat (length (stored_fragments sid c0)) →
  st_totalEvents (status (run c0 schedule))
  = fold_left add_records (submitted schedule) (totalEvents c0)
  ∧ st_segmentCount (status (run c0 schedule))
    = Z.of_nat (length (stored_fragments sid (run c0 schedule)))
      + in_progress_write (run c0 schedule).
Proof.
  intros Hrec Hsid Hne Hres Hsess Hidle Hs Hn.
  pose proof (serialized_start sid c0 Hrec Hsid Hne Hres Hsess Hidle) as H0.
  destruct (run_order sid schedule c0 H0 Hs) as (_ & H1 & H2).
  split; [done|]. apply H2. unfold in_progress_write.
  destruct Hidle as [_ ->]. lia.
Qed.

Lemma status_counts_track_submissions_witness :
  let c0 := recording_under "s1" (Some {[ "s1" := new_session ]}) in
  let schedule :=
    [ Receive (from_tab 7)
        (telemetry (fragment "s1" 1 false [a_click 100; a_click 180]));
      Resume storage_up; Resume storage_up;
      Receive (from_tab 7) (telemetry (fragment "s1" 1 true [a_click 300]))
    ] in
  Forall fragment_traffic schedule
  ∧ st_totalEvents (status (run c0 schedule))
    = fold_left add_records (submitted schedule) (totalEvents c0).
Proof.
  cbn zeta.
  assert (is_Some
            (stored_sessions
               (recording_under "s1" (Some {[ "s1" := new_session ]}))
               !! "s1")) as Hs by (vm_compute; eexists; reflexivity).
  assert ("s1" ≠ "") as Hne by discriminate.
  assert (Forall fragment_traffic
            [ Receive (from_tab 7)
                (telemetry
                   (fragment "s1" 1 false [a_click 100; a_click 180]));
              Resume storage_up; Resume storage_up;
              Receive (from_tab 7)
                (telemetry (fragment "s1" 1 true [a_click 300])) ]) as Htr
    by (repeat constructor).
  assert (segmentCount
            (recording_under "s1" (Some {[ "s1" := new_session ]}))
          = Z.of_nat
              (length
                 (stored_fragments "s1"
                    (recording_under "s1"
                       (Some {[ "s1" := new_session ]}))))) as Hn
    by (vm_compute; reflexivity).
  split; [exact Htr|].
  exact (proj1 (status_counts_track_submissions
                  (recording_under "s1" (Some {[ "s1" := new_session ]}))
                  "s1" _ eq_refl eq_refl Hne eq_refl Hs
                  (conj eq_refl eq_refl) Htr Hn)).
Defined.

Lemma run_resumes_cons env envs c :
  run c (Resume <$> env :: envs) = run (queue_step env c).1 (Resume <$> envs).
Proof. reflexivity. Qed.

(** X14. The write queue settles whatever the storage calls do: after
    [work_left] resumptions, failing or not, no function is queued or in
    progress. *)
Theorem queue_settles_whatever_storage_does envs : ∀ c,
  (work_left c ≤ length envs)%nat → idle_queue (run c (Resume <$> envs)).
Proof.
  induction envs as [|env envs IH]; intros c Hc.
  - change (idle_queue c). apply work_left_idle.
    change (work_left c ≤ 0)%nat in Hc. lia.
  - rewrite run_resumes_cons. apply IH.
    pose proof (queue_step_work env c).
    change (work_left c ≤ S (length envs))%nat in Hc. lia.
Qed.

Lemma queue_settles_whatever_storage_does_witness :
  let c := run (recording_under "s1" (Some {[ "s1" := new_session ]}))
             [ Receive (from_tab 7)
                 (telemetry (fragment "s1" 1 false [a_click 100])) ] in
  let envs := [storage_up; storage_down; storage_up; storage_up] in
  (work_left c ≤ length envs)%nat ∧ idle_queue (run c (Resume <$> envs)).
Proof.
  cbn zeta.
  assert (work_left
            (run (recording_under "s1" (Some {[ "s1" := new_session ]}))
               [ Receive (from_tab 7)
                   (telemetry (fragment "s1" 1 false [a_click 100])) ])
          ≤ length [storage_up; storage_down; storage_up; storage_up])%nat
    as Hw by (vm_compute; lia).
  split; [exact Hw|].
  exact (queue_settles_whatever_storage_does _ _ Hw).
Defined.

(** X15. A storage call that fails is logged once; the queued function it
    belonged to is abandoned without touching either storage area, and the
    functions queued behind it are kept. *)
Theorem failed_storage_call_is_logged_and_skipped env c r :
  running c = Some r → storage_ok env = false →
  running (queue_step env c).1 = None
  ∧ errors (queue_step env c).1 = S (errors c)
  ∧ pending (queue_step env c).1 = pending c
  ∧ local_sessions (queue_step env c).1 = local_sessions c
  ∧ session_area (queue_step env c).1 = session_area c.
Proof.
  intros Hr Hok. unfold queue_step. rewrite Hr, Hok.
  destruct r as [[]|[] ?|]; done.
Qed.

Lemma failed_storage_call_is_logged_and_skipped_witness :
  let c := run (recording_under "s1" (Some {[ "s1" := new_session ]}))
             [ Receive (from_tab 7)
                 (telemetry (fragment "s1" 1 false [a_click 100]));
               Resume storage_up ] in
  is_Some (running c)
  ∧ errors (queue_step storage_down c).1 = S (errors c)
  ∧ local_sessions (queue_step storage_down c).1 = local_sessions c.
Proof.
  cbn zeta.
  assert (∀ c r, running c = Some r →
                 is_Some (running c)
                 ∧ errors (queue_step storage_down c).1 = S (errors c)
                 ∧ local_sessions (queue_step storage_down c).1
                   = local_sessions c) as H.
  { intros c r Hr. split; [by rewrite Hr|].
    pose proof (failed_storage_call_is_logged_and_skipped storage_down c r
                  Hr eq_refl) as H. split; apply H. }
  eapply H. vm_compute. reflexivity.
Defined.



(** X17. Telemetry that arrives after the coordinator has stopped recording
    changes nothing, whatever it carries. *)
Theorem telemetry_after_stop_is_discarded tabs env data c :
  stateRestored c = true →
  (handle env (telemetry data) (stopRecording tabs c).1).1.1
  = (stopRecording tabs c).1.
Proof.
  intros Hres. unfold handle. cbn [fst].
  assert (stateRestored (stopRecording tabs c).1 = true) as Hres'.
  { unfold stopRecording. by destruct (recording c). }
  rewrite (restoreState_restored _ Hres'). unfold storeTelemetry.
  assert (recording (stopRecording tabs c).1 = false) as ->; [|done].
  unfold stopRecording. by destruct (recording c) eqn:E.
Qed.

Lemma telemetry_after_stop_is_discarded_witness :
  let c := recording_under "s1" (Some {[ "s1" := new_session ]}) in
  recording c = true
  ∧ (handle (from_tab 7) (telemetry (fragment "s1" 1 true [a_click 100]))
       (stopRecording [] c).1).1.1
    = (stopRecording [] c).1.
Proof.
  cbn zeta. split; [reflexivity|].
  exact (telemetry_after_stop_is_discarded [] (from_tab 7) _
           (recording_under "s1" (Some {[ "s1" := new_session ]})) eq_refl).
Defined.

End QueueBehaviour.

(** * Restart, export and broadcast *)
Section WorkerFacts.
Import Background CoordinatorScenario Spec.

Lemma restoreState_idempotent c : restoreState (restoreState c) = restoreState c.
Proof. apply restoreState_restored, stateRestored_restoreState. Qed.

(** X18. When the session storage area holds what memory holds, the status
    the coordinator reports is the same after the worker is restarted, and
    restoring the state a second time changes nothing. *)
Theorem restart_restores_status c :
  mirror_current c →
  status (act WorkerRestart c) = status c
  ∧ restoreState (act WorkerRestart c) = act WorkerRestart c.
Proof.
  intros (H1 & H2 & H3 & H4 & H5). split; [|apply restoreState_idempotent].
  cbn [act]. unfold restoreState, restart. cbn. rewrite H1, H3, H4, H5.
  unfold status. destruct (sessionId c) as [sid|] eqn:Hs; cbn.
  - destruct (String.eqb_spec sid ""); [congruence|]. cbn.
    by destruct (recording c).
  - by destruct (recording c).
Qed.

Lemma restart_restores_status_witness :
  let c := run installed
             [ Receive (from_tab 7) popup_start; Resume storage_up;
               Resume storage_up; Resume storage_up ] in
  mirror_current c ∧ status (act WorkerRestart c) = status c.
Proof.
  cbn zeta.
  assert (mirror_current
            (run installed
               [ Receive (from_tab 7) popup_start; Resume storage_up;
                 Resume storage_up; Resume storage_up ])) as Hm.
  { unfold mirror_current. repeat split; try (vm_compute; reflexivity).
    vm_compute. discriminate. }
  split; [exact Hm|].
  exact (proj1 (restart_restores_status _ Hm)).
Defined.

Lemma replace_colon_dot_chars s c :
  c ∈ String.list_ascii_of_string (replace_colon_dot s) →
  c ≠ ":"%char ∧ c ≠ "."%char.
Proof.
  induction s as [|a s IH]; cbn; [by intros ?%elem_of_nil|].
  intros [->|H]%elem_of_cons; [|by apply IH].
  destruct (Ascii.eqb_spec a ":"); [done|].
  destruct (Ascii.eqb_spec a "."); done.
Qed.

Lemma replace_colon_dot_length s :
  String.length (replace_colon_dot s) = String.length s.
Proof. induction s; cbn; congruence. Qed.

(** X19. The export file name is [telemetry_export_], then the export time
    with its colons and dots replaced (a stamp of the same length that holds
    neither character), then [.json]. *)
Theorem export_filename_is_safe env :
  ∃ stamp,
    export_filename env
    = String.append "telemetry_export_" (String.append stamp ".json")
    ∧ String.length stamp = String.length (toISOString env)
    ∧ ∀ c, c ∈ String.list_ascii_of_string stamp → c ≠ ":"%char ∧ c ≠ "."%char.
Proof.
  exists (replace_colon_dot (toISOString env)). split; [done|].
  split; [apply replace_colon_dot_length|apply replace_colon_dot_chars].
Qed.

Lemma or_default_nonempty o d : d ≠ "" → or_default o d ≠ "".
Proof.
  intros Hd. unfold or_default. destruct (truthy_string o) eqn:E; [|done].
  destruct o as [s|]; [|done]. cbn in E.
  intros ->. discriminate E.
Qed.

(** X20. An export succeeds exactly when the store holds a session and the
    download is given an id, and then under the export file name; every
    failure carries a non-empty reason; with no session stored no document
    is produced. *)
Theorem export_outcomes env c :
  (∀ f, (exportData env c).1 = ExportSuccess f ↔
        stored_sessions c ≠ ∅ ∧ (∃ id, download env = DownloadId id)
        ∧ f = export_filename env)
  ∧ (∀ e, (exportData env c).1 = ExportFailure e → e ≠ "")
  ∧ (stored_sessions c = ∅ → (exportData env c).2 = None).
Proof.
  unfold exportData. cbn zeta. fold (stored_sessions c).
  destruct (Nat.eqb_spec (size (stored_sessions c)) 0) as [Hz|Hz].
  - apply map_size_empty_iff in Hz. cbn [fst snd]. split; [|split; [|done]].
    + intros f. split; [done|]. by intros (Hne & _).
    + by intros e [= <-].
  - assert (stored_sessions c ≠ ∅) as Hne
      by (intros H; by apply map_size_empty_iff in H).
    cbn [fst snd]. split; [|split; [|done]].
    + intros f. split.
      * destruct (download env); intros [= <-]; eauto.
      * intros (_ & [id ->] & ->). done.
    + intros e. destruct (download env); intros [= <-];
        by apply or_default_nonempty.
Qed.

Lemma starts_with_prefix p : ∀ s,
  starts_with p s = true ↔ ∃ rest, s = String.append p rest.
Proof.
  unfold starts_with. induction p as [|a p IH]; intros s.
  - cbn. split; [by exists s|]. intros _. by destruct s.
  - destruct s as [|b s]; cbn.
    + split; [done|]. by intros [? ?].
    + destruct (Ascii.eqb_spec b a) as [->|Hne].
      * specialize (IH s). cbn in IH.
        destruct (String.eqb (String.substring 0 (String.length p) s) p).
        -- split; [|done]. intros _. destruct (proj1 IH eq_refl) as [r ->].
           by exists r.
        -- split; [done|]. intros [r [= ->]].
           apply IH. by exists r.
      * split; [done|]. by intros [r [= -> _]].
Qed.

(** X21. A start or stop broadcast is sent unchanged, and only to tabs that
    have an id and an address that begins with none of [chrome://],
    [chrome-extension://], [about:]. *)
Theorem broadcast_skips_privileged_tabs tabs m i m' :
  (i, m') ∈ broadcast tabs m →
  m' = m
  ∧ ∃ t u, t ∈ tabs ∧ tab_id t = Some i ∧ tab_url t = Some u
           ∧ ¬ (∃ rest, u = String.append "chrome://" rest)
           ∧ ¬ (∃ rest, u = String.append "chrome-extension://" rest)
           ∧ ¬ (∃ rest, u = String.append "about:" rest).
Proof.
  unfold broadcast. intros (t & Ht & Hr)%list_elem_of_omap.
  unfold reachable_tab in Hr.
  destruct (tab_id t) as [j|] eqn:Hj; [|done].
  destruct (tab_url t) as [u|] eqn:Hu; [|done].
  destruct (negb (j =? 0) && negb (String.eqb u "")
            && negb (starts_with "chrome://" u)
            && negb (starts_with "chrome-extension://" u)
            && negb (starts_with "about:" u)) eqn:Hc; [|done].
  injection Hr as <- <-. split; [done|]. exists t, u.
  repeat (apply andb_true_iff in Hc as [Hc ?]).
  repeat split; try done; intros Hp%starts_with_prefix;
    by match goal with H : negb _ = true |- _ => rewrite Hp in H end.
Qed.

Lemma broadcast_skips_privileged_tabs_witness :
  let tabs := [ {| tab_id := Some 1; tab_url := Some "chrome://extensions" |};
                {| tab_id := Some 2;
                   tab_url := Some "https://tickets.example/cart" |};
                {| tab_id := Some 3; tab_url := None |} ] in
  broadcast tabs stop_recording = [(2, stop_recording)]
  ∧ ∃ t u, t ∈ tabs ∧ tab_id t = Some 2 ∧ tab_url t = Some u
           ∧ ¬ (∃ rest, u = String.append "chrome://" rest).
Proof.
  cbn zeta. split; [reflexivity|].
  destruct (broadcast_skips_privileged_tabs
              [ {| tab_id := Some 1;
                   tab_url := Some "chrome://extensions" |};
                {| tab_id := Some 2;
                   tab_url := Some "https://tickets.example/cart" |};
                {| tab_id := Some 3; tab_url := None |} ]
              stop_recording 2 stop_recording (list_elem_of_here _ _))
    as (_ & t & u & H1 & H2 & H3 & H4 & _).
  exists t, u. repeat split; assumption.
Defined.

Lemma merge_runs_records {A} (f : Segment → list A)
    (mf : MergedSegment → list A) :
  (∀ first rest, mf (merged_run first rest) = concat (f <$> first :: rest)) →
  ∀ runs, concat (mf <$> omap merge_run runs) = concat (f <$> concat runs).
Proof.
  intros Hmf. induction runs as [|run runs IH]; [done|].
  destruct run as [|first rest].
  - apply IH.
  - change (concat (mf <$> merged_run first rest :: omap merge_run runs)
            = concat (f <$> (first :: rest) ++ concat runs)).
    rewrite fmap_cons, fmap_app, concat_app. cbn [concat].
    by rewrite Hmf, IH.
Qed.

(** X22. Consolidation for export neither loses nor duplicates nor reorders
    a record of any kind, never yields more segments than there were
    fragments, and yields none only when there were none. *)
Theorem consolidation_keeps_every_record segs :
  concat (m_mouse <$> mergeSegments segs) = concat (mouse <$> segs)
  ∧ concat (m_clicks <$> mergeSegments segs) = concat (clicks <$> segs)
  ∧ concat (m_keystrokes <$> mergeSegments segs)
    = concat (keystrokes <$> segs)
  ∧ concat (m_scroll <$> mergeSegments segs) = concat (scroll <$> segs)
  ∧ (length (mergeSegments segs) ≤ length segs)%nat
  ∧ (mergeSegments segs = [] ↔ segs = []).
Proof.
  rewrite mergeSegments_merge_runs. unfold merge_runs.
  rewrite <- (runs_by_id_concat segs) at 2 4 6 8.
  repeat split; try (by apply merge_runs_records).
  - pose proof (runs_by_id_uniform segs) as Hu.
    rewrite <- (runs_by_id_concat segs) at 2.
    induction Hu as [|run runs (first & rest & -> & _) _ IH]; [done|].
    cbn. rewrite length_app. cbn. lia.
  - intros H. destruct segs as [|seg rest]; [done|].
    destruct (runs_by_id_head seg rest) as (run & runs & Hr).
    by rewrite Hr in H.
  - by intros ->.
Qed.

End WorkerFacts.

(** * Sessions and page metadata *)
Section SessionFacts.
Import Background CoordinatorScenario.

Lemma queue_step_begin e c op rest :
  running c = None → pending c = op :: rest →
  queue_step e c = (set_running (Some (AwaitGet op)) (set_pending rest c), []).
Proof. intros Hr Hp. unfold queue_step. by rewrite Hr, Hp. Qed.

Lemma queue_step_get e c op :
  running c = Some (AwaitGet op) →
  queue_step e c
  = if storage_ok e then after_get e op c else fail e (Some op) c.
Proof. intros Hr. unfold queue_step. by rewrite Hr. Qed.

Lemma queue_step_set_init e c m :
  running c = Some (AwaitSet InitSession m) → storage_ok e = true →
  queue_step e c
  = settle e (Some InitSession) (set_local_sessions (Some m) c).
Proof. intros Hr Hok. unfold queue_step. by rewrite Hr, Hok. Qed.

Lemma queue_step_set_meta e c entry m :
  running c = Some (AwaitSet (AppendPageMeta entry) m) →
  storage_ok e = true →
  queue_step e c
  = settle e (Some (AppendPageMeta entry)) (set_local_sessions (Some m) c).
Proof. intros Hr Hok. unfold queue_step. by rewrite Hr, Hok. Qed.

Lemma storePageMeta_written c data sid session e0 e1 e2 :
  recording c = true → sessionId c = Some sid → sid ≠ "" →
  idle_queue c → stored_sessions c !! sid = Some session →
  storage_ok e1 = true → storage_ok e2 = true →
  local_sessions
    (run (storePageMeta data c) [Resume e0; Resume e1; Resume e2])
  = Some (<[sid := {| startTime := startTime session;
                      segments := segments session;
                      pageMeta :=
                        pageMeta session
                          ++ [ {| e_url := pm_url data;
                                  e_hostname := pm_hostname data;
                                  e_clientHints := pm_clientHints data;
                                  e_network := pm_network data;
                                  e_timestamp := pm_timestamp data |} ] |}]>
            (stored_sessions c))
  ∧ idle_queue
      (run (storePageMeta data c) [Resume e0; Resume e1; Resume e2]).
Proof.
  intros Hrec Hsid Hne [Hp Hr] Hs Hok1 Hok2.
  unfold run. cbn [fold_left act]. unfold storePageMeta.
  rewrite Hrec, Hsid, truthy_string_nonempty by done. cbn [negb orb].
  unfold enqueueWrite. rewrite Hp. cbn [app].
  erewrite (queue_step_begin e0) by (cbn; done). cbn [fst].
  erewrite (queue_step_get e1) by (cbn; done). rewrite Hok1.
  unfold after_get. cbn [local_sessions sessionId set_running set_pending].
  fold (stored_sessions c). rewrite Hsid. cbn [property_key]. rewrite Hs.
  cbn [fst].
  erewrite (queue_step_set_meta e2) by (cbn; done).
  unfold settle, idle_queue. cbn. done.
Qed.

(** X23. A [page_meta] message received while recording appends one entry,
    with the message's fields, to the page metadata of the current session
    and leaves everything else in the store as it was. *)
Theorem page_meta_is_appended c env data sid session e0 e1 e2 :
  recording c = true → sessionId c = Some sid → sid ≠ "" →
  stateRestored c = true → idle_queue c →
  stored_sessions c !! sid = Some session →
  storage_ok e1 = true → storage_ok e2 = true →
  local_sessions
    (run c [Receive env (page_meta data); Resume e0; Resume e1; Resume e2])
  = Some (<[sid := {| startTime := startTime session;
                      segments := segments session;
                      pageMeta :=
                        pageMeta session
                          ++ [ {| e_url := pm_url data;
                                  e_hostname := pm_hostname data;
                                  e_clientHints := pm_clientHints data;
                                  e_network := pm_network data;
                                  e_timestamp := pm_timestamp data |} ] |}]>
            (stored_sessions c))
  ∧ idle_queue
      (run c [Receive env (page_meta data); Resume e0; Resume e1; Resume e2]).
Proof.
  intros Hrec Hsid Hne Hres Hi Hs Hok1 Hok2.
  rewrite run_cons_act. cbn [act]. unfold handle.
  rewrite restoreState_restored by done. cbn [fst].
  by apply storePageMeta_written.
Qed.

Lemma page_meta_is_appended_witness :
  let c := recording_under "s1" (Some {[ "s1" := new_session ]}) in
  stored_sessions c !! "s1" = Some new_session
  ∧ pageMeta <$>
      (local_sessions
         (run c [ Receive (from_tab 7) (page_meta a_page);
                  Resume storage_up; Resume storage_up; Resume storage_up ])
         ≫= (.!! "s1"))
    = Some [ {| e_url := "https://tickets.example/cart";
                e_hostname := "tickets.example"; e_clientHints := None;
                e_network := None; e_timestamp := 1700000001000 |} ].
Proof.
  cbn zeta.
  assert (stored_sessions
            (recording_under "s1" (Some {[ "s1" := new_session ]})) !! "s1"
          = Some new_session) as Hs by (vm_compute; reflexivity).
  assert ("s1" ≠ "") as Hne by discriminate.
  split; [exact Hs|].
  rewrite (proj1 (page_meta_is_appended
                    (recording_under "s1" (Some {[ "s1" := new_session ]}))
                    (from_tab 7) a_page "s1" new_session storage_up
                    storage_up storage_up eq_refl eq_refl Hne eq_refl
                    (conj eq_refl eq_refl) Hs eq_refl eq_refl)).
  cbn [mbind option_bind]. by rewrite lookup_insert_eq.
Defined.

(** X24. When the system goes idle or is locked while recording, the current
    session gets a page-metadata entry addressed [system] and stamped with
    the time of the change; any other state change does nothing. *)
Theorem idle_state_marks_session c now state sid session e0 e1 e2 :
  recording c = true → sessionId c = Some sid → sid ≠ "" →
  idle_queue c → stored_sessions c !! sid = Some session →
  storage_ok e1 = true → storage_ok e2 = true →
  (state = "idle" ∨ state = "locked" →
   local_sessions
     (run c [IdleState now state; Resume e0; Resume e1; Resume e2])
   = Some (<[sid := {| startTime := startTime session;
                       segments := segments session;
                       pageMeta :=
                         pageMeta session
                           ++ [ {| e_url := "system"; e_hostname := "system";
                                   e_clientHints := None; e_network := None;
                                   e_timestamp := now |} ] |}]>
             (stored_sessions c)))
  ∧ (state ≠ "idle" → state ≠ "locked" →
     act (IdleState now state) c = c).
Proof.
  intros Hrec Hsid Hne Hi Hs Hok1 Hok2. split.
  - intros Hst. rewrite run_cons_act. cbn [act]. unfold onIdleStateChanged.
    rewrite Hrec, Hsid, truthy_string_nonempty by done. cbn [negb].
    assert (String.eqb state "idle" || String.eqb state "locked" = true)
      as -> by (destruct Hst as [-> | ->]; done).
    exact (proj1 (storePageMeta_written c
                    {| pm_sessionId := None; pm_url := "system";
                       pm_hostname := "system"; pm_clientHints := None;
                       pm_network := None; pm_timestamp := now |}
                    sid session e0 e1 e2 Hrec Hsid Hne Hi Hs Hok1 Hok2)).
  - intros H1 H2. cbn [act]. unfold onIdleStateChanged.
    rewrite Hrec. cbn [negb].
    destruct (String.eqb_spec state "idle"); [done|].
    destruct (String.eqb_spec state "locked"); done.
Qed.

Lemma idle_state_marks_session_witness :
  let c := recording_under "s1" (Some {[ "s1" := new_session ]}) in
  stored_sessions c !! "s1" = Some new_session
  ∧ pageMeta <$>
      (local_sessions
         (run c [ IdleState 1700000009000 "locked";
                  Resume storage_up; Resume storage_up; Resume storage_up ])
         ≫= (.!! "s1"))
    = Some [ {| e_url := "system"; e_hostname := "system";
                e_clientHints := None; e_network := None;
                e_timestamp := 1700000009000 |} ]
  ∧ act (IdleState 1700000009000 "active") c = c.
Proof.
  cbn zeta.
  assert (stored_sessions
            (recording_under "s1" (Some {[ "s1" := new_session ]})) !! "s1"
          = Some new_session) as Hs by (vm_compute; reflexivity).
  assert ("s1" ≠ "") as Hne by discriminate.
  split; [exact Hs|]. split.
  - rewrite (proj1 (idle_state_marks_session
                      (recording_under "s1" (Some {[ "s1" := new_session ]}))
                      1700000009000 "locked" "s1" new_session storage_up
                      storage_up storage_up eq_refl eq_refl Hne
                      (conj eq_refl eq_refl) Hs eq_refl eq_refl)
               (or_intror eq_refl)).
    cbn [mbind option_bind]. by rewrite lookup_insert_eq.
  - reflexivity.
Defined.

(** X25. Starting a recording creates an empty session under the fresh id
    beside the sessions already stored, resets the counters, turns recording
    on and broadcasts the new id. *)
Theorem start_creates_session c env e0 e1 e2 :
  recording c = false → stateRestored c = true → idle_queue c →
  storage_ok e1 = true → storage_ok e2 = true →
  local_sessions
    (run c [Receive env popup_start; Resume e0; Resume e1; Resume e2])
  = Some (<[randomUUID env := {| startTime := tick_now e1; segments := [];
                                 pageMeta := [] |}]> (stored_sessions c))
  ∧ status
      (run c [Receive env popup_start; Resume e0; Resume e1; Resume e2])
    = {| st_recording := true; st_sessionId := Some (randomUUID env);
         st_totalEvents := zero_counters; st_segmentCount := 0 |}
  ∧ idle_queue
      (run c [Receive env popup_start; Resume e0; Resume e1; Resume e2])
  ∧ (queue_step e2
       (run c [Receive env popup_start; Resume e0; Resume e1])).2
    = broadcast (tabs e2) (start_recording (Some (randomUUID env))).
Proof.
  intros Hrec Hres [Hp Hr] Hok1 Hok2.
  unfold run. cbn [fold_left act]. unfold handle.
  rewrite restoreState_restored by done. cbn [fst]. unfold startRecording.
  rewrite Hrec, restoreState_restored by done.
  unfold startNewSession, enqueueWrite.
  cbn [pending set_sessionId set_totalEvents set_segmentCount
       set_session_area]. rewrite Hp. cbn [app].
  erewrite (queue_step_begin e0) by (cbn; done). cbn [fst].
  erewrite (queue_step_get e1) by (cbn; done). rewrite Hok1.
  unfold after_get. cbn [fst].
  erewrite (queue_step_set_init e2) by (cbn; done).
  unfold settle, idle_queue, status, stored_sessions. cbn. done.
Qed.

Lemma start_creates_session_witness :
  let schedule := [ Receive (from_tab 7) popup_start; Resume storage_up;
                    Resume storage_up; Resume storage_up ] in
  recording installed = false
  ∧ status (run installed schedule)
    = {| st_recording := true; st_sessionId := Some "fresh";
         st_totalEvents := zero_counters; st_segmentCount := 0 |}
  ∧ idle_queue (run installed schedule).
Proof.
  cbn zeta. split; [reflexivity|].
  pose proof (start_creates_session installed (from_tab 7) storage_up
                storage_up storage_up eq_refl eq_refl (conj eq_refl eq_refl)
                eq_refl eq_refl) as (_ & H1 & H2 & _).
  split; [exact H1|exact H2].
Defined.

(** X26. If the storage call that should create the session fails, recording
    is turned on all the same: the failure is logged, the store has no entry
    for the new session, and the start is still broadcast. *)
Theorem start_survives_failed_session_write c env e0 e1 :
  recording c = false → stateRestored c = true → idle_queue c →
  storage_ok e1 = false →
  recording (run c [Receive env popup_start; Resume e0; Resume e1]) = true
  ∧ sessionId (run c [Receive env popup_start; Resume e0; Resume e1])
    = Some (randomUUID env)
  ∧ local_sessions (run c [Receive env popup_start; Resume e0; Resume e1])
    = local_sessions c
  ∧ errors (run c [Receive env popup_start; Resume e0; Resume e1])
    = S (errors c)
  ∧ idle_queue (run c [Receive env popup_start; Resume e0; Resume e1])
  ∧ (queue_step e1 (run c [Receive env popup_start; Resume e0])).2
    = broadcast (tabs e1) (start_recording (Some (randomUUID env))).
Proof.
  intros Hrec Hres [Hp Hr] Hok1.
  unfold run. cbn [fold_left act]. unfold handle.
  rewrite restoreState_restored by done. cbn [fst]. unfold startRecording.
  rewrite Hrec, restoreState_restored by done.
  unfold startNewSession, enqueueWrite.
  cbn [pending set_sessionId set_totalEvents set_segmentCount
       set_session_area]. rewrite Hp. cbn [app].
  erewrite (queue_step_begin e0) by (cbn; done). cbn [fst].
  erewrite (queue_step_get e1) by (cbn; done). rewrite Hok1.
  unfold fail, settle, idle_queue. cbn. done.
Qed.

Lemma start_survives_failed_session_write_witness :
  let schedule := [ Receive (from_tab 7) popup_start; Resume storage_up;
                    Resume storage_down ] in
  storage_ok storage_down = false
  ∧ recording (run installed schedule) = true
  ∧ local_sessions (run installed schedule) = local_sessions installed
  ∧ errors (run installed schedule) = S (errors installed).
Proof.
  cbn zeta. split; [reflexivity|].
  pose proof (start_survives_failed_session_write installed (from_tab 7)
                storage_up storage_down eq_refl eq_refl
                (conj eq_refl eq_refl) eq_refl) as (H1 & _ & H2 & H3 & _).
  split; [exact H1|]. split; [exact H2|exact H3].
Defined.

End SessionFacts.

(** * The page and the coordinator together *)
Section SystemFacts.
Import Content Scenario.

Lemma payload_size_hasData tab p :
  (0 < payload_size p)%nat →
  Background.hasData (Background.make_segment (Background.received tab p))
  = true.
Proof.
  unfold payload_size, Background.hasData. cbn.
  destruct (p_mouse p), (p_clicks p), (p_keystrokes p), (p_scroll p);
    cbn; intros H; try done; lia.
Qed.

(** X27. A payload a page sends is dropped by the coordinator's
    empty-fragment check only if it ends a segment and holds no record. *)
Theorem only_empty_terminal_flushes_are_dropped s tr p tab :
  p ∈ flushes (run s tr).2 →
  Background.hasData (Background.make_segment (Background.received tab p))
  = false →
  p_isSegmentEnd p = true
  ∧ p_mouse p = [] ∧ p_clicks p = [] ∧ p_keystrokes p = []
  ∧ p_scroll p = [].
Proof.
  intros Hp Hd. destruct (run_flush_origin tr s p Hp) as [_ Hn].
  assert (payload_size p = 0%nat) as Hz.
  { destruct (payload_size p) eqn:E; [done|].
    rewrite payload_size_hasData in Hd; [done|lia]. }
  split.
  - destruct (p_isSegmentEnd p); [done|]. specialize (Hn eq_refl). lia.
  - unfold payload_size in Hz.
    destruct (p_mouse p), (p_clicks p), (p_keystrokes p), (p_scroll p);
      cbn in Hz; try lia. done.
Qed.

Lemma only_empty_terminal_flushes_are_dropped_witness :
  let tr := [ (host 0 RuntimeAlive, MsgStartRecording (Some "s1"));
              (host 4000 RuntimeAlive, TimerFired IdleTimer) ] in
  ∃ p,
    p ∈ flushes (run page0 tr).2
    ∧ Background.hasData
        (Background.make_segment (Background.received (Some 7) p)) = false
    ∧ p_isSegmentEnd p = true.
Proof.
  cbn zeta.
  assert (∀ p,
            flushes
              (run page0
                 [ (host 0 RuntimeAlive, MsgStartRecording (Some "s1"));
                   (host 4000 RuntimeAlive, TimerFired IdleTimer) ]).2
            = [p] →
            p ∈ flushes
                  (run page0
                     [ (host 0 RuntimeAlive, MsgStartRecording (Some "s1"));
                       (host 4000 RuntimeAlive, TimerFired IdleTimer) ]).2)
    as Hin by (intros p ->; apply list_elem_of_here).
  assert (∀ p (Hp : p ∈ flushes
                        (run page0
                           [ (host 0 RuntimeAlive,
                              MsgStartRecording (Some "s1"));
                             (host 4000 RuntimeAlive,
                              TimerFired IdleTimer) ]).2)
            (Hd : Background.hasData
                    (Background.make_segment
                       (Background.received (Some 7) p)) = false),
            p ∈ flushes
                  (run page0
                     [ (host 0 RuntimeAlive, MsgStartRecording (Some "s1"));
                       (host 4000 RuntimeAlive, TimerFired IdleTimer) ]).2
            ∧ Background.hasData
                (Background.make_segment (Background.received (Some 7) p))
              = false
            ∧ p_isSegmentEnd p = true) as Hw.
  { intros p Hp Hd. split; [exact Hp|]. split; [exact Hd|].
    exact (proj1 (only_empty_terminal_flushes_are_dropped _ _ p (Some 7)
                    Hp Hd)). }
  eexists. apply Hw.
  - apply Hin. vm_compute. reflexivity.
  - reflexivity.
Defined.

End SystemFacts.
